(** * gohaven: a shallow embedding of [main.go]

    The program fetches a random wallpaper page from wallhaven.cc, scrapes
    the image address, downloads the image and sets it as the desktop
    background, looping until the user accepts an image.

    The embedding follows [main.go] function by function.  Everything the
    Go code obtains from outside the process (environment variables, child
    processes, the file system, the clock, the network, the HTML parser,
    standard input) is a system call answered by an arbitrary handler; every
    theorem below holds for all handlers. *)

From Stdlib Require Import ZArith Ascii String List Lia Bool.
From stdpp Require Import base gmap strings pretty list.

Local Open Scope Z_scope.

(** ** Go strings

    A Go [string] is a sequence of bytes, here a [string] of [ascii].  The
    functions of package [strings] that [main.go] calls are modelled on
    bytes: [strings_Contains] is Go's byte-wise substring test;
    [strings_ToLower] and [strings_TrimSpace] are Go's functions on ASCII
    input (Go additionally maps upper-case runes and trims space runes
    outside ASCII). *)

Definition is_upper (c : ascii) : bool :=
  ((65 <=? Z.of_nat (nat_of_ascii c)) && (Z.of_nat (nat_of_ascii c) <=? 90))%bool.

Definition lower_byte (c : ascii) : ascii :=
  if is_upper c then ascii_of_nat (nat_of_ascii c + 32) else c.

Fixpoint strings_ToLower (s : string) : string :=
  match s with
  | EmptyString => EmptyString
  | String c r => String (lower_byte c) (strings_ToLower r)
  end.

Fixpoint strings_HasPrefix (s p : string) {struct p} : bool :=
  match p, s with
  | EmptyString, _ => true
  | String _ _, EmptyString => false
  | String b p', String a s' => (Ascii.eqb a b && strings_HasPrefix s' p')%bool
  end.

Fixpoint strings_Contains (s substr : string) : bool :=
  match s with
  | EmptyString => strings_HasPrefix EmptyString substr
  | String _ r => (strings_HasPrefix s substr || strings_Contains r substr)%bool
  end.

(** '\t', '\n', '\v', '\f', '\r', ' ' *)
Definition is_space (c : ascii) : bool :=
  let n := Z.of_nat (nat_of_ascii c) in
  (((9 <=? n) && (n <=? 13)) || (n =? 32))%bool.

Fixpoint trim_left (s : string) : string :=
  match s with
  | EmptyString => EmptyString
  | String c r => if is_space c then trim_left r else s
  end.

Fixpoint trim_right (s : string) : string :=
  match s with
  | EmptyString => EmptyString
  | String c r =>
      match trim_right r with
      | EmptyString => if is_space c then EmptyString else String c EmptyString
      | r' => String c r'
      end
  end.

Definition strings_TrimSpace (s : string) : string := trim_right (trim_left s).

(** [fmt.Sprintf] verbs: [%d] is [pretty] on [Z]; [%02d] pads one digit. *)
Definition fmt_d (n : Z) : string := pretty n.

Definition fmt_02d (n : Z) : string :=
  let s := pretty n in
  if (String.length s <? 2)%nat then "0" +:+ s else s.

(** ** HTML documents and the selectors of goquery

    [html.Node] trees as the parser of golang.org/x/net/html builds them;
    only element nodes take part in selection. *)

Record Attribute := mkAttr { Key : string; Val : string }.

#[warnings="-register-all"]
Inductive Node :=
| ElementNode (Data : string) (Attr : list Attribute) (children : list Node)
| OtherNode (Data : string).

(** The children of the document node. *)
Definition Document := list Node.

(** An element seen from a selector: its tag and attributes. *)
Definition Elem : Type := string * list Attribute.

(** The compiled forms of the selector strings of [main.go]. *)
Inductive Sel :=
| tagSelector (tag : string)
| classSelector (class : string)
| idSelector (id : string)
| compoundSelector (a b : Sel)
| descendantSelector (ancestor descendant : Sel).

(** cascadia's white space: ' ', '\t', '\r', '\n', '\f' *)
Definition is_css_space (c : ascii) : bool :=
  let n := nat_of_ascii c in
  ((n =? 32) || (n =? 9) || (n =? 13) || (n =? 10) || (n =? 12))%nat%bool.

(** cascadia's [matchInclude]: [val] is one of the white-space separated
    words of [s]. *)
Fixpoint words_from (cur : string) (s : string) : list string :=
  match s with
  | EmptyString => [cur]
  | String c r =>
      if is_css_space c then cur :: words_from EmptyString r
      else words_from (cur +:+ String c EmptyString) r
  end.

Definition matchInclude (val s : string) : bool :=
  existsb (fun w => (negb (String.eqb w "") && String.eqb w val)%bool)
          (words_from "" s).

(** cascadia's [matchAttribute]: some attribute named [key] satisfies [f]. *)
Definition matchAttribute (e : Elem) (key : string) (f : string -> bool) : bool :=
  existsb (fun a => (String.eqb (Key a) key && f (Val a))%bool) (snd e).

Fixpoint any_suffix {A} (p : list A -> bool) (l : list A) : bool :=
  match l with
  | [] => false
  | _ :: tl => (p l || any_suffix p tl)%bool
  end.

(** [chain] is the element followed by its ancestors, nearest first. *)
Fixpoint sel_match (sel : Sel) (chain : list Elem) : bool :=
  match sel with
  | tagSelector t =>
      match chain with e :: _ => String.eqb (fst e) t | [] => false end
  | classSelector c =>
      match chain with
      | e :: _ => matchAttribute e "class" (matchInclude c)
      | [] => false
      end
  | idSelector i =>
      match chain with
      | e :: _ => matchAttribute e "id" (fun s => String.eqb s i)
      | [] => false
      end
  | compoundSelector a b => (sel_match a chain && sel_match b chain)%bool
  | descendantSelector a d =>
      (sel_match d chain && any_suffix (sel_match a) (tl chain))%bool
  end.

(** cascadia's [QueryAll]: the node and its descendants, in document order. *)
Fixpoint queryAll (sel : Sel) (anc : list Elem) (n : Node) : list Node :=
  match n with
  | ElementNode tag attrs ch =>
      let chain := (tag, attrs) :: anc in
      (if sel_match sel chain then [n] else [])
        ++ flat_map (queryAll sel chain) ch
  | OtherNode _ => []
  end.

(** A goquery [Selection]. *)
Definition Selection := list Node.

(** [doc.Find(selector)] *)
Definition Find (sel : Sel) (doc : Document) : Selection :=
  flat_map (queryAll sel []) doc.

Fixpoint getAttributeValue (attrName : string) (attrs : list Attribute)
  : string * bool :=
  match attrs with
  | [] => ("", false)
  | a :: r =>
      if String.eqb (Key a) attrName then (Val a, true)
      else getAttributeValue attrName r
  end.

(** [Selection.Attr]: the attribute of the first element of the selection. *)
Definition Sel_Attr (s : Selection) (attrName : string) : string * bool :=
  match s with
  | ElementNode _ attrs _ :: _ => getAttributeValue attrName attrs
  | _ => ("", false)
  end.

(** ".scrollbox img", "#wallpaper", "img#showcase-wallpaper", "img",
    ".thumb a" *)
Definition sel_scrollbox_img : Sel :=
  descendantSelector (classSelector "scrollbox") (tagSelector "img").
Definition sel_wallpaper : Sel := idSelector "wallpaper".
Definition sel_showcase : Sel :=
  compoundSelector (tagSelector "img") (idSelector "showcase-wallpaper").
Definition sel_img : Sel := tagSelector "img".
Definition sel_thumb_a : Sel :=
  descendantSelector (classSelector "thumb") (tagSelector "a").

(** main.go 224-236: the selector chain of [downloadWallpaper]. *)
Definition extractImageSource (doc : Document) : string * bool :=
  let '(src, exists_) := Sel_Attr (Find sel_scrollbox_img doc) "data-cfsrc" in
  let '(src, exists_) :=
    if negb exists_ then Sel_Attr (Find sel_wallpaper doc) "src"
    else (src, exists_) in
  let '(src, exists_) :=
    if negb exists_ then Sel_Attr (Find sel_showcase doc) "src"
    else (src, exists_) in
  (src, exists_).

(** ** The world outside the process *)

(** A Go [error] by its message; [nil] is [None]. *)
Definition Err := string.
Definition error := option Err.

Inductive result (A : Type) :=
| Ok (a : A)
| Error (err : Err).
Arguments Ok {A} a.
Arguments Error {A} err.

(** The readings of a [time.Time] that [main.go] takes. *)
Record Time := mkTime {
  Day : Z; Month : Z; Year : Z; Hour : Z; Minute : Z; UnixMilli : Z }.

(** An open [*os.File] and an [io.ReadCloser] response body: handles whose
    meaning is the handler's. *)
Record File := mkFile { fd : nat }.
Record Body := mkBody { stream : nat }.

Record Request := mkRequest {
  Method : string; URL : string; Header : gmap string string }.

Record Response := mkResponse { StatusCode : Z; RespBody : Body }.

(** [req.Header.Set(key, value)] *)
Definition Header_Set (req : Request) (key value : string) : Request :=
  {| Method := Method req; URL := URL req;
     Header := <[key := value]> (Header req) |}.

(** The calls [main.go] makes to the Go library and the operating system,
    indexed by what they return. *)
Inductive call : Type -> Type :=
| os_Getenv (key : string) : call string
| time_Now : call Time
| time_Sleep (nanoseconds : Z) : call unit
| os_OpenFile (name : string) (flag perm : Z) : call (result File)
| os_Create (name : string) : call (result File)
| File_WriteString (f : File) (s : string) : call (Z * error)
| File_Close (f : File) : call error
| io_Copy (dst : File) (src : Body) : call (Z * error)
| os_Stat (name : string) : call error
| os_ReadFile (name : string) : call (string * error)
| os_MkdirAll (path : string) (perm : Z) : call error
| os_Getwd : call (string * error)
| filepath_Abs (path : string) : call (string * error)
| exec_LookPath (file : string) : call error
(** [exec.Command(name, args...).Output()]: standard output and error *)
| Cmd_Output (name : string) (args : list string) : call (string * error)
(** [cmd.Run()] with both streams captured: stdout, stderr and error *)
| Cmd_Run (name : string) (args : list string) : call (string * string * error)
(** [http.NewRequest(method, url, nil)]: only its error is external *)
| http_NewRequest (method url : string) : call error
| Client_Do (req : Request) : call (result Response)
| Body_Close (b : Body) : call error
| goquery_NewDocumentFromReader (b : Body) : call (result Document)
(** [fmt.Print], [fmt.Println], [fmt.Printf]: the text written to stdout *)
| fmt_Print (s : string) : call unit
| log_Printf (s : string) : call unit
| log_Fatalf (s : string) : call unit
(** [scanner.Scan()] then [scanner.Text()]: the line read, empty at EOF *)
| Scanner_Scan : call string.

(** What happened: a call with its answer, or a write to [logBuffer]. *)
Inductive event :=
| EvGetenv (key : string) (v : string)
| EvNow (now : Time)
| EvSleep (nanoseconds : Z)
| EvOpenFile (name : string) (flag perm : Z) (r : result File)
| EvCreate (name : string) (r : result File)
| EvWriteString (f : File) (s : string) (r : Z * error)
| EvClose (f : File) (r : error)
| EvCopy (dst : File) (src : Body) (r : Z * error)
| EvStat (name : string) (r : error)
| EvReadFile (name : string) (r : string * error)
| EvMkdirAll (path : string) (perm : Z) (r : error)
| EvGetwd (r : string * error)
| EvAbs (path : string) (r : string * error)
| EvLookPath (file : string) (r : error)
| EvOutput (name : string) (args : list string) (r : string * error)
| EvRun (name : string) (args : list string) (r : string * string * error)
| EvNewRequest (method url : string) (r : error)
| EvDo (req : Request) (r : result Response)
| EvBodyClose (b : Body) (r : error)
| EvParse (b : Body) (r : result Document)
| EvPrint (s : string)
| EvLogPrintf (s : string)
| EvFatalf (s : string)
| EvScan (line : string)
| EvLog (s : string).

Definition mk_event {X} (c : call X) : X -> event :=
  match c in call X return X -> event with
  | os_Getenv k => EvGetenv k
  | time_Now => EvNow
  | time_Sleep d => fun _ => EvSleep d
  | os_OpenFile n f p => EvOpenFile n f p
  | os_Create n => EvCreate n
  | File_WriteString f s => EvWriteString f s
  | File_Close f => EvClose f
  | io_Copy d s => EvCopy d s
  | os_Stat n => EvStat n
  | os_ReadFile n => EvReadFile n
  | os_MkdirAll p m => EvMkdirAll p m
  | os_Getwd => EvGetwd
  | filepath_Abs p => EvAbs p
  | exec_LookPath f => EvLookPath f
  | Cmd_Output n a => EvOutput n a
  | Cmd_Run n a => EvRun n a
  | http_NewRequest m u => EvNewRequest m u
  | Client_Do r => EvDo r
  | Body_Close b => EvBodyClose b
  | goquery_NewDocumentFromReader b => EvParse b
  | fmt_Print s => fun _ => EvPrint s
  | log_Printf s => fun _ => EvLogPrintf s
  | log_Fatalf s => fun _ => EvFatalf s
  | Scanner_Scan => EvScan
  end.

(** The platform the program runs on: a state of its own, an answer to every
    call, and the pure path arithmetic of [filepath.Join]. *)
Class Platform := {
  os_state : Type;
  handle : forall X, call X -> os_state -> X * os_state;
  filepath_Join : list string -> string
}.

(** ** The program monad: [logBuffer], the platform state, and a trace *)

Section Program.
Context {P : Platform}.

(** [var logBuffer strings.Builder] and the state of the outside world. *)
Record St := mkSt { logBuffer : string; os : os_state }.

Definition M (A : Type) : Type := St -> A * list event * St.

Definition ret {A} (a : A) : M A := fun s => (a, [], s).

Definition bind {A B} (m : M A) (f : A -> M B) : M B :=
  fun s =>
    let '(a, t1, s1) := m s in
    let '(b, t2, s2) := f a s1 in
    (b, t1 ++ t2, s2).

Definition sys {X} (c : call X) : M X :=
  fun s =>
    let '(r, o) := handle X c (os s) in
    (r, [mk_event c r], mkSt (logBuffer s) o).

Definition logBuffer_WriteString (str : string) : M unit :=
  fun s => (tt, [EvLog str], mkSt (logBuffer s +:+ str) (os s)).

Definition logBuffer_String : M string :=
  fun s => (logBuffer s, [], s).

Definition logBuffer_Reset : M unit :=
  fun s => (tt, [], mkSt "" (os s)).

End Program.

Declare Scope prog_scope.
Delimit Scope prog_scope with prog.
Notation "x <- m ;; k" := (bind m (fun x => k))
  (at level 100, m at next level, right associativity) : prog_scope.
Notation "m ;; k" := (bind m (fun _ => k))
  (at level 100, right associativity) : prog_scope.
Local Open Scope prog_scope.

Section Functions.
Context {P : Platform}.

(** [defer c] in front of the rest [m] of a function body. *)
Definition defer {A B} (c : M B) (m : M A) : M A :=
  r <- m ;; c ;; ret r.

Definition nl : string := String (ascii_of_nat 10) EmptyString.

Definition logsDir : string := "logs".

Definition O_WRONLY : Z := 1.
Definition O_CREATE : Z := 64.
Definition O_APPEND : Z := 1024.

(** The octal modes 0644 and 0755. *)
Definition perm_0644 : Z := 420.
Definition perm_0755 : Z := 493.

(** main.go 26-27: the log file of the day. *)
Definition logPath_of (now : Time) : string :=
  let logFileName :=
    fmt_d (Day now) +:+ "-" +:+ fmt_d (Month now) +:+ "-"
      +:+ fmt_d (Year now) +:+ ".log" in
  filepath_Join [logsDir; logFileName].

(** main.go 29: the line that closes a block of the log. *)
Definition log_header (now : Time) : string :=
  "----------------- " +:+ fmt_02d (Hour now) +:+ ":"
    +:+ fmt_02d (Minute now) +:+ " -----------------" +:+ nl.

Definition log_flags : Z := Z.lor (Z.lor O_APPEND O_CREATE) O_WRONLY.

(** main.go 24-43 *)
Definition writeLog : M error :=
  now <- sys time_Now ;;
  let logPath := logPath_of now in
  logBuffer_WriteString (log_header now) ;;
  r <- sys (os_OpenFile logPath log_flags perm_0644) ;;
  match r with
  | Error err => ret (Some ("failed to open log file: " +:+ err))
  | Ok f =>
      defer (sys (File_Close f))
        (buf <- logBuffer_String ;;
         w <- sys (File_WriteString f buf) ;;
         match snd w with
         | Some err => ret (Some ("failed to write to log file: " +:+ err))
         | None => logBuffer_Reset ;; ret None
         end)
  end.

Definition is_nil (e : error) : bool :=
  match e with None => true | Some _ => false end.

(** main.go 46-74 *)
Definition detectWindowManager : M string :=
  xdgDesktop <- sys (os_Getenv "XDG_CURRENT_DESKTOP") ;;
  desktopSession <- sys (os_Getenv "DESKTOP_SESSION") ;;
  if (strings_Contains (strings_ToLower xdgDesktop) "gnome"
      || strings_Contains (strings_ToLower desktopSession) "gnome")%bool
  then ret "gnome"
  else if (strings_Contains (strings_ToLower xdgDesktop) "i3"
           || strings_Contains (strings_ToLower desktopSession) "i3")%bool
  then ret "i3"
  else if (strings_Contains (strings_ToLower xdgDesktop) "dwm"
           || strings_Contains (strings_ToLower desktopSession) "dwm")%bool
  then ret "dwm"
  else
    o <- sys (Cmd_Output "pgrep" ["-l"; "dwm"]) ;;
    if (is_nil (snd o) && strings_Contains (fst o) "dwm")%bool
    then ret "dwm"
    else
      o <- sys (Cmd_Output "pgrep" ["-l"; "i3"]) ;;
      if (is_nil (snd o) && strings_Contains (fst o) "i3")%bool
      then ret "i3"
      else ret "unknown".

(** The recurring [if err := writeLog(); err != nil { log.Printf(...) }]. *)
Definition flushLog : M unit :=
  e <- writeLog ;;
  match e with
  | Some err => sys (log_Printf ("Failed to write log: " +:+ err))
  | None => ret tt
  end.

(** How a block of a function body ends: by a [return], or by reaching its
    end with some [defer]red closes pending. *)
Inductive flow :=
| Returned (r : error)
| Next (deferred : list File).

Fixpoint close_all (fs : list File) : M unit :=
  match fs with
  | [] => ret tt
  | f :: r => sys (File_Close f) ;; close_all r
  end.

(** main.go 92-120: [case "gnome"] *)
Definition setWallpaper_gnome (absPath : string) : M flow :=
  let command :=
    "gsettings set org.gnome.desktop.background picture-uri file://"
      +:+ absPath in
  sys (fmt_Print ("running: " +:+ command +:+ nl)) ;;
  logBuffer_WriteString (command +:+ nl) ;;
  run <- sys (Cmd_Run "gsettings"
                ["set"; "org.gnome.desktop.background"; "picture-uri";
                 "file://" +:+ absPath]) ;;
  let '(stdout, stderr, err) := run in
  match err with
  | Some err =>
      logBuffer_WriteString ("Error: " +:+ err +:+ nl) ;;
      flushLog ;;
      ret (Returned (Some ("failed to set wallpaper: " +:+ err)))
  | None =>
      if negb (String.eqb stderr "") then
        logBuffer_WriteString ("stderr: " +:+ stderr +:+ nl) ;;
        flushLog ;;
        ret (Returned (Some ("gsettings stderr: " +:+ stderr)))
      else
        sys (fmt_Print (stdout +:+ nl)) ;;
        logBuffer_WriteString ("stdout: " +:+ stdout +:+ nl) ;;
        ret (Next [])
  end.

(** main.go 160-183: the i3 configuration keeps the wallpaper. *)
Definition persist_i3 (absPath : string) : M (list File) :=
  home <- sys (os_Getenv "HOME") ;;
  let configPath := filepath_Join [home; ".config"; "i3"; "config"] in
  st <- sys (os_Stat configPath) ;;
  match st with
  | Some _ => ret []
  | None =>
      rd <- sys (os_ReadFile configPath) ;;
      let '(configContent, err) := rd in
      match err with
      | Some err =>
          logBuffer_WriteString
            ("Warning: could not read i3 config: " +:+ err +:+ nl) ;;
          ret []
      | None =>
          if negb (strings_Contains configContent
                     ("feh --bg-scale " +:+ absPath))
          then
            o <- sys (os_OpenFile configPath (Z.lor O_APPEND O_WRONLY)
                        perm_0644) ;;
            match o with
            | Error err =>
                logBuffer_WriteString
                  ("Warning: could not append to i3 config: " +:+ err
                     +:+ nl) ;;
                ret []
            | Ok f =>
                let fehLine :=
                  nl +:+ "exec --no-startup-id feh --bg-scale " +:+ absPath
                     +:+ nl in
                w <- sys (File_WriteString f fehLine) ;;
                match snd w with
                | Some err =>
                    logBuffer_WriteString
                      ("Warning: could not write to i3 config: " +:+ err
                         +:+ nl)
                | None =>
                    logBuffer_WriteString
                      ("Added feh command to i3 config for persistence"
                         +:+ nl)
                end ;;
                ret [f]
            end
          else ret []
      end
  end.

(** main.go 121-183: [case "dwm", "i3"] *)
Definition setWallpaper_feh (wm absPath : string) : M flow :=
  lp <- sys (exec_LookPath "feh") ;;
  match lp with
  | Some err =>
      logBuffer_WriteString
        ("Error: feh not found. Please install feh to set wallpapers in DWM or i3."
           +:+ nl) ;;
      flushLog ;;
      ret (Returned (Some ("feh not found: " +:+ err)))
  | None =>
      let command := "feh --bg-scale " +:+ absPath in
      sys (fmt_Print ("running: " +:+ command +:+ nl)) ;;
      logBuffer_WriteString (command +:+ nl) ;;
      run <- sys (Cmd_Run "feh" ["--bg-scale"; absPath]) ;;
      let '(stdout, stderr, err) := run in
      match err with
      | Some err =>
          logBuffer_WriteString ("Error: " +:+ err +:+ nl) ;;
          flushLog ;;
          ret (Returned (Some ("failed to set wallpaper with feh: " +:+ err)))
      | None =>
          if negb (String.eqb stderr "") then
            logBuffer_WriteString ("stderr: " +:+ stderr +:+ nl) ;;
            flushLog ;;
            ret (Returned (Some ("feh stderr: " +:+ stderr)))
          else
            sys (fmt_Print (stdout +:+ nl)) ;;
            logBuffer_WriteString ("stdout: " +:+ stdout +:+ nl) ;;
            if String.eqb wm "i3" then
              fs <- persist_i3 absPath ;; ret (Next fs)
            else ret (Next [])
      end
  end.

(** main.go 76-196 *)
Definition setWallpaper (wallpaperFileName picturesDir : string) : M error :=
  let wallpaperPath := filepath_Join [picturesDir; wallpaperFileName] in
  a <- sys (filepath_Abs wallpaperPath) ;;
  let '(absPath, err) := a in
  match err with
  | Some err =>
      logBuffer_WriteString
        ("Error getting absolute path: " +:+ err +:+ nl) ;;
      flushLog ;;
      ret (Some ("failed to get absolute path: " +:+ err))
  | None =>
      wm <- detectWindowManager ;;
      logBuffer_WriteString ("Detected window manager: " +:+ wm +:+ nl) ;;
      fl <- (if String.eqb wm "gnome" then setWallpaper_gnome absPath
             else if (String.eqb wm "dwm" || String.eqb wm "i3")%bool
             then setWallpaper_feh wm absPath
             else
               logBuffer_WriteString
                 ("Error: unknown window manager. Supported: gnome, dwm, i3."
                    +:+ nl) ;;
               flushLog ;;
               ret (Returned (Some ("unknown window manager: " +:+ wm)))) ;;
      match fl with
      | Returned r => ret r
      | Next deferred =>
          logBuffer_WriteString ("Wallpaper Set" +:+ nl) ;;
          sys (fmt_Print ("Wallpaper Set" +:+ nl)) ;;
          r <- writeLog ;;
          close_all deferred ;;
          ret r
      end
  end.

Definition userAgent : string :=
  "Mozilla/5.0 (X11; Linux x86_64; rv:109.0) Gecko/20100101 Firefox/115.0".
Definition acceptHeader : string :=
  "text/html,application/xhtml+xml,application/xml;q=0.9,image/webp,*/*;q=0.8".

Definition http_StatusOK : Z := 200.

(** [Selection.Each]: the callback on every element with its index. *)
Fixpoint Each_from (i : Z) (s : Selection) (f : Z -> Selection -> M unit)
  : M unit :=
  match s with
  | [] => ret tt
  | n :: r => f i [n] ;; Each_from (i + 1) r f
  end.

Definition Each (s : Selection) (f : Z -> Selection -> M unit) : M unit :=
  Each_from 0 s f.

(** main.go 241-246: one line of the dump of the img tags. *)
Definition img_line (i : Z) (s : Selection) : string :=
  let '(imgSrc, _) := Sel_Attr s "src" in
  let '(imgDataSrc, _) := Sel_Attr s "data-cfsrc" in
  "img " +:+ fmt_d i +:+ ": src=" +:+ imgSrc +:+ ", data-cfsrc="
    +:+ imgDataSrc +:+ nl.

(** main.go 255: the name of the downloaded file. *)
Definition wallpaperFileName_of (now : Time) (wallpaperID : string) : string :=
  fmt_d (UnixMilli now) +:+ "-" +:+ wallpaperID +:+ ".png".

(** main.go 198-292 *)
Definition downloadWallpaper (url picturesDir : string) : M error :=
  e <- sys (http_NewRequest "GET" url) ;;
  match e with
  | Some err => ret (Some ("failed to create request: " +:+ err))
  | None =>
  let req := mkRequest "GET" url ∅ in
  let req := Header_Set req "User-Agent" userAgent in
  let req := Header_Set req "Accept" acceptHeader in
  d <- sys (Client_Do req) ;;
  match d with
  | Error err => ret (Some ("failed to fetch wallpaper page: " +:+ err))
  | Ok resp =>
  defer (sys (Body_Close (RespBody resp)))
   (if negb (StatusCode resp =? http_StatusOK) then
      ret (Some ("unexpected status code: " +:+ fmt_d (StatusCode resp)))
    else
    p <- sys (goquery_NewDocumentFromReader (RespBody resp)) ;;
    match p with
    | Error err => ret (Some ("failed to parse HTML: " +:+ err))
    | Ok doc =>
    let '(src, exists_) := extractImageSource doc in
    if negb exists_ then
      sys (fmt_Print ("No image source found. Dumping img tags:" +:+ nl)) ;;
      logBuffer_WriteString ("No image source found. Dumping img tags:" +:+ nl) ;;
      Each (Find sel_img doc)
        (fun i s =>
           sys (fmt_Print (img_line i s)) ;;
           logBuffer_WriteString (img_line i s)) ;;
      ret (Some "wallpaper image source not found")
    else
    let '(wallpaperID, exists_) :=
      Sel_Attr (Find sel_scrollbox_img doc) "data-wallpaper-id" in
    let wallpaperID := if negb exists_ then "unknown" else wallpaperID in
    now <- sys time_Now ;;
    let wallpaperFileName := wallpaperFileName_of now wallpaperID in
    let filePath := filepath_Join [picturesDir; wallpaperFileName] in
    e <- sys (http_NewRequest "GET" src) ;;
    match e with
    | Some err => ret (Some ("failed to create image request: " +:+ err))
    | None =>
    let imgReq := mkRequest "GET" src ∅ in
    let imgReq := Header_Set imgReq "User-Agent" userAgent in
    d <- sys (Client_Do imgReq) ;;
    match d with
    | Error err => ret (Some ("failed to download wallpaper: " +:+ err))
    | Ok imgResp =>
    defer (sys (Body_Close (RespBody imgResp)))
     (if negb (StatusCode imgResp =? http_StatusOK) then
        ret (Some ("unexpected image download status code: "
                     +:+ fmt_d (StatusCode imgResp)))
      else
      sys (fmt_Print ("Starting Download" +:+ nl)) ;;
      logBuffer_WriteString ("Starting Download" +:+ nl) ;;
      c <- sys (os_Create filePath) ;;
      match c with
      | Error err => ret (Some ("failed to create image file: " +:+ err))
      | Ok f =>
      defer (sys (File_Close f))
       (w <- sys (io_Copy f (RespBody imgResp)) ;;
        match snd w with
        | Some err => ret (Some ("failed to save image: " +:+ err))
        | None =>
            sys (fmt_Print ("Download done" +:+ nl)) ;;
            logBuffer_WriteString ("Download done" +:+ nl) ;;
            setWallpaper wallpaperFileName picturesDir
        end)
      end)
    end
    end
    end)
  end
  end.

(** [Selection.First] *)
Definition First (s : Selection) : Selection := firstn 1 s.

(** main.go 294-323 *)
Definition fetchRandomWallpaperURL : M (string * error) :=
  e <- sys (http_NewRequest "GET" "https://wallhaven.cc/random") ;;
  match e with
  | Some err => ret ("", Some ("failed to create request: " +:+ err))
  | None =>
  let req := mkRequest "GET" "https://wallhaven.cc/random" ∅ in
  let req := Header_Set req "User-Agent" userAgent in
  d <- sys (Client_Do req) ;;
  match d with
  | Error err => ret ("", Some ("failed to fetch random page: " +:+ err))
  | Ok resp =>
  defer (sys (Body_Close (RespBody resp)))
   (if negb (StatusCode resp =? http_StatusOK) then
      ret ("", Some ("unexpected status code: " +:+ fmt_d (StatusCode resp)))
    else
    p <- sys (goquery_NewDocumentFromReader (RespBody resp)) ;;
    match p with
    | Error err => ret ("", Some ("failed to parse random page HTML: " +:+ err))
    | Ok doc =>
        let '(src, exists_) := Sel_Attr (First (Find sel_thumb_a doc)) "href" in
        if negb exists_ then ret ("", Some "wallpaper random URL not found")
        else ret (src, None)
    end)
  end
  end.

(** [2 * time.Second], in nanoseconds. *)
Definition two_seconds : Z := 2 * 1000000000.

(** How one turn of the [for] loop of [main] ends. *)
Inductive turn := Continue | Break.

(** main.go 353-397: the body of the loop. *)
Definition iteration (picturesDir : string) : M turn :=
  r <- fetchRandomWallpaperURL ;;
  let '(src, err) := r in
  match err with
  | Some err =>
      sys (fmt_Print ("Error fetching random wallpaper URL: " +:+ err +:+ nl)) ;;
      logBuffer_WriteString
        ("Error fetching random wallpaper URL: " +:+ err +:+ nl) ;;
      flushLog ;;
      sys (time_Sleep two_seconds) ;;
      ret Continue
  | None =>
      sys (fmt_Print (src +:+ nl)) ;;
      logBuffer_WriteString (src +:+ nl) ;;
      e <- downloadWallpaper src picturesDir ;;
      match e with
      | Some err =>
          sys (fmt_Print ("Error downloading wallpaper: " +:+ err +:+ nl)) ;;
          logBuffer_WriteString
            ("Error downloading wallpaper: " +:+ err +:+ nl) ;;
          flushLog ;;
          sys (time_Sleep two_seconds) ;;
          ret Continue
      | None =>
          sys (fmt_Print "Do you like this wallpaper? (y/n): ") ;;
          line <- sys Scanner_Scan ;;
          let response := strings_ToLower (strings_TrimSpace line) in
          if String.eqb response "y" then
            sys (fmt_Print ("Keeping this wallpaper. Exiting." +:+ nl)) ;;
            logBuffer_WriteString
              ("User chose to keep wallpaper. Exiting." +:+ nl) ;;
            flushLog ;;
            ret Break
          else
            sys (fmt_Print ("Fetching next wallpaper..." +:+ nl)) ;;
            logBuffer_WriteString ("User chose next wallpaper." +:+ nl) ;;
            flushLog ;;
            ret Continue
      end
  end.

(** main.go 352-398: the [for] loop, cut off after [fuel] turns; [true] when
    it was left by [break]. *)
Fixpoint loop (fuel : nat) (picturesDir : string) : M bool :=
  match fuel with
  | O => ret false
  | S n =>
      t <- iteration picturesDir ;;
      match t with
      | Break => ret true
      | Continue => loop n picturesDir
      end
  end.

(** How the process ends: with an exit status, or still looping when the
    fuel runs out. *)
Inductive ending := Exit (status : Z) | Looping.

(** main.go 325-406 *)
Definition main (fuel : nat) : M ending :=
  sys (fmt_Print ("Wallhaven Download Started" +:+ nl)) ;;
  sys (fmt_Print
         "Enter the directory path to store wallpapers (e.g., /home/user/Pictures): ") ;;
  line <- sys Scanner_Scan ;;
  let picturesDir := strings_TrimSpace line in
  picturesDir <-
    (if String.eqb picturesDir "" then
       sys (fmt_Print ("No directory provided, using default: ./Pictures" +:+ nl)) ;;
       logBuffer_WriteString
         ("No directory provided, using default: ./Pictures" +:+ nl) ;;
       ret "./Pictures"
     else ret picturesDir) ;;
  e <- sys (os_MkdirAll logsDir perm_0755) ;;
  match e with
  | Some err =>
      sys (log_Fatalf ("Failed to create logs directory: " +:+ err)) ;;
      ret (Exit 1)
  | None =>
  e <- sys (os_MkdirAll picturesDir perm_0755) ;;
  match e with
  | Some err =>
      sys (log_Fatalf ("Failed to create pictures directory: " +:+ err)) ;;
      ret (Exit 1)
  | None =>
      sys (fmt_Print ("Using pictures directory: " +:+ picturesDir +:+ nl)) ;;
      logBuffer_WriteString
        ("Using pictures directory: " +:+ picturesDir +:+ nl) ;;
      left <- loop fuel picturesDir ;;
      if left then
        wd <- sys os_Getwd ;;
        match snd wd with
        | Some err =>
            sys (log_Printf ("Failed to get working directory: " +:+ err))
        | None => ret tt
        end ;;
        sys (fmt_Print (fst wd +:+ nl)) ;;
        ret (Exit 0)
      else ret Looping
  end
  end.

End Functions.

(** ** A simulated platform

    A small in-memory operating system on which the program runs to
    completion: an environment, a process list, files by path, a clock that
    is read from a list, canned web pages, and the faults the program can
    meet (unreadable paths, chatty tools, a disk that fills up). *)

Record Sim := mkSim {
  sim_env : gmap string string;
  sim_ps : list string;
  sim_path : list string;
  sim_tool : string * string * error;
  sim_fs : gmap string string;
  sim_locked : list string;
  sim_open : list string;
  sim_clock : list Time;
  sim_stdin : list string;
  sim_pages : gmap string (Z * nat);
  sim_docs : gmap nat Document;
  sim_blobs : gmap nat string;
  sim_quota : list (option nat)
}.

Definition sim_with_fs (w : Sim) (fs : gmap string string) : Sim :=
  mkSim (sim_env w) (sim_ps w) (sim_path w) (sim_tool w) fs (sim_locked w)
    (sim_open w) (sim_clock w) (sim_stdin w) (sim_pages w) (sim_docs w)
    (sim_blobs w) (sim_quota w).

Definition sim_with_open (w : Sim) (o : list string) : Sim :=
  mkSim (sim_env w) (sim_ps w) (sim_path w) (sim_tool w) (sim_fs w)
    (sim_locked w) o (sim_clock w) (sim_stdin w) (sim_pages w) (sim_docs w)
    (sim_blobs w) (sim_quota w).

Definition sim_with_clock (w : Sim) (c : list Time) : Sim :=
  mkSim (sim_env w) (sim_ps w) (sim_path w) (sim_tool w) (sim_fs w)
    (sim_locked w) (sim_open w) c (sim_stdin w) (sim_pages w) (sim_docs w)
    (sim_blobs w) (sim_quota w).

Definition sim_with_stdin (w : Sim) (i : list string) : Sim :=
  mkSim (sim_env w) (sim_ps w) (sim_path w) (sim_tool w) (sim_fs w)
    (sim_locked w) (sim_open w) (sim_clock w) i (sim_pages w) (sim_docs w)
    (sim_blobs w) (sim_quota w).

Definition sim_with_quota (w : Sim) (q : list (option nat)) : Sim :=
  mkSim (sim_env w) (sim_ps w) (sim_path w) (sim_tool w) (sim_fs w)
    (sim_locked w) (sim_open w) (sim_clock w) (sim_stdin w) (sim_pages w)
    (sim_docs w) (sim_blobs w) q.

Definition mem (x : string) (l : list string) : bool :=
  existsb (String.eqb x) l.

Fixpoint take_bytes (n : nat) (s : string) : string :=
  match n, s with
  | S k, String c r => String c (take_bytes k r)
  | _, _ => EmptyString
  end.

Definition epoch : Time := mkTime 1 1 1970 0 0 0.

Definition sim_open_file (w : Sim) (name : string) (content : string)
  : result File * Sim :=
  (Ok (mkFile (length (sim_open w))),
   sim_with_open (sim_with_fs w (<[name := content]> (sim_fs w)))
     (sim_open w ++ [name])).

Definition sim_append (w : Sim) (f : File) (s : string) : Sim :=
  match sim_open w !! fd f with
  | Some name =>
      sim_with_fs w (<[name := default "" (sim_fs w !! name) +:+ s]> (sim_fs w))
  | None => w
  end.

(** [filepath.Clean] and [filepath.Join] on Unix.  A path is split at its
    slashes; empty elements and [.] are dropped, [..] removes the element
    before it, is dropped at the root, and is kept in front of a path that
    is not rooted; the empty result is [.]. *)
Definition is_slash (c : ascii) : bool := Ascii.eqb c "/".

Fixpoint split_slash (cur : string) (s : string) : list string :=
  match s with
  | EmptyString => [cur]
  | String c r =>
      if is_slash c then cur :: split_slash EmptyString r
      else split_slash (cur +:+ String c EmptyString) r
  end.

(** [kept] holds the elements kept so far, the last one first. *)
Fixpoint clean_elements (rooted : bool) (kept elems : list string)
  : list string :=
  match elems with
  | [] => kept
  | e :: r =>
      if (String.eqb e "" || String.eqb e ".")%bool
      then clean_elements rooted kept r
      else if String.eqb e ".." then
        match kept with
        | top :: rest =>
            if String.eqb top ".." then clean_elements rooted (e :: kept) r
            else clean_elements rooted rest r
        | [] =>
            if rooted then clean_elements rooted [] r
            else clean_elements rooted [e] r
        end
      else clean_elements rooted (e :: kept) r
  end.

Fixpoint join_with_slash (elem : list string) : string :=
  match elem with
  | [] => ""
  | [e] => e
  | e :: r => e +:+ "/" +:+ join_with_slash r
  end.

Definition filepath_Clean (path : string) : string :=
  match path with
  | EmptyString => "."
  | String c _ =>
      let kept :=
        rev (clean_elements (is_slash c) [] (split_slash "" path)) in
      if is_slash c then "/" +:+ join_with_slash kept
      else match kept with
           | [] => "."
           | _ => join_with_slash kept
           end
  end.

(** [filepath.Join]: empty elements are ignored, the rest is joined by
    slashes and cleaned; with no element left the result is empty. *)
Definition join_slash (elem : list string) : string :=
  match List.filter (fun e => negb (String.eqb e "")) elem with
  | [] => ""
  | nonempty => filepath_Clean (join_with_slash nonempty)
  end.

Definition sim_handle (X : Type) (c : call X) (w : Sim) : X * Sim :=
  match c in call X return X * Sim with
  | os_Getenv k => (default "" (sim_env w !! k), w)
  | time_Now =>
      match sim_clock w with
      | [] => (epoch, w)
      | [t] => (t, w)
      | t :: r => (t, sim_with_clock w r)
      end
  | time_Sleep _ => (tt, w)
  | os_OpenFile name flag _ =>
      if mem name (sim_locked w) then (Error "permission denied", w)
      else
        match sim_fs w !! name with
        | Some content => sim_open_file w name content
        | None =>
            if Z.testbit flag 6 then sim_open_file w name ""
            else (Error "no such file or directory", w)
        end
  | os_Create name =>
      if mem name (sim_locked w) then (Error "permission denied", w)
      else sim_open_file w name ""
  | File_WriteString f s =>
      (Z.of_nat (String.length s), None, sim_append w f s)
  | File_Close _ => (None, w)
  | io_Copy f b =>
      let data := default "" (sim_blobs w !! stream b) in
      let w' := sim_with_quota w (tl (sim_quota w)) in
      match sim_quota w with
      | Some q :: _ =>
          if (q <? String.length data)%nat
          then (Z.of_nat q, Some "no space left on device",
                sim_append w' f (take_bytes q data))
          else (Z.of_nat (String.length data), None, sim_append w' f data)
      | _ => (Z.of_nat (String.length data), None, sim_append w' f data)
      end
  | os_Stat name =>
      (match sim_fs w !! name with
       | Some _ => None
       | None => Some "no such file or directory"
       end, w)
  | os_ReadFile name =>
      if mem name (sim_locked w) then ("", Some "permission denied", w)
      else
        match sim_fs w !! name with
        | Some content => (content, None, w)
        | None => ("", Some "no such file or directory", w)
        end
  | os_MkdirAll _ _ => (None, w)
  | os_Getwd => ("/home/user", None, w)
  | filepath_Abs p =>
      (if strings_HasPrefix p "/" then filepath_Clean p
       else join_slash ["/home/user"; p], None, w)
  | exec_LookPath file =>
      (if mem file (sim_path w) then None
       else Some "executable file not found in $PATH", w)
  | Cmd_Output _ args =>
      let hits :=
        filter (fun p => existsb (strings_Contains p) (tl args) = true)
               (sim_ps w) in
      (fold_right (fun p acc => "1 " +:+ p +:+ nl +:+ acc) "" hits,
       match hits with [] => Some "exit status 1" | _ => None end, w)
  | Cmd_Run _ _ => (sim_tool w, w)
  | http_NewRequest _ _ => (None, w)
  | Client_Do req =>
      (match sim_pages w !! URL req with
       | Some (status, b) => Ok (mkResponse status (mkBody b))
       | None => Error "no such host"
       end, w)
  | Body_Close _ => (None, w)
  | goquery_NewDocumentFromReader b =>
      (match sim_docs w !! stream b with
       | Some doc => Ok doc
       | None => Ok []
       end, w)
  | fmt_Print _ => (tt, w)
  | log_Printf _ => (tt, w)
  | log_Fatalf _ => (tt, w)
  | Scanner_Scan =>
      match sim_stdin w with
      | [] => ("", w)
      | l :: r => (l, sim_with_stdin w r)
      end
  end.

Definition simulated : Platform :=
  {| os_state := Sim; handle := sim_handle; filepath_Join := join_slash |}.

Definition detail_page : Document :=
  [ElementNode "html" []
     [ElementNode "body" []
        [ElementNode "div" [mkAttr "class" "scrollbox"]
           [ElementNode "img"
              [mkAttr "id" "wallpaper";
               mkAttr "data-cfsrc" "https://w.wallhaven.cc/full/ab/wallhaven-ab12cd.jpg";
               mkAttr "data-wallpaper-id" "ab12cd"] []]]]].

Definition random_page : Document :=
  [ElementNode "html" []
     [ElementNode "body" []
        [ElementNode "figure" [mkAttr "class" "thumb thumb-ab12cd"]
           [ElementNode "a" [mkAttr "href" "https://wallhaven.cc/w/ab12cd"] []]]]].

Definition world0 : Sim :=
  {| sim_env := {[ "XDG_CURRENT_DESKTOP" := "i3"; "HOME" := "/home/user" ]};
     sim_ps := ["systemd"; "i3"; "i3bar"];
     sim_path := ["feh"];
     sim_tool := ("", "", None);
     sim_fs := {[ "/home/user/.config/i3/config" := "font pango:monospace 8" ]};
     sim_locked := [];
     sim_open := [];
     sim_clock := [mkTime 30 10 2026 9 5 1793351100000];
     sim_stdin := ["Pictures"; " Y "];
     sim_pages := {[ "https://wallhaven.cc/random" := (200, 1%nat);
                     "https://wallhaven.cc/w/ab12cd" := (200, 2%nat);
                     "https://w.wallhaven.cc/full/ab/wallhaven-ab12cd.jpg" := (200, 3%nat) ]};
     sim_docs := {[ 1%nat := random_page; 2%nat := detail_page ]};
     sim_blobs := {[ 3%nat := "PNGDATA" ]};
     sim_quota := [] |}.

Definition start (w : Sim) : @St simulated := @mkSt simulated "" w.

(** ** What the specification says, in its own words *)

(** The three strategies of the selector chain, in order: each is the
    result of [Attr] on what its selector finds. *)
Definition strategies (doc : Document) : list (string * bool) :=
  [Sel_Attr (Find sel_scrollbox_img doc) "data-cfsrc";
   Sel_Attr (Find sel_wallpaper doc) "src";
   Sel_Attr (Find sel_showcase doc) "src"].

(** The chain as the specification words it: the first strategy that
    yields a non-empty attribute value. *)
Fixpoint spec_first_nonempty (l : list (string * bool)) : string * bool :=
  match l with
  | [] => ("", false)
  | (v, present) :: r =>
      if (present && negb (String.eqb v ""))%bool then (v, true)
      else spec_first_nonempty r
  end.

Definition spec_extractImageSource (doc : Document) : string * bool :=
  spec_first_nonempty (strategies doc).

(** The chain by presence of the attribute: the first strategy whose
    attribute exists, whatever its value. *)
Fixpoint first_present (l : list (string * bool)) : string * bool :=
  match l with
  | [] => ("", false)
  | (v, present) :: r => if present then (v, true) else first_present r
  end.




(** The user's answer to "Do you like this wallpaper?" keeps it. *)
Definition keeps (line : string) : bool :=
  String.eqb (strings_ToLower (strings_TrimSpace line)) "y".

(** Every node of a document, in document order, and its img elements. *)
Fixpoint subtree (n : Node) : list Node :=
  match n with
  | ElementNode _ _ ch => n :: flat_map subtree ch
  | OtherNode _ => [n]
  end.

Definition all_nodes (doc : Document) : list Node := flat_map subtree doc.

Definition is_img (n : Node) : bool :=
  match n with
  | ElementNode tag _ _ => String.eqb tag "img"
  | OtherNode _ => false
  end.

(** The value of an attribute as the dump shows it: the value of the
    first attribute of that name, and nothing when there is none. *)
Definition attr_or_empty (name : string) (attrs : list Attribute) : string :=
  match List.find (fun a => String.eqb (Key a) name) attrs with
  | Some a => Val a
  | None => ""
  end.

Definition node_attrs (n : Node) : list Attribute :=
  match n with
  | ElementNode _ attrs _ => attrs
  | OtherNode _ => []
  end.

(** The line of the dump for the image [n] at position [i]: its number and
    the values of its src and data-cfsrc attributes. *)
Definition dump_line (i : Z) (n : Node) : string :=
  "img " +:+ fmt_d i
    +:+ ": src=" +:+ attr_or_empty "src" (node_attrs n)
    +:+ ", data-cfsrc=" +:+ attr_or_empty "data-cfsrc" (node_attrs n)
    +:+ nl.

(** The dump of a selection: its text in the log, and its events. *)
Fixpoint dump (i : Z) (s : Selection) : string :=
  match s with
  | [] => ""
  | n :: r => dump_line i n +:+ dump (i + 1) r
  end.

Fixpoint dump_events (i : Z) (s : Selection) : list event :=
  match s with
  | [] => []
  | n :: r =>
      EvPrint (dump_line i n) :: EvLog (dump_line i n)
        :: dump_events (i + 1) r
  end.

(** Decimal digits, for the shape of what [%d] prints. *)
Definition is_digit (c : ascii) : bool :=
  ((48 <=? Z.of_nat (nat_of_ascii c)) && (Z.of_nat (nat_of_ascii c) <=? 57))%bool.

Fixpoint all_digits (s : string) : bool :=
  match s with
  | EmptyString => true
  | String c r => (is_digit c && all_digits r)%bool
  end.

(** ** Traces *)


(** The kinds of events a part of the program can produce, from the log
    flush up to [main]; a file opened by [os.OpenFile] is never opened with
    [O_TRUNC]. *)
Definition log_ev (e : event) : bool :=
  match e with
  | EvNow _ | EvLog _ | EvWriteString _ _ _
  | EvClose _ _ | EvLogPrintf _ => true
  | EvOpenFile _ flag _ _ => negb (Z.testbit flag 9)
  | _ => false
  end.

Definition helper_ev (e : event) : bool :=
  match e with
  | EvGetenv _ _ | EvOutput _ _ _ | EvStat _ _ | EvReadFile _ _ => true
  | _ => log_ev e
  end.

Definition setWallpaper_ev (e : event) : bool :=
  match e with
  | EvAbs _ _ | EvLookPath _ _ | EvRun _ _ _ | EvPrint _ => true
  | _ => helper_ev e
  end.

Definition download_ev (e : event) : bool :=
  match e with
  | EvNewRequest _ _ _ | EvDo _ _ | EvBodyClose _ _ | EvParse _ _
  | EvCreate _ _ | EvCopy _ _ _ => true
  | _ => setWallpaper_ev e
  end.


Definition fetch_ev (e : event) : bool :=
  match e with
  | EvNewRequest _ _ _ | EvDo _ _ | EvBodyClose _ _ | EvParse _ _ => true
  | _ => false
  end.

Definition dump_ev (e : event) : bool :=
  match e with
  | EvPrint _ | EvLog _ => true
  | _ => false
  end.

Definition is_close (e : event) : bool :=
  match e with EvClose _ _ => true | _ => false end.

Definition closing (e : event) : bool :=
  match e with
  | EvClose _ _ | EvBodyClose _ _ => true
  | _ => false
  end.

(** The paths of the files a trace creates, in order. *)
Definition created (t : list event) : list string :=
  flat_map (fun e => match e with EvCreate p _ => [p] | _ => [] end) t.


(** ** Pages and worlds of the examples *)

(** A detail page whose lazy-load attribute is present and empty. *)
Definition empty_lazy_page : Document :=
  [ElementNode "html" []
     [ElementNode "body" []
        [ElementNode "div" [mkAttr "class" "scrollbox"]
           [ElementNode "img" [mkAttr "data-cfsrc" ""] []];
         ElementNode "img"
           [mkAttr "id" "wallpaper";
            mkAttr "src" "https://w.wallhaven.cc/full/ab/wallhaven-ab12cd.jpg"]
           []]]].

(** A page with two images and none of the three selectors. *)
Definition bare_page : Document :=
  [ElementNode "html" []
     [ElementNode "body" []
        [ElementNode "img" [mkAttr "src" "/logo.png"] [];
         ElementNode "div" [mkAttr "class" "content"]
           [ElementNode "img"
              [mkAttr "data-cfsrc" "/lazy.jpg"; mkAttr "src" "/blank.gif"] []]]]].

Definition bare_world : Sim :=
  mkSim ∅ [] [] ("", "", None) ∅ [] [] [] []
    {[ "https://wallhaven.cc/w/bare" := (200, 2%nat) ]}
    {[ 2%nat := bare_page ]} ∅ [].

(** A detail page on which the lazy-load attribute is present and empty
    and nothing else matches. *)
Definition blank_lazy_page : Document :=
  [ElementNode "html" []
     [ElementNode "body" []
        [ElementNode "div" [mkAttr "class" "scrollbox"]
           [ElementNode "img" [mkAttr "data-cfsrc" ""] []];
         ElementNode "img" [mkAttr "src" "/logo.png"] []]]].

Definition blank_lazy_world : Sim :=
  mkSim ∅ [] [] ("", "", None) ∅ [] []
    [mkTime 30 10 2026 9 5 1793351100000] []
    {[ "https://wallhaven.cc/w/blank" := (200, 2%nat) ]}
    {[ 2%nat := blank_lazy_page ]} ∅ [].

Definition blank_lazy_download :=
  @downloadWallpaper simulated "https://wallhaven.cc/w/blank" "Pictures"
    (start blank_lazy_world).

Definition is_log (e : event) : bool :=
  match e with EvLog _ => true | _ => false end.

(** The lines of a text, and whether one of them is [line]. *)
Fixpoint lines_from (cur : string) (s : string) : list string :=
  match s with
  | EmptyString => [cur]
  | String c r =>
      if Ascii.eqb c (ascii_of_nat 10) then cur :: lines_from EmptyString r
      else lines_from (cur +:+ String c EmptyString) r
  end.

Definition has_line (content line : string) : bool :=
  existsb (String.eqb line) (lines_from "" content).

Definition opens_path (path : string) (e : event) : bool :=
  match e with
  | EvOpenFile name _ _ _ => String.eqb name path
  | _ => false
  end.

(** An i3 session whose configuration sets the wallpaper to another file,
    the name of which begins with the name of this one. *)
Definition other_file_config : string :=
  "exec --no-startup-id feh --bg-scale /home/user/Pictures/w.png.bak" +:+ nl.

Definition other_file_world : Sim :=
  sim_with_fs world0
    {[ "/home/user/.config/i3/config" := other_file_config ]}.

Definition other_file_set :=
  @setWallpaper simulated "w.png" "Pictures" (start other_file_world).


(** Scenario E: a dwm session in which feh exits with status zero and
    writes a warning to its stderr. *)
Definition chatty_dwm_world : Sim :=
  mkSim {[ "DESKTOP_SESSION" := "dwm" ]} ["dwm"] ["feh"]
    ("", "feh WARNING: w.png does not exist", None)
    ∅ [] [] [mkTime 30 10 2026 9 5 1793351100000] [] ∅ ∅ ∅ [].

(** A turn whose wallpaper the user keeps. *)
Definition keep_world : Sim := sim_with_stdin world0 [" Y "].

(** The wallpaper is set, but the log file of the day cannot be opened. *)
Definition locked_log_world : Sim :=
  mkSim (sim_env world0) (sim_ps world0) (sim_path world0) (sim_tool world0)
    (sim_fs world0) ["logs/30-10-2026.log"] (sim_open world0)
    (sim_clock world0) [] (sim_pages world0) (sim_docs world0)
    (sim_blobs world0) [].

Definition locked_log_turn :=
  @iteration simulated "Pictures" (start locked_log_world).

(** A session in which the user rejects the first wallpaper and the wall
    clock is set back before the second download, so that [time.Now()]
    reads the same millisecond again. *)
Definition stepped_back_world : Sim :=
  sim_with_stdin
    (sim_with_clock world0
       [mkTime 30 10 2026 9 5 1793351100000;
        mkTime 30 10 2026 9 5 1793351101200;
        mkTime 30 10 2026 9 5 1793351105000;
        mkTime 30 10 2026 9 5 1793351100000;
        mkTime 30 10 2026 9 5 1793351101300;
        mkTime 30 10 2026 9 5 1793351106000])
    ["Pictures"; "n"; "y"].


(** ** Notions for the further properties *)

(** main.go 26: the name of the log file of the day. *)
Definition logFileName (now : Time) : string :=
  fmt_d (Day now) +:+ "-" +:+ fmt_d (Month now) +:+ "-"
    +:+ fmt_d (Year now) +:+ ".log".

(** What the process holds open: files and response bodies. *)
Inductive resource :=
| file_of (f : File)
| body_of (b : Body).

Definition resource_eqb (x y : resource) : bool :=
  match x, y with
  | file_of f, file_of g => Nat.eqb (fd f) (fd g)
  | body_of a, body_of b => Nat.eqb (stream a) (stream b)
  | _, _ => false
  end.

Definition acquires (e : event) : option resource :=
  match e with
  | EvOpenFile _ _ _ (Ok f) => Some (file_of f)
  | EvCreate _ (Ok f) => Some (file_of f)
  | EvDo _ (Ok resp) => Some (body_of (RespBody resp))
  | _ => None
  end.

Definition releases (e : event) : option resource :=
  match e with
  | EvClose f _ => Some (file_of f)
  | EvBodyClose b _ => Some (body_of b)
  | _ => None
  end.

(** The resources held after a trace, most recent first, starting from
    [stack]; [None] when the trace closes something other than the most
    recent resource still held. *)
Fixpoint held (stack : list resource) (t : list event)
  : option (list resource) :=
  match t with
  | [] => Some stack
  | e :: r =>
      match acquires e with
      | Some x => held (x :: stack) r
      | None =>
          match releases e with
          | Some x =>
              match stack with
              | y :: st => if resource_eqb x y then held st r else None
              | [] => None
              end
          | None => held stack r
          end
      end
  end.

(** The readings of the clock, the tools run and the requests sent in a
    trace, in order. *)
Definition nows (t : list event) : list Time :=
  flat_map (fun e => match e with EvNow n => [n] | _ => [] end) t.

Definition runs (t : list event) : list (string * list string) :=
  flat_map (fun e => match e with EvRun tool args _ => [(tool, args)] | _ => [] end) t.

Definition requests (t : list event) : list Request :=
  flat_map (fun e => match e with EvDo req _ => [req] | _ => [] end) t.

Definition sleeps (t : list event) : list Z :=
  flat_map (fun e => match e with EvSleep d => [d] | _ => [] end) t.

Definition scans (t : list event) : list string :=
  flat_map (fun e => match e with EvScan l => [l] | _ => [] end) t.

(** main.go 250-253: the identifier of the wallpaper of a detail page. *)
Definition wallpaperID_of (doc : Document) : string :=
  let '(wallpaperID, exists_) :=
    Sel_Attr (Find sel_scrollbox_img doc) "data-wallpaper-id" in
  if negb exists_ then "unknown" else wallpaperID.

(** main.go 317-322: what [fetchRandomWallpaperURL] returns for a page. *)
Definition thumb_link (doc : Document) : string * error :=
  match Find sel_thumb_a doc with
  | ElementNode _ attrs _ :: _ =>
      let '(href, exists_) := getAttributeValue "href" attrs in
      if exists_ then (href, None)
      else ("", Some "wallpaper random URL not found")
  | _ => ("", Some "wallpaper random URL not found")
  end.

(** main.go 332-338: the pictures directory for a line of input. *)
Definition picturesDir_of (line : string) : string :=
  if String.eqb (strings_TrimSpace line) "" then "./Pictures"
  else strings_TrimSpace line.

Fixpoint all_space (s : string) : bool :=
  match s with
  | EmptyString => true
  | String c r => (is_space c && all_space r)%bool
  end.

Fixpoint is_ascii (s : string) : bool :=
  match s with
  | EmptyString => true
  | String c r => ((nat_of_ascii c <? 128)%nat && is_ascii r)%bool
  end.

(** The first byte of a string. *)
Definition head_byte (s : string) : option ascii :=
  match s with
  | String c _ => Some c
  | EmptyString => None
  end.

(** The decimal digit [d] as a byte. *)
Definition digit (d : Z) : ascii := ascii_of_nat (48 + Z.to_nat d).

(** The log of the day cannot be opened on the 30th and can on the 31st;
    the clock reads the 30th, then the 31st. *)
Definition midnight_world : Sim :=
  mkSim ∅ [] [] ("", "", None) ∅ ["logs/30-10-2026.log"] []
    [mkTime 30 10 2026 23 59 1793404799000;
     mkTime 31 10 2026 0 0 1793404800000]
    [] ∅ ∅ ∅ [].

Definition first_flush :=
  @writeLog simulated (@mkSt simulated ("first" +:+ nl) midnight_world).

Definition after_first_flush : @St simulated :=
  @mkSt simulated
    (@logBuffer simulated (snd first_flush) +:+ ("second" +:+ nl))
    (@os simulated (snd first_flush)).

Definition second_flush := @writeLog simulated after_first_flush.

(** The events of the detector and of the persistence step. *)
Definition detect_ev (e : event) : bool :=
  match e with
  | EvGetenv k _ =>
      (String.eqb k "XDG_CURRENT_DESKTOP" || String.eqb k "DESKTOP_SESSION")%bool
  | EvOutput name _ _ => String.eqb name "pgrep"
  | _ => false
  end.

Definition persist_ev (e : event) : bool :=
  match e with
  | EvGetenv _ _ | EvStat _ _ | EvReadFile _ _ | EvOpenFile _ _ _ _
  | EvWriteString _ _ _ | EvLog _ => true
  | _ => false
  end.

(** The simulated platform with some calls failing. *)
Definition faulty (fault : forall X, call X -> option X) : Platform :=
  {| os_state := Sim;
     handle := fun X c w =>
       match fault X c with
       | Some r => (r, w)
       | None => sim_handle X c w
       end;
     filepath_Join := join_slash |}.

(** The working directory is gone: [filepath.Abs] fails. *)
Definition no_cwd (X : Type) (c : call X) : option X :=
  match c in call X return option X with
  | filepath_Abs _ => Some ("", Some "getwd: no such file or directory")
  | _ => None
  end.

(** A dwm session in which feh exits with status 1. *)
Definition failing_feh_world : Sim :=
  mkSim {[ "DESKTOP_SESSION" := "dwm" ]} ["dwm"] ["feh"]
    ("", "", Some "exit status 1")
    ∅ [] [] [mkTime 30 10 2026 9 5 1793351100000] [] ∅ ∅ ∅ [].

(** The persistence step twice for the same wallpaper. *)
Definition persist_first :=
  @persist_i3 simulated "/home/user/Pictures/w.png" (start world0).

Definition persist_again :=
  @persist_i3 simulated "/home/user/Pictures/w.png" (snd persist_first).

(** The detail page answers 404. *)
Definition gone_world : Sim :=
  mkSim ∅ [] [] ("", "", None) ∅ [] [] [] []
    {[ "https://wallhaven.cc/w/gone" := (404, 2%nat) ]} ∅ ∅ [].

(** Directories cannot be created. *)
Definition readonly_fs (X : Type) (c : call X) : option X :=
  match c in call X return option X with
  | os_MkdirAll _ _ => Some (Some "read-only file system")
  | _ => None
  end.

(** The user gives no directory, rejects the first wallpaper and keeps the
    second. *)
Definition picky_world : Sim := sim_with_stdin world0 [""; "no"; "Y"].

(** The events of a turn of the loop. *)
Definition turn_ev (e : event) : bool :=
  match e with
  | EvScan _ | EvSleep _ => true
  | _ => download_ev e
  end.

Section Prologue.
Context {P : Platform}.


End Prologue.


(** ** Proofs *)

(** *** The selector chain *)

Lemma getAttributeValue_absent name attrs :
  snd (getAttributeValue name attrs) = false ->
  getAttributeValue name attrs = ("", false).
Proof.
  induction attrs as [|a r IH]; simpl; [reflexivity|].
  destruct (String.eqb (Key a) name); simpl; [discriminate | exact IH].
Qed.

Lemma Sel_Attr_absent s name :
  snd (Sel_Attr s name) = false -> Sel_Attr s name = ("", false).
Proof.
  destruct s as [|[tag attrs ch|d] r]; simpl; try reflexivity.
  apply getAttributeValue_absent.
Qed.

Lemma Sel_Attr_present s name v :
  Sel_Attr s name = (v, true) ->
  exists tag attrs ch r,
    s = ElementNode tag attrs ch :: r /\
    exists before a after,
      attrs = before ++ a :: after /\ Key a = name /\ Val a = v /\
      Forall (fun b => Key b <> name) before.
Proof.
  destruct s as [|[tag attrs ch|d] r]; simpl; try discriminate.
  intros H. exists tag, attrs, ch, r. split; [reflexivity|].
  induction attrs as [|a rest IH]; simpl in H; [discriminate|].
  destruct (String.eqb (Key a) name) eqn:E.
  - apply String.eqb_eq in E. injection H as <-.
    exists [], a, rest. auto.
  - apply String.eqb_neq in E.
    destruct (IH H) as (before & b & after & -> & Hk & Hv & Hall).
    exists (a :: before), b, after. repeat split; auto.
Qed.

(** C1, as the code has it: the three strategies are tried in the order
    data-cfsrc inside the scroll container, src of the wallpaper id, src of
    the showcase image, and the chain stops at the first strategy whose
    attribute is present on the first element its selector matches, whatever
    the value, the empty string included. *)
Theorem extractImageSource_first_present (doc : Document) :
  extractImageSource doc = first_present (strategies doc) /\
  (forall v, Sel_Attr (Find sel_scrollbox_img doc) "data-cfsrc" = (v, true) ->
             extractImageSource doc = (v, true)).
Proof.
  unfold extractImageSource, strategies. simpl.
  destruct (Sel_Attr (Find sel_scrollbox_img doc) "data-cfsrc") as [v1 [|]] eqn:E1;
    simpl.
  - split; [reflexivity|]. intros v [= ->]. reflexivity.
  - split; [|discriminate].
    destruct (Sel_Attr (Find sel_wallpaper doc) "src") as [v2 [|]] eqn:E2;
      simpl; [reflexivity|].
    destruct (Sel_Attr (Find sel_showcase doc) "src") as [v3 [|]] eqn:E3;
      simpl; [reflexivity|].
    pose proof (Sel_Attr_absent (Find sel_showcase doc) "src") as H.
    rewrite E3 in H. apply H. reflexivity.
Qed.

Lemma extractImageSource_first_present_witness :
  extractImageSource empty_lazy_page = ("", true).
Proof.
  apply (proj2 (extractImageSource_first_present empty_lazy_page)).
  reflexivity.
Defined.

(** C1 as stated fails: on [empty_lazy_page] the first strategy finds the
    attribute present and empty, the second would yield an address, and the
    chain stops at the first. *)
Lemma extractImageSource_stops_at_empty :
  Sel_Attr (Find sel_scrollbox_img empty_lazy_page) "data-cfsrc" = ("", true) /\
  spec_extractImageSource empty_lazy_page
    = ("https://w.wallhaven.cc/full/ab/wallhaven-ab12cd.jpg", true) /\
  extractImageSource empty_lazy_page = ("", true) /\
  extractImageSource empty_lazy_page <> spec_extractImageSource empty_lazy_page.
Proof. repeat split; try reflexivity. discriminate. Qed.

(** *** Running a program: inversion of the monad *)

Section Runs.
Context {P : Platform}.

Lemma bind_inv {A B} (m : M A) (f : A -> M B) s b t s' :
  bind m f s = (b, t, s') ->
  exists a t1 s1 t2,
    m s = (a, t1, s1) /\ f a s1 = (b, t2, s') /\ t = t1 ++ t2.
Proof.
  unfold bind. destruct (m s) as [[a t1] s1].
  destruct (f a s1) as [[b' t2] s2] eqn:E.
  intros [= <- <- <-]. exists a, t1, s1, t2. auto.
Qed.

Lemma ret_inv {A} (a b : A) s t s' :
  ret a s = (b, t, s') -> b = a /\ t = [] /\ s' = s.
Proof. unfold ret. intros [= <- <- <-]. auto. Qed.

Lemma sys_inv {X} (c : call X) s r t s' :
  sys c s = (r, t, s') ->
  t = [mk_event c r] /\ logBuffer s' = logBuffer s /\
  handle X c (os s) = (r, os s').
Proof.
  unfold sys. destruct (handle X c (os s)) as [r0 o].
  intros [= <- <- <-]. auto.
Qed.

Lemma log_inv str s u t s' :
  logBuffer_WriteString str s = (u, t, s') ->
  t = [EvLog str] /\ logBuffer s' = logBuffer s +:+ str /\ os s' = os s.
Proof. unfold logBuffer_WriteString. intros [= <- <- <-]. auto. Qed.

Lemma defer_inv {A B} (c : M B) (m : M A) s r t s' :
  defer c m s = (r, t, s') ->
  exists t1 s1 b t2, m s = (r, t1, s1) /\ c s1 = (b, t2, s') /\ t = t1 ++ t2.
Proof.
  unfold defer. intros H.
  apply bind_inv in H. destruct H as (a & t1 & s1 & t2 & Hm & H & ->).
  apply bind_inv in H. destruct H as (b & t3 & s3 & t4 & Hc & H & ->).
  apply ret_inv in H. destruct H as (-> & -> & ->).
  exists t1, s1, b, t3. rewrite app_nil_r. auto.
Qed.

End Runs.

(** One step of inversion on a hypothesis that runs a program. *)
Ltac run_step :=
  match goal with
  | H : bind _ _ _ = _ |- _ =>
      apply bind_inv in H;
      let a := fresh "a" in let t1 := fresh "t" in
      let s1 := fresh "s" in let t2 := fresh "t" in
      let H1 := fresh "R" in let H2 := fresh "R" in
      destruct H as (a & t1 & s1 & t2 & H1 & H2 & ->)
  | H : defer _ _ _ = _ |- _ =>
      apply defer_inv in H;
      let t1 := fresh "t" in let s1 := fresh "s" in
      let b := fresh "b" in let t2 := fresh "t" in
      let H1 := fresh "R" in let H2 := fresh "R" in
      destruct H as (t1 & s1 & b & t2 & H1 & H2 & ->)
  | H : ret _ _ = _ |- _ =>
      apply ret_inv in H; destruct H as (? & ? & ?); subst
  | H : sys _ _ = _ |- _ =>
      apply sys_inv in H;
      let Hb := fresh "B" in let Hh := fresh "Hh" in
      destruct H as (-> & Hb & Hh); simpl mk_event in *
  | H : logBuffer_WriteString _ _ = _ |- _ =>
      apply log_inv in H;
      let Hb := fresh "B" in let Ho := fresh "O" in
      destruct H as (-> & Hb & Ho)
  | H : (if ?b then _ else _) _ = (_, _, _) |- _ => destruct b eqn:?
  | H : (match ?x with _ => _ end) _ = (_, _, _) |- _ => destruct x eqn:?
  | H : (let '(_, _) := ?x in _) _ = (_, _, _) |- _ => destruct x eqn:?
  end.

Ltac run_inv := repeat run_step.

Section Detect.
Context {P : Platform}.

(** *** Strings *)

Lemma HasPrefix_app p r : strings_HasPrefix (p +:+ r) p = true.
Proof.
  induction p as [|c p IH]; simpl; [reflexivity|].
  rewrite Ascii.eqb_refl. exact IH.
Qed.

Lemma HasPrefix_inv s p :
  strings_HasPrefix s p = true -> exists r, s = p +:+ r.
Proof.
  revert s. induction p as [|b p IH]; intros s H; simpl in *.
  - exists s. reflexivity.
  - destruct s as [|a s]; [discriminate|].
    apply andb_prop in H. destruct H as [Hc Hp].
    apply Ascii.eqb_eq in Hc. subst b.
    destruct (IH _ Hp) as [r ->]. exists r. reflexivity.
Qed.

Lemma Contains_prefix s sub :
  strings_HasPrefix s sub = true -> strings_Contains s sub = true.
Proof.
  destruct s as [|c s]; intros H; cbn [strings_Contains]; [exact H|].
  rewrite H. reflexivity.
Qed.

(** [strings_Contains] is the substring relation. *)
Lemma Contains_iff s sub :
  strings_Contains s sub = true <-> exists pre post, s = pre +:+ sub +:+ post.
Proof.
  split.
  - induction s as [|c s IH]; simpl; intros H.
    + apply HasPrefix_inv in H. destruct H as [r H]. exists "", r. exact H.
    + apply orb_prop in H. destruct H as [H|H].
      * apply HasPrefix_inv in H. destruct H as [r H]. exists "", r. exact H.
      * destruct (IH H) as (pre & post & ->). exists (String c pre), post.
        reflexivity.
  - intros (pre & post & ->). induction pre as [|c pre IH].
    + change (strings_Contains (sub +:+ post) sub = true).
      apply Contains_prefix, HasPrefix_app.
    + change (String c pre +:+ sub +:+ post)
        with (String c (pre +:+ sub +:+ post)).
      cbn [strings_Contains]. rewrite IH. apply orb_true_r.
Qed.



(** *** The environment detector *)


End Detect.

Section DetectorClaim.
Context {P : Platform}.


End DetectorClaim.


(** *** The log flush *)

Section Helpers.
Context {P : Platform}.

Lemma logBuffer_String_inv s b t s' :
  logBuffer_String s = (b, t, s') -> b = logBuffer s /\ t = [] /\ s' = s.
Proof. unfold logBuffer_String. intros [= <- <- <-]. auto. Qed.

Lemma logBuffer_Reset_inv s u t s' :
  logBuffer_Reset s = (u, t, s') ->
  t = [] /\ logBuffer s' = "" /\ os s' = os s.
Proof. unfold logBuffer_Reset. intros [= <- <- <-]. auto. Qed.

(** Inversion that also steps through reads and resets of [logBuffer]. *)
Ltac run_step' :=
  match goal with
  | H : logBuffer_String _ = _ |- _ =>
      apply logBuffer_String_inv in H; destruct H as (-> & -> & ->)
  | H : logBuffer_Reset _ = _ |- _ =>
      apply logBuffer_Reset_inv in H; destruct H as (-> & ? & ?)
  | _ => run_step
  end.

Ltac run_inv' := repeat run_step'.

(** What a run of [writeLog] does and returns. *)
Lemma writeLog_run s r t s' :
  writeLog s = (r, t, s') ->
  exists now o q,
    t = EvNow now :: EvLog (log_header now)
          :: EvOpenFile (logPath_of now) log_flags perm_0644 o :: q /\
    match o with
    | Error e =>
        q = [] /\ r = Some ("failed to open log file: " +:+ e) /\
        logBuffer s' = logBuffer s +:+ log_header now
    | Ok f =>
        exists w c,
          q = [EvWriteString f (logBuffer s +:+ log_header now) w;
               EvClose f c] /\
          match snd w with
          | Some e =>
              r = Some ("failed to write to log file: " +:+ e) /\
              logBuffer s' = logBuffer s +:+ log_header now
          | None => r = None /\ logBuffer s' = ""
          end
    end.
Proof.
  unfold writeLog. intros H. run_inv'.
  all: do 3 eexists; (split; [reflexivity|]); simpl.
  1,2: match goal with
       | |- context [EvWriteString _ (logBuffer ?x) _] =>
           match goal with
           | |- context [EvWriteString _ (logBuffer ?y +:+ ?h) _] =>
               replace (logBuffer x) with (logBuffer y +:+ h) by congruence
           end
       end; do 2 eexists; (split; [reflexivity|]);
       match goal with H : snd _ = _ |- _ => rewrite H end;
       split; first [reflexivity | congruence].
  repeat split; first [reflexivity | congruence].
Qed.

End Helpers.

(** *** Which events a part of the program produces *)

Section Footprints.
Context {P : Platform}.

Lemma forallb_weaken (p q : event -> bool) t :
  (forall e, p e = true -> q e = true) ->
  forallb p t = true -> forallb q t = true.
Proof.
  intros Hpq H. apply forallb_forall. intros e He.
  apply Hpq. revert e He. now apply forallb_forall.
Qed.

Lemma log_helper e : log_ev e = true -> helper_ev e = true.
Proof. destruct e; simpl; try discriminate; auto. Qed.

Lemma close_log e : is_close e = true -> log_ev e = true.
Proof. destruct e; simpl; try discriminate; auto. Qed.

Lemma helper_setWallpaper e : helper_ev e = true -> setWallpaper_ev e = true.
Proof. destruct e; simpl; try discriminate; auto. Qed.

Lemma setWallpaper_download e : setWallpaper_ev e = true -> download_ev e = true.
Proof. destruct e; simpl; try discriminate; auto. Qed.

Lemma not_in_footprint (p : event -> bool) t e :
  forallb p t = true -> p e = false -> ~ In e t.
Proof.
  intros H He Hin. rewrite forallb_forall in H. apply H in Hin. congruence.
Qed.

Lemma writeLog_events s r t s' :
  writeLog s = (r, t, s') -> forallb log_ev t = true.
Proof.
  intros H. apply writeLog_run in H.
  destruct H as (now & o & q & -> & H). destruct o as [f|e].
  - destruct H as (w & c & -> & _). reflexivity.
  - destruct H as (-> & _). reflexivity.
Qed.

(** [flushLog] runs [writeLog] and at most reports its error. *)
Lemma flushLog_run s u t s' :
  flushLog s = (u, t, s') ->
  exists r tw sw q,
    writeLog s = (r, tw, sw) /\ t = tw ++ q /\ logBuffer s' = logBuffer sw /\
    match r with
    | Some e => q = [EvLogPrintf ("Failed to write log: " +:+ e)]
    | None => q = []
    end.
Proof.
  unfold flushLog. intros H. run_inv; do 4 eexists;
    (split; [eassumption|]); auto.
Qed.

Lemma flushLog_events s u t s' :
  flushLog s = (u, t, s') -> forallb log_ev t = true.
Proof.
  intros H. apply flushLog_run in H.
  destruct H as (r & tw & sw & q & Hw & -> & _ & Hq).
  apply writeLog_events in Hw. rewrite forallb_app, Hw.
  destruct r; subst q; reflexivity.
Qed.

Lemma detectWindowManager_events s wm t s' :
  detectWindowManager s = (wm, t, s') -> forallb helper_ev t = true.
Proof.
  unfold detectWindowManager. intros H. run_inv; reflexivity.
Qed.

Lemma close_all_run fs s u t s' :
  close_all fs s = (u, t, s') ->
  forallb is_close t = true /\ logBuffer s' = logBuffer s.
Proof.
  revert s t. induction fs as [|f r IH]; simpl; intros s t H.
  - run_inv. auto.
  - run_inv. destruct (IH _ _ R0) as [Ht Hb]. simpl.
    split; [exact Ht | congruence].
Qed.

End Footprints.

Section Persist.
Context {P : Platform}.

Lemma persist_i3_events absPath s fs t s' :
  persist_i3 absPath s = (fs, t, s') -> forallb helper_ev t = true.
Proof.
  unfold persist_i3. intros H. run_inv; reflexivity.
Qed.

End Persist.

(** Turn the runs of helper functions among the hypotheses into facts on
    the kinds of events of their traces. *)
Ltac footprints :=
  repeat match goal with
  | H : writeLog _ = (_, ?t, _) |- _ =>
      lazymatch goal with
      | _ : forallb helper_ev t = true |- _ => fail
      | _ => pose proof (forallb_weaken _ helper_ev _ log_helper
                           (writeLog_events _ _ _ _ H))
      end
  | H : flushLog _ = (_, ?t, _) |- _ =>
      lazymatch goal with
      | _ : forallb helper_ev t = true |- _ => fail
      | _ => pose proof (forallb_weaken _ helper_ev _ log_helper
                           (flushLog_events _ _ _ _ H))
      end
  | H : detectWindowManager _ = (_, ?t, _) |- _ =>
      lazymatch goal with
      | _ : forallb helper_ev t = true |- _ => fail
      | _ => pose proof (detectWindowManager_events _ _ _ _ H)
      end
  | H : persist_i3 _ _ = (_, ?t, _) |- _ =>
      lazymatch goal with
      | _ : forallb helper_ev t = true |- _ => fail
      | _ => pose proof (persist_i3_events _ _ _ _ _ H)
      end
  | H : close_all _ _ = (_, ?t, _) |- _ =>
      lazymatch goal with
      | _ : forallb helper_ev t = true |- _ => fail
      | _ => pose proof (forallb_weaken _ helper_ev _ log_helper
                           (forallb_weaken _ log_ev _ close_log
                              (proj1 (close_all_run _ _ _ _ _ H))))
      end
  end.

(** Split a membership in a trace into its cases, and close those that
    cannot be. *)
Ltac in_cases Hin :=
  repeat match type of Hin with
         | In _ (_ ++ _) => apply in_app_or in Hin; destruct Hin as [Hin|Hin]
         | In _ (_ :: _) => destruct Hin as [Hin|Hin]
         | In _ [] => destruct Hin
         end;
  try discriminate Hin;
  try match type of Hin with
      | In ?e ?t =>
          match goal with
          | Hf : forallb ?p t = true |- _ =>
              exfalso; exact (not_in_footprint p t e Hf eq_refl Hin)
          end
      end.

Section SetWallpaper.
Context {P : Platform}.

(** C4: when an external tool (gsettings on Gnome, feh on Dwm and I3) ran
    and exited successfully, with a nil error, but wrote to its stderr,
    [setWallpaper] returns an error that carries the stderr text. *)
Theorem setWallpaper_stderr_is_error name dir s r t s' tool args out errout :
  setWallpaper name dir s = (r, t, s') ->
  In (EvRun tool args (out, errout, None)) t ->
  errout <> "" ->
  (tool = "gsettings" \/ tool = "feh") /\
  r = Some (tool +:+ " stderr: " +:+ errout).
Proof.
  intros H Hin Hne.
  unfold setWallpaper, setWallpaper_gnome, setWallpaper_feh in H.
  run_inv; footprints; in_cases Hin; simplify_eq.
  all: try (split; [auto | reflexivity]).
  all: match goal with
       | H : negb (_ =? "")%string = false |- _ =>
           apply negb_false_iff, String.eqb_eq in H; congruence
       end.
Qed.

End SetWallpaper.

(** Find the prefix of a trace in front of a given suffix. *)
Lemma cons_app_pre {A} (a : A) rest p suf :
  rest = p ++ suf -> a :: rest = (a :: p) ++ suf.
Proof. intros ->. reflexivity. Qed.

Lemma app_app_pre {A} (t rest p suf : list A) :
  rest = p ++ suf -> t ++ rest = (t ++ p) ++ suf.
Proof. intros ->. now rewrite app_assoc. Qed.

(** A trace written as conses and appends, flattened to the right. *)
Ltac flat l tail :=
  lazymatch l with
  | ?a ++ ?b => let b' := flat b tail in flat a b'
  | ?x :: ?r => let r' := flat r tail in constr:(x :: r')
  | [] => tail
  | _ => lazymatch tail with
         | [] => l
         | _ => constr:(l ++ tail)
         end
  end.

Ltac flat_eq :=
  repeat first [progress cbn [app] | rewrite <- app_assoc | rewrite app_nil_r];
  reflexivity.

Ltac peel :=
  match goal with
  | |- ?l = _ =>
      let l' := flat l (@nil event) in
      replace l with l' by flat_eq
  end;
  repeat first
    [ exact (eq_refl : _ = [] ++ _)
    | apply cons_app_pre
    | apply app_app_pre ].

Section Tail.
Context {P : Platform}.

(** Once the tool has run and stayed quiet, [setWallpaper] ends by
    flushing the log and returns what the flush returns. *)
Lemma setWallpaper_success_tail name dir s r t s' tool args out :
  setWallpaper name dir s = (r, t, s') ->
  In (EvRun tool args (out, "", None)) t ->
  exists pre sw tw sw' fs tc,
    writeLog sw = (r, tw, sw') /\ close_all fs sw' = (tt, tc, s') /\
    t = pre ++ EvLog ("Wallpaper Set" +:+ nl)
              :: EvPrint ("Wallpaper Set" +:+ nl) :: tw ++ tc.
Proof.
  intros H Hin.
  unfold setWallpaper, setWallpaper_gnome, setWallpaper_feh in H.
  run_inv; footprints; in_cases Hin; simplify_eq.
  all: try match goal with
       | H : negb (_ =? "")%string = true |- _ =>
           apply negb_true_iff, String.eqb_neq in H; congruence
       end.
  all: match goal with
       | Hw : writeLog _ = _, Hc : close_all _ _ = (?u, _, _) |- _ =>
           destruct u; do 6 eexists;
           split; [exact Hw|]; split; [exact Hc|]
       end.
  all: simpl; peel.
Qed.

End Tail.

(** Find an event in a computed trace. *)
Ltac find_in := vm_compute; repeat first [left; reflexivity | right].

(** A run is the triple of its result, its trace and its final state. *)
Lemma run_eta {A B C} (x : A * B * C) : x = (fst (fst x), snd (fst x), snd x).
Proof. destruct x as [[a b] c]. reflexivity. Qed.

Lemma setWallpaper_stderr_is_error_witness :
  fst (fst (@setWallpaper simulated "w.png" "Pictures" (start chatty_dwm_world)))
  = Some "feh stderr: feh WARNING: w.png does not exist".
Proof.
  refine (proj2 (@setWallpaper_stderr_is_error simulated "w.png" "Pictures"
                   (start chatty_dwm_world) _ _ _
                   "feh" ["--bg-scale"; "/home/user/Pictures/w.png"]
                   "" "feh WARNING: w.png does not exist"
                   (run_eta _) _ _)).
  - find_in.
  - discriminate.
Defined.

Section Persistence.
Context {P : Platform}.

(** The only errors [writeLog] returns are its own. *)
Lemma writeLog_result s r t s' :
  writeLog s = (r, t, s') ->
  r = None \/
  exists e, r = Some ("failed to open log file: " +:+ e) \/
            r = Some ("failed to write to log file: " +:+ e).
Proof.
  intros H. apply writeLog_run in H.
  destruct H as (now & o & q & _ & H). destruct o as [f|e].
  - destruct H as (w & c & _ & H). destruct (snd w) as [e|].
    + right. exists e. right. apply H.
    + left. apply H.
  - right. exists e. left. apply H.
Qed.

(** C6, as the code has it: the persistence step of [setWallpaper] on
    i3.  First part: what [persist_i3] does.  It asks for the i3
    configuration file; when [Stat] succeeds and the file is read and the
    text [feh --bg-scale <absPath>] occurs nowhere in its content, as a
    substring, it opens the file for appending and writes the line
    [exec --no-startup-id feh --bg-scale <absPath>]; when the text occurs
    anywhere, it appends nothing; a failure of the read, of the open or of
    the write only puts a warning into the log.  Second part: when
    [detectWindowManager] answered i3 and feh ran successfully,
    [setWallpaper] runs [persist_i3] and then returns the result of
    [writeLog], so no failure of the persistence step is returned. *)
Theorem setWallpaper_i3_persistence :
  (forall absPath s fs t s',
     persist_i3 absPath s = (fs, t, s') ->
     exists home st q,
       let configPath := filepath_Join [home; ".config"; "i3"; "config"] in
       t = EvGetenv "HOME" home :: EvStat configPath st :: q /\
       match st with
       | Some _ => q = [] /\ fs = []
       | None =>
           exists content rerr q1,
             q = EvReadFile configPath (content, rerr) :: q1 /\
             match rerr with
             | Some e =>
                 q1 = [EvLog ("Warning: could not read i3 config: "
                                +:+ e +:+ nl)] /\ fs = []
             | None =>
                 if strings_Contains content ("feh --bg-scale " +:+ absPath)
                 then q1 = [] /\ fs = []
                 else
                   exists o q2,
                     q1 = EvOpenFile configPath (Z.lor O_APPEND O_WRONLY)
                            perm_0644 o :: q2 /\
                     match o with
                     | Error e =>
                         q2 = [EvLog ("Warning: could not append to i3 config: "
                                        +:+ e +:+ nl)] /\ fs = []
                     | Ok f =>
                         exists w,
                           q2 = [EvWriteString f
                                   (nl +:+ "exec --no-startup-id feh --bg-scale "
                                       +:+ absPath +:+ nl) w;
                                 EvLog
                                   match snd w with
                                   | Some e =>
                                       "Warning: could not write to i3 config: "
                                         +:+ e +:+ nl
                                   | None =>
                                       "Added feh command to i3 config for persistence"
                                         +:+ nl
                                   end] /\
                           fs = [f]
                     end
             end
       end) /\
  (forall name dir s r t s' absPath out,
     setWallpaper name dir s = (r, t, s') ->
     In (EvRun "feh" ["--bg-scale"; absPath] (out, "", None)) t ->
     exists sd wm td sd' rest,
       detectWindowManager sd = (wm, td, sd') /\
       t = EvAbs (filepath_Join [dir; name]) (absPath, None) :: td ++ rest /\
       (wm = "i3" ->
        exists pre sp fs tp sp' sw tw sw' tc,
          persist_i3 absPath sp = (fs, tp, sp') /\
          writeLog sw = (r, tw, sw') /\
          close_all fs sw' = (tt, tc, s') /\
          rest = pre ++ tp ++ EvLog ("Wallpaper Set" +:+ nl)
                   :: EvPrint ("Wallpaper Set" +:+ nl) :: tw ++ tc /\
          (r = None \/
           exists e, r = Some ("failed to open log file: " +:+ e) \/
                     r = Some ("failed to write to log file: " +:+ e)))).
Proof.
  split.
  - intros absPath s fs t s' H. unfold persist_i3 in H.
    run_inv; do 3 eexists; cbv zeta; (split; [reflexivity|]); simpl; auto.
    all: do 3 eexists; (split; [reflexivity|]); simpl; auto.
    all: match goal with
         | H : negb _ = true |- _ => apply negb_true_iff in H
         | H : negb _ = false |- _ => apply negb_false_iff in H
         end.
    all: match goal with
         | H : strings_Contains _ _ = _ |- _ => rewrite H; auto
         end.
    all: do 2 eexists; (split; [reflexivity|]); simpl; auto.
    all: eexists; split; [|reflexivity].
    all: match goal with H : snd _ = _ |- _ => rewrite H end; reflexivity.
  - intros name dir s r t s' absPath out H Hin.
    unfold setWallpaper, setWallpaper_gnome, setWallpaper_feh in H.
    run_inv; footprints; in_cases Hin; simplify_eq.
    all: try match goal with
         | H : negb (_ =? "")%string = true |- _ =>
             apply negb_true_iff, String.eqb_neq in H; congruence
         end.
    all: match goal with
         | Hd : detectWindowManager _ = _ |- _ =>
             do 5 eexists; split; [exact Hd|]; split; [simpl; reflexivity|]
         end.
    all: intros ->; try discriminate.
    all: match goal with
         | Hp : persist_i3 _ _ = _, Hw : writeLog _ = _,
           Hc : close_all _ _ = (?u, _, _) |- _ =>
             destruct u; do 9 eexists;
             split; [exact Hp|]; split; [exact Hw|]; split; [exact Hc|];
             split; [|exact (writeLog_result _ _ _ _ Hw)]
         end.
    all: simpl; peel.
Qed.

End Persistence.

Lemma setWallpaper_i3_persistence_witness :
  In (EvRun "feh" ["--bg-scale"; "/home/user/Pictures/w.png"] ("", "", None))
     (snd (fst (@setWallpaper simulated "w.png" "Pictures" (start world0)))) /\
  exists sd wm td sd' rest,
    @detectWindowManager simulated sd = (wm, td, sd') /\
    snd (fst (@setWallpaper simulated "w.png" "Pictures" (start world0)))
    = EvAbs "Pictures/w.png" ("/home/user/Pictures/w.png", None) :: td ++ rest /\
    (wm = "i3" ->
     exists pre sp fs tp sp' sw tw sw' tc,
       @persist_i3 simulated "/home/user/Pictures/w.png" sp = (fs, tp, sp') /\
       @writeLog simulated sw
       = (fst (fst (@setWallpaper simulated "w.png" "Pictures" (start world0))),
          tw, sw') /\
       @close_all simulated fs sw'
       = (tt, tc, snd (@setWallpaper simulated "w.png" "Pictures" (start world0))) /\
       rest = pre ++ tp ++ EvLog ("Wallpaper Set" +:+ nl)
                :: EvPrint ("Wallpaper Set" +:+ nl) :: tw ++ tc /\
       (fst (fst (@setWallpaper simulated "w.png" "Pictures" (start world0))) = None \/
        exists e,
          fst (fst (@setWallpaper simulated "w.png" "Pictures" (start world0)))
          = Some ("failed to open log file: " +:+ e) \/
          fst (fst (@setWallpaper simulated "w.png" "Pictures" (start world0)))
          = Some ("failed to write to log file: " +:+ e))).
Proof.
  assert (Hin : In (EvRun "feh" ["--bg-scale"; "/home/user/Pictures/w.png"]
                      ("", "", None))
                   (snd (fst (@setWallpaper simulated "w.png" "Pictures"
                                (start world0))))) by find_in.
  split; [exact Hin|].
  exact (proj2 (@setWallpaper_i3_persistence simulated) _ _ _ _ _ _ _ _
           (run_eta _) Hin).
Defined.

(** C6 as stated fails: the test is for a substring, not for the line.
    The configuration of [other_file_world] holds the line for another
    file, [w.png.bak], and neither the invocation for [w.png] nor its exec
    line is a line of it; but the invocation for [w.png] is a prefix of
    what is there, so nothing is appended: the wallpaper is set, the
    configuration file is not opened, and its content stays as it was. *)
Lemma persist_i3_skips_when_line_is_absent :
  has_line other_file_config
    "exec --no-startup-id feh --bg-scale /home/user/Pictures/w.png" = false /\
  has_line other_file_config
    "feh --bg-scale /home/user/Pictures/w.png" = false /\
  In (EvReadFile "/home/user/.config/i3/config" (other_file_config, None))
     (snd (fst other_file_set)) /\
  fst (fst other_file_set) = None /\
  existsb (opens_path "/home/user/.config/i3/config")
    (snd (fst other_file_set)) = false /\
  sim_fs (@os simulated (snd other_file_set))
    !! "/home/user/.config/i3/config" = Some other_file_config.
Proof.
  split; [reflexivity|]. split; [reflexivity|].
  split; [find_in|]. repeat split; vm_compute; reflexivity.
Qed.

(** *** The dump of the img tags *)

Section Dump.
Context {P : Platform}.

Lemma append_assoc (a b c : string) : (a +:+ b) +:+ c = a +:+ (b +:+ c).
Proof.
  induction a as [|x a IH]; [reflexivity|].
  change (String x ((a +:+ b) +:+ c) = String x (a +:+ (b +:+ c))).
  now rewrite IH.
Qed.

Lemma append_nil_r (a : string) : a +:+ "" = a.
Proof.
  induction a as [|x a IH]; [reflexivity|].
  change (String x (a +:+ "") = String x a). now rewrite IH.
Qed.

(** A nested induction on documents. *)
Lemma Node_forall (Q : Node -> Prop) :
  (forall tag attrs ch, Forall Q ch -> Q (ElementNode tag attrs ch)) ->
  (forall d, Q (OtherNode d)) ->
  forall n, Q n.
Proof.
  intros He Ho. fix IH 1. intros [tag attrs ch|d]; [|apply Ho].
  apply He. induction ch as [|c ch IHch]; constructor; [apply IH | exact IHch].
Qed.

Lemma queryAll_img n anc :
  queryAll sel_img anc n = List.filter is_img (subtree n).
Proof.
  revert anc. induction n as [tag attrs ch IH|d] using Node_forall;
    intros anc; [|reflexivity].
  cbn [queryAll subtree List.filter is_img sel_img sel_match fst].
  assert (Hch : forall a, flat_map (queryAll (tagSelector "img") a) ch
                = List.filter is_img (flat_map subtree ch)).
  { intros a. induction IH as [|c ch Hc _ IHch]; [reflexivity|].
    cbn [flat_map]. rewrite List.filter_app, <- IHch.
    f_equal. apply Hc. }
  rewrite Hch. destruct (String.eqb tag "img"); reflexivity.
Qed.

(** [doc.Find("img")] is every img element of the document, in order. *)
Lemma Find_img doc : Find sel_img doc = List.filter is_img (all_nodes doc).
Proof.
  unfold Find, all_nodes. induction doc as [|n doc IH]; [reflexivity|].
  cbn [flat_map]. rewrite List.filter_app, <- IH. f_equal.
  apply queryAll_img.
Qed.

Lemma getAttributeValue_find name attrs :
  fst (getAttributeValue name attrs) = attr_or_empty name attrs.
Proof.
  unfold attr_or_empty. induction attrs as [|a r IH]; [reflexivity|].
  cbn [getAttributeValue List.find].
  destruct (String.eqb (Key a) name); [reflexivity | exact IH].
Qed.

(** The line the callback of [Each] writes for an element is the line of
    the dump: the number and the two attribute values. *)
Lemma img_line_dump_line i n : img_line i [n] = dump_line i n.
Proof.
  unfold img_line, dump_line, Sel_Attr.
  rewrite <- !getAttributeValue_find.
  destruct n as [tag attrs ch|d]; cbn [node_attrs getAttributeValue fst].
  - destruct (getAttributeValue "src" attrs) as [v1 p1].
    destruct (getAttributeValue "data-cfsrc" attrs) as [v2 p2]. reflexivity.
  - reflexivity.
Qed.

Lemma Each_from_dump sel : forall i s u t s',
  Each_from i sel
    (fun i s => sys (fmt_Print (img_line i s)) ;;
                logBuffer_WriteString (img_line i s)) s = (u, t, s') ->
  logBuffer s' = logBuffer s +:+ dump i sel /\ t = dump_events i sel.
Proof.
  induction sel as [|n r IH]; intros i s u t s' H; cbn [Each_from] in H.
  - run_inv. cbn [dump dump_events]. now rewrite append_nil_r.
  - run_inv. destruct (IH _ _ _ _ _ R0) as [Hb ->].
    cbn [dump dump_events]. rewrite <- !img_line_dump_line.
    split; [|reflexivity].
    rewrite Hb, <- append_assoc. f_equal. congruence.
Qed.

(** The images of the dump are numbered by their position. *)
Lemma dump_events_nth sel : forall i k n,
  nth_error sel k = Some n ->
  In (EvPrint (dump_line (i + Z.of_nat k) n)) (dump_events i sel) /\
  In (EvLog (dump_line (i + Z.of_nat k) n)) (dump_events i sel).
Proof.
  induction sel as [|m r IH]; intros i k n H; [destruct k; discriminate H|].
  destruct k as [|k]; cbn [nth_error] in H.
  - injection H as ->. rewrite Z.add_0_r. cbn [dump_events].
    split; [left | right; left]; reflexivity.
  - destruct (IH (i + 1) k n H) as [H1 H2].
    replace (i + Z.of_nat (S k)) with (i + 1 + Z.of_nat k) by lia.
    cbn [dump_events]. split; right; right; assumption.
Qed.

Lemma dump_events_ev sel : forall i,
  forallb setWallpaper_ev (dump_events i sel) = true.
Proof. induction sel as [|m r IH]; intros i; simpl; auto. Qed.

End Dump.

(** *** The download *)

Section Download.
Context {P : Platform}.

Lemma extractImageSource_chain doc :
  extractImageSource doc = first_present (strategies doc).
Proof.
  unfold extractImageSource, strategies. cbn [first_present].
  destruct (Sel_Attr (Find sel_scrollbox_img doc) "data-cfsrc") as [v1 [|]];
    cbn [negb]; [reflexivity|].
  destruct (Sel_Attr (Find sel_wallpaper doc) "src") as [v2 [|]];
    cbn [negb]; [reflexivity|].
  destruct (Sel_Attr (Find sel_showcase doc) "src") as [v3 [|]] eqn:E3;
    [reflexivity|].
  pose proof (Sel_Attr_absent (Find sel_showcase doc) "src") as H.
  rewrite E3 in H. apply H. reflexivity.
Qed.

Lemma extractImageSource_all_fail doc :
  Forall (fun c => snd c = false) (strategies doc) ->
  extractImageSource doc = ("", false).
Proof.
  rewrite extractImageSource_chain.
  induction (strategies doc) as [|[v p] l IH]; intros H; [reflexivity|].
  inversion H as [|? ? Hp Hl]; subst. simpl in Hp. subst p. simpl. auto.
Qed.

(** A page on which no element matches any of the three selectors is a
    page on which all three strategies fail. *)
Lemma strategies_fail_unmatched doc :
  Find sel_scrollbox_img doc = [] ->
  Find sel_wallpaper doc = [] ->
  Find sel_showcase doc = [] ->
  Forall (fun c => snd c = false) (strategies doc).
Proof. unfold strategies. intros -> -> ->. repeat constructor. Qed.

Lemma helper_download e : helper_ev e = true -> download_ev e = true.
Proof. destruct e; simpl; try discriminate; auto. Qed.

Lemma log_download e : log_ev e = true -> download_ev e = true.
Proof. destruct e; simpl; try discriminate; auto. Qed.

Lemma setWallpaper_events name dir s r t s' :
  setWallpaper name dir s = (r, t, s') -> forallb setWallpaper_ev t = true.
Proof.
  intros H. unfold setWallpaper, setWallpaper_gnome, setWallpaper_feh in H.
  run_inv; footprints;
    repeat match goal with
    | H : forallb helper_ev _ = true |- _ =>
        apply (forallb_weaken _ _ _ helper_setWallpaper) in H
    end;
    rewrite ?forallb_app; simpl;
    repeat match goal with
    | H : forallb setWallpaper_ev _ = true |- _ => rewrite H
    end; reflexivity.
Qed.

End Download.

(** The runs of [setWallpaper] and of the dump as facts on their traces. *)
Ltac footprints_sw :=
  repeat match goal with
  | H : Each _ _ _ = _ |- _ =>
      apply Each_from_dump in H;
      let Hb := fresh "B" in destruct H as [Hb ->]
  | |- _ => progress
      match goal with
      | H : setWallpaper _ _ _ = (_, ?t, _) |- _ =>
          lazymatch goal with
          | _ : forallb setWallpaper_ev t = true |- _ => fail
          | _ => pose proof (setWallpaper_events _ _ _ _ _ _ H)
          end
      | _ : context [dump_events ?i ?sel] |- _ =>
          lazymatch goal with
          | _ : forallb setWallpaper_ev (dump_events i sel) = true |- _ => fail
          | _ => pose proof (dump_events_ev sel i)
          end
      | |- context [dump_events ?i ?sel] =>
          lazymatch goal with
          | _ : forallb setWallpaper_ev (dump_events i sel) = true |- _ => fail
          | _ => pose proof (dump_events_ev sel i)
          end
      end
  end.

(** Follow the equations on [logBuffer] from the final state back. *)
Ltac log_chain :=
  repeat match goal with
  | H : logBuffer ?x = _ |- context [logBuffer ?x] => rewrite H
  end;
  rewrite ?append_assoc; try reflexivity.

Section NotFound.
Context {P : Platform}.

(** C3, as the code has it: when the detail page was parsed and each of
    the three selectors fails in the sense the code tests, its attribute
    being absent from the first element it matches, [downloadWallpaper]
    writes "No image source found. Dumping img tags:" and then, for every
    img element of the document in document order, the line
    [img k: src=<value of src>, data-cfsrc=<value of data-cfsrc>] with its
    position [k] into the log buffer (and onto standard output); after
    that it only closes the response body and returns the not-found
    error. *)
Theorem downloadWallpaper_dumps_img_tags url dir s r t s' b doc :
  downloadWallpaper url dir s = (r, t, s') ->
  In (EvParse b (Ok doc)) t ->
  Forall (fun c => snd c = false) (strategies doc) ->
  r = Some "wallpaper image source not found" /\
  logBuffer s'
  = logBuffer s +:+ ("No image source found. Dumping img tags:" +:+ nl)
      +:+ dump 0 (List.filter is_img (all_nodes doc)) /\
  (exists pre c,
     t = pre ++ EvLog ("No image source found. Dumping img tags:" +:+ nl)
           :: dump_events 0 (List.filter is_img (all_nodes doc))
           ++ [EvBodyClose b c]) /\
  (forall k tag attrs ch,
     nth_error (List.filter is_img (all_nodes doc)) k
     = Some (ElementNode tag attrs ch) ->
     In (EvLog ("img " +:+ fmt_d (Z.of_nat k)
                  +:+ ": src=" +:+ attr_or_empty "src" attrs
                  +:+ ", data-cfsrc=" +:+ attr_or_empty "data-cfsrc" attrs
                  +:+ nl)) t) /\
  (forall tag attrs ch,
     In (ElementNode tag attrs ch) (all_nodes doc) -> tag = "img" ->
     exists k,
       In (EvLog ("img " +:+ fmt_d (Z.of_nat k)
                    +:+ ": src=" +:+ attr_or_empty "src" attrs
                    +:+ ", data-cfsrc=" +:+ attr_or_empty "data-cfsrc" attrs
                    +:+ nl)) t).
Proof.
  intros H Hin Hfail. apply extractImageSource_all_fail in Hfail.
  unfold downloadWallpaper in H.
  run_inv; footprints_sw; in_cases Hin; simplify_eq.
  all: try match goal with
       | H : extractImageSource _ = (_, _), H' : negb _ = false |- _ =>
           rewrite Hfail in H; injection H as <- <-; discriminate H'
       end.
  rewrite <- Find_img. split; [reflexivity|]. split; [log_chain|].
  assert (Hnth : forall k tag attrs ch,
            nth_error (Find sel_img doc) k = Some (ElementNode tag attrs ch) ->
            In (EvLog ("img " +:+ fmt_d (Z.of_nat k)
                         +:+ ": src=" +:+ attr_or_empty "src" attrs
                         +:+ ", data-cfsrc="
                         +:+ attr_or_empty "data-cfsrc" attrs +:+ nl))
               (dump_events 0 (Find sel_img doc))).
  { intros k tag attrs ch Hk.
    exact (proj2 (dump_events_nth _ 0 _ _ Hk)). }
  split; [|split].
  - eexists. eexists. peel.
  - intros k tag attrs ch Hk. apply Hnth in Hk.
    rewrite ?in_app_iff. simpl. rewrite ?in_app_iff. tauto.
  - intros tag attrs ch Hn ->.
    assert (Hsel : In (ElementNode "img" attrs ch) (Find sel_img doc)).
    { rewrite Find_img. apply List.filter_In. auto. }
    apply In_nth_error in Hsel. destruct Hsel as [k Hk]. exists k.
    apply Hnth in Hk.
    rewrite ?in_app_iff. simpl. rewrite ?in_app_iff. tauto.
Qed.

End NotFound.

Lemma downloadWallpaper_dumps_img_tags_witness :
  fst (fst (@downloadWallpaper simulated "https://wallhaven.cc/w/bare"
              "Pictures" (start bare_world)))
  = Some "wallpaper image source not found" /\
  In (EvLog ("img " +:+ fmt_d 1 +:+ ": src=" +:+ "/blank.gif"
               +:+ ", data-cfsrc=" +:+ "/lazy.jpg" +:+ nl))
     (snd (fst (@downloadWallpaper simulated "https://wallhaven.cc/w/bare"
                  "Pictures" (start bare_world)))).
Proof.
  assert (Hin : In (EvParse (mkBody 2) (Ok bare_page))
                   (snd (fst (@downloadWallpaper simulated
                                "https://wallhaven.cc/w/bare" "Pictures"
                                (start bare_world))))) by find_in.
  assert (Hfail : Forall (fun c => snd c = false) (strategies bare_page))
    by (repeat constructor).
  destruct (@downloadWallpaper_dumps_img_tags simulated _ _ _ _ _ _ _ _
              (run_eta _) Hin Hfail) as (H1 & _ & _ & H4 & _).
  split; [exact H1|].
  exact (H4 1%nat "img"
           [mkAttr "data-cfsrc" "/lazy.jpg"; mkAttr "src" "/blank.gif"] []
           eq_refl).
Defined.

(** C3 as stated fails: on [blank_lazy_page] no selector yields a
    non-empty value, so all three fail as the specification reads it; but
    the first attribute is present, though empty, and the code neither
    dumps the img tags nor returns the not-found error: it goes on to
    request the empty address and returns the failure of that request. *)
Lemma empty_attribute_page_is_not_dumped :
  spec_extractImageSource blank_lazy_page = ("", false) /\
  extractImageSource blank_lazy_page = ("", true) /\
  (exists e, fst (fst blank_lazy_download)
             = Some ("failed to download wallpaper: " +:+ e)) /\
  fst (fst blank_lazy_download) <> Some "wallpaper image source not found" /\
  existsb is_log (snd (fst blank_lazy_download)) = false /\
  @logBuffer simulated (snd blank_lazy_download) = "" /\
  exists resp,
    In (EvDo (Header_Set (mkRequest "GET" "" ∅) "User-Agent" userAgent) resp)
       (snd (fst blank_lazy_download)).
Proof.
  split; [reflexivity|]. split; [reflexivity|].
  split; [eexists; vm_compute; reflexivity|].
  split; [vm_compute; discriminate|].
  split; [vm_compute; reflexivity|].
  split; [vm_compute; reflexivity|].
  eexists. find_in.
Qed.

Lemma in_app_l {A} (e : A) a b : In e a -> In e (a ++ b).
Proof. intros H. apply in_or_app. now left. Qed.

Lemma in_app_r {A} (e : A) a b : In e b -> In e (a ++ b).
Proof. intros H. apply in_or_app. now right. Qed.

Ltac in_search := solve [eauto 40 using in_eq, in_cons, in_app_l, in_app_r].

Ltac footprint_goal :=
  repeat match goal with
  | H : forallb setWallpaper_ev _ = true |- _ =>
      apply (forallb_weaken _ _ _ setWallpaper_download) in H
  | H : forallb log_ev _ = true |- _ =>
      apply (forallb_weaken _ _ _ log_download) in H
  | H : forallb helper_ev _ = true |- _ =>
      apply (forallb_weaken _ _ _ helper_download) in H
  end;
  rewrite ?forallb_app; cbn [forallb];
  repeat match goal with
  | H : forallb download_ev _ = true |- _ => rewrite H
  end; reflexivity.

Section DownloadFacts.
Context {P : Platform}.

Lemma dump_events_dump_ev sel : forall i,
  forallb dump_ev (dump_events i sel) = true.
Proof. induction sel as [|m r IH]; intros i; simpl; auto. Qed.

(** What every run of [downloadWallpaper] satisfies: the kinds of its
    events; the name of the file it creates; the requests it sends; what
    follows a failed copy; and that once the tool has run its result is
    the result of [setWallpaper]. *)
Lemma downloadWallpaper_facts url dir s r t s' :
  downloadWallpaper url dir s = (r, t, s') ->
  forallb download_ev t = true /\
  (forall path res, In (EvCreate path res) t ->
     exists now id,
       In (EvNow now) t /\
       path = filepath_Join [dir; wallpaperFileName_of now id]) /\
  (forall req resp, In (EvDo req resp) t ->
     Method req = "GET" /\ Header req !! "User-Agent" = Some userAgent) /\
  (forall e0 req resp rest, t = e0 :: EvDo req resp :: rest ->
     URL req = url /\ Header req !! "Accept" = Some acceptHeader) /\
  (forall f b n e, In (EvCopy f b (n, Some e)) t ->
     r = Some ("failed to save image: " +:+ e) /\
     exists pre path c1 b1 c2 b2 c3,
       t = pre ++ [EvCreate path (Ok f); EvCopy f b (n, Some e);
                   EvClose f c1; EvBodyClose b1 c2; EvBodyClose b2 c3]) /\
  (forall tool args res, In (EvRun tool args res) t ->
     exists name sx ts sy pre post,
       setWallpaper name dir sx = (r, ts, sy) /\
       t = pre ++ ts ++ post /\ forallb closing post = true).
Proof.
  intros H. unfold downloadWallpaper in H.
  run_inv; footprints_sw;
    try match goal with
        | |- context [dump_events ?i ?sel] =>
            pose proof (dump_events_dump_ev sel i)
        end;
    repeat apply conj.
  all: try solve [footprint_goal].
  all: try solve [intros ? ? Hin; in_cases Hin; simplify_eq;
                  try (do 2 eexists; split; [|reflexivity]; in_search);
                  try (split; reflexivity)].
  all: try solve [intros ? ? ? ? Heq; cbn [app] in Heq; simplify_eq;
                  split; reflexivity].
  all: try solve [intros ? ? ? ? Hin; in_cases Hin; simplify_eq;
                  cbn [snd] in *; simplify_eq;
                  (split; [reflexivity|]; do 7 eexists; peel)].
  all: try solve [intros ? ? ? Hin; in_cases Hin].
  intros ? ? ? Hin; in_cases Hin.
  match goal with
  | R : setWallpaper _ _ _ = _ |- _ =>
      do 6 eexists; split; [exact R|]; split; [peel | reflexivity]
  end.
Qed.

End DownloadFacts.

(** *** File names are injective in clock reading and identifier *)

Section FileNames.

Lemma append_length (a b : string) :
  String.length (a +:+ b) = (String.length a + String.length b)%nat.
Proof.
  induction a as [|x a IH]; [reflexivity|].
  change (S (String.length (a +:+ b))
          = S (String.length a + String.length b)%nat).
  now rewrite IH.
Qed.

Lemma append_inv_tail (a b c : string) : a +:+ c = b +:+ c -> a = b.
Proof.
  revert b. induction a as [|x a IH]; intros [|y b] H.
  - reflexivity.
  - apply (f_equal String.length) in H.
    change (String.length c = S (String.length (b +:+ c))) in H.
    rewrite append_length in H. lia.
  - apply (f_equal String.length) in H.
    change (S (String.length (a +:+ c)) = String.length c) in H.
    rewrite append_length in H. lia.
  - change (String x (a +:+ c) = String y (b +:+ c)) in H.
    injection H as -> H. f_equal. now apply IH.
Qed.

Lemma pretty_N_char_digit x : is_digit (pretty_N_char x) = true.
Proof. unfold pretty_N_char. repeat case_match; reflexivity. Qed.

Lemma pretty_N_go_digits x : forall s,
  all_digits s = true -> all_digits (pretty_N_go x s) = true.
Proof.
  induction (N.lt_wf_0 x) as [x _ IH]. intros s Hs.
  destruct (N.eq_dec x 0%N) as [->|Hx]; [now rewrite pretty_N_go_0|].
  rewrite pretty_N_go_step by lia. apply IH.
  - apply N.div_lt; lia.
  - cbn [all_digits]. now rewrite pretty_N_char_digit.
Qed.

Lemma pretty_N_go_nonempty x : forall s, s <> "" -> pretty_N_go x s <> "".
Proof.
  induction (N.lt_wf_0 x) as [x _ IH]. intros s Hs.
  destruct (N.eq_dec x 0%N) as [->|Hx]; [now rewrite pretty_N_go_0|].
  rewrite pretty_N_go_step by lia. apply IH; [apply N.div_lt; lia|].
  discriminate.
Qed.

Lemma pretty_pos_shape (p : positive) :
  all_digits (pretty p) = true /\ pretty p <> "".
Proof.
  unfold pretty, pretty_positive, pretty, pretty_N.
  destruct (decide (N.pos p = 0%N)) as [E|_]; [discriminate E|]. split.
  - now apply pretty_N_go_digits.
  - rewrite pretty_N_go_step by lia. apply pretty_N_go_nonempty. discriminate.
Qed.

(** What [%d] prints: digits, after a minus sign for a negative number. *)
Lemma fmt_d_shape (z : Z) :
  exists d, all_digits d = true /\ d <> "" /\
            (fmt_d z = d \/ fmt_d z = String "-" d).
Proof.
  unfold fmt_d. destruct z as [|p|p].
  - exists "0". split; [reflexivity|]. split; [discriminate|]. now left.
  - destruct (pretty_pos_shape p) as [Hd Hn].
    exists (pretty p). split; [exact Hd|]. split; [exact Hn|]. now left.
  - destruct (pretty_pos_shape p) as [Hd Hn].
    exists (pretty p). split; [exact Hd|]. split; [exact Hn|]. now right.
Qed.

Lemma split_dash d1 : forall d2 r1 r2,
  all_digits d1 = true -> all_digits d2 = true ->
  d1 +:+ String "-" r1 = d2 +:+ String "-" r2 -> d1 = d2 /\ r1 = r2.
Proof.
  induction d1 as [|c d1 IH]; intros [|c2 d2] r1 r2 H1 H2 H.
  - change (String "-" r1 = String "-" r2) in H. injection H as ->. auto.
  - change (String "-" r1 = String c2 (d2 +:+ String "-" r2)) in H.
    injection H as <- _. discriminate H2.
  - change (String c (d1 +:+ String "-" r1) = String "-" r2) in H.
    injection H as -> _. discriminate H1.
  - change (String c (d1 +:+ String "-" r1)
            = String c2 (d2 +:+ String "-" r2)) in H.
    injection H as -> H. cbn [all_digits] in H1, H2.
    apply andb_prop in H1. apply andb_prop in H2.
    destruct (IH d2 r1 r2) as [-> ->]; tauto.
Qed.

Lemma fmt_d_dash_inj z1 z2 r1 r2 :
  fmt_d z1 +:+ String "-" r1 = fmt_d z2 +:+ String "-" r2 ->
  z1 = z2 /\ r1 = r2.
Proof.
  intros H.
  destruct (fmt_d_shape z1) as (d1 & D1 & N1 & S1).
  destruct (fmt_d_shape z2) as (d2 & D2 & N2 & S2).
  assert (Hs : fmt_d z1 = fmt_d z2 /\ r1 = r2).
  { destruct S1 as [S1|S1], S2 as [S2|S2]; rewrite S1, S2 in H |- *.
    - destruct (split_dash _ _ _ _ D1 D2 H) as [-> ->]. auto.
    - destruct d1 as [|c d1]; [congruence|].
      change (String c (d1 +:+ String "-" r1)
              = String "-" (d2 +:+ String "-" r2)) in H.
      injection H as -> _. discriminate D1.
    - destruct d2 as [|c d2]; [congruence|].
      change (String "-" (d1 +:+ String "-" r1)
              = String c (d2 +:+ String "-" r2)) in H.
      injection H as <- _. discriminate D2.
    - change (String "-" (d1 +:+ String "-" r1)
              = String "-" (d2 +:+ String "-" r2)) in H.
      injection H as H.
      destruct (split_dash _ _ _ _ D1 D2 H) as [-> ->]. auto. }
  destruct Hs as [Hs ->]. split; [|reflexivity].
  unfold fmt_d in Hs. now apply (inj pretty).
Qed.

(** The file name determines the reading and the identifier. *)
Lemma wallpaperFileName_inj now1 now2 id1 id2 :
  wallpaperFileName_of now1 id1 = wallpaperFileName_of now2 id2 ->
  UnixMilli now1 = UnixMilli now2 /\ id1 = id2.
Proof.
  unfold wallpaperFileName_of. intros H.
  change (fmt_d (UnixMilli now1) +:+ String "-" (id1 +:+ ".png")
          = fmt_d (UnixMilli now2) +:+ String "-" (id2 +:+ ".png")) in H.
  apply fmt_d_dash_inj in H. destruct H as [Hm Hi].
  split; [exact Hm|]. exact (append_inv_tail _ _ _ Hi).
Qed.

End FileNames.

(** *** The requests *)

Section Requests.
Context {P : Platform}.

Lemma fetchRandomWallpaperURL_facts s r t s' :
  fetchRandomWallpaperURL s = (r, t, s') ->
  forallb fetch_ev t = true /\
  (forall req resp, In (EvDo req resp) t ->
     Method req = "GET" /\ URL req = "https://wallhaven.cc/random" /\
     Header req !! "User-Agent" = Some userAgent).
Proof.
  intros H. unfold fetchRandomWallpaperURL in H.
  run_inv; (split; [reflexivity|]).
  all: intros req resp Hin; in_cases Hin; simplify_eq.
  all: repeat split; reflexivity.
Qed.

(** C7, as the code has it: every page fetch is a GET that carries the
    fixed User-Agent header, and the fetch of the detail page in
    [downloadWallpaper] also carries the fixed Accept header. *)
Theorem page_fetches_browser_headers :
  (forall s r t s' req resp,
     fetchRandomWallpaperURL s = (r, t, s') ->
     In (EvDo req resp) t ->
     Method req = "GET" /\ URL req = "https://wallhaven.cc/random" /\
     Header req !! "User-Agent" = Some userAgent) /\
  (forall url dir s r t s' e0 req resp rest,
     downloadWallpaper url dir s = (r, t, s') ->
     t = e0 :: EvDo req resp :: rest ->
     Method req = "GET" /\ URL req = url /\
     Header req !! "User-Agent" = Some userAgent /\
     Header req !! "Accept" = Some acceptHeader).
Proof.
  split.
  - intros s r t s' req resp H. apply (proj2 (fetchRandomWallpaperURL_facts _ _ _ _ H)).
  - intros url dir s r t s' e0 req resp rest H Ht.
    destruct (downloadWallpaper_facts _ _ _ _ _ _ H) as (_ & _ & Hdo & Hfirst & _).
    destruct (Hfirst _ _ _ _ Ht) as [Hu Ha].
    destruct (Hdo req resp) as [Hm Hua].
    { rewrite Ht. right. left. reflexivity. }
    auto.
Qed.

(** C5, as the code has it: the file name is made of the millisecond
    reading of the wall clock and the identifier, so two downloads with
    the same identifier get different names exactly when their readings
    differ (and any two names are equal only for equal readings and equal
    identifiers); the name [downloadWallpaper] creates is built from a
    reading of [time.Now()], and nothing else keeps two readings apart. *)
Theorem wallpaperFileName_distinct_iff :
  (forall now1 now2 id,
     wallpaperFileName_of now1 id <> wallpaperFileName_of now2 id <->
     UnixMilli now1 <> UnixMilli now2) /\
  (forall now1 now2 id1 id2,
     wallpaperFileName_of now1 id1 = wallpaperFileName_of now2 id2 <->
     UnixMilli now1 = UnixMilli now2 /\ id1 = id2) /\
  (forall url dir s r t s' path res,
     downloadWallpaper url dir s = (r, t, s') ->
     In (EvCreate path res) t ->
     exists now id,
       In (EvNow now) t /\
       path = filepath_Join [dir; wallpaperFileName_of now id]).
Proof.
  assert (Hinj : forall now1 now2 id1 id2,
            wallpaperFileName_of now1 id1 = wallpaperFileName_of now2 id2 <->
            UnixMilli now1 = UnixMilli now2 /\ id1 = id2).
  { intros now1 now2 id1 id2. split; [apply wallpaperFileName_inj|].
    intros [Hm ->]. unfold wallpaperFileName_of. now rewrite Hm. }
  split; [|split; [exact Hinj|]].
  - intros now1 now2 id. rewrite Hinj. tauto.
  - intros url dir s r t s' path res H.
    apply (proj1 (proj2 (downloadWallpaper_facts _ _ _ _ _ _ H))).
Qed.

End Requests.

Lemma page_fetches_browser_headers_witness :
  Method (Header_Set (mkRequest "GET" "https://wallhaven.cc/random" ∅)
            "User-Agent" userAgent) = "GET" /\
  URL (Header_Set (mkRequest "GET" "https://wallhaven.cc/random" ∅)
         "User-Agent" userAgent) = "https://wallhaven.cc/random" /\
  Header (Header_Set (mkRequest "GET" "https://wallhaven.cc/random" ∅)
            "User-Agent" userAgent) !! "User-Agent" = Some userAgent.
Proof.
  apply (proj1 (@page_fetches_browser_headers simulated) (start world0) _ _ _
           _ (Ok (mkResponse 200 (mkBody 1))) (run_eta _)).
  find_in.
Defined.

(** C7 as stated fails: the request for the random listing page carries no
    Accept header. *)
Lemma fetchRandomWallpaperURL_sends_no_accept :
  exists req resp,
    In (EvDo req resp)
       (snd (fst (@fetchRandomWallpaperURL simulated (start world0)))) /\
    URL req = "https://wallhaven.cc/random" /\
    Header req !! "Accept" = None.
Proof.
  exists (Header_Set (mkRequest "GET" "https://wallhaven.cc/random" ∅)
            "User-Agent" userAgent), (Ok (mkResponse 200 (mkBody 1))).
  split; [find_in|]. split; reflexivity.
Qed.

Lemma wallpaperFileName_distinct_iff_witness :
  wallpaperFileName_of (mkTime 30 10 2026 9 5 1793351100000) "ab12cd"
  <> wallpaperFileName_of (mkTime 30 10 2026 9 5 1793351101200) "ab12cd".
Proof.
  apply (proj1 (@wallpaperFileName_distinct_iff simulated)). simpl. lia.
Defined.

(** C5 as stated fails: in one run of the program, two downloads of the
    same wallpaper get the same file name when the wall clock reads the
    same millisecond at both. *)
Lemma two_downloads_one_name :
  fst (fst (@main simulated 2 (start stepped_back_world))) = Exit 0 /\
  created (snd (fst (@main simulated 2 (start stepped_back_world))))
  = ["Pictures/1793351100000-ab12cd.png";
     "Pictures/1793351100000-ab12cd.png"].
Proof. split; vm_compute; reflexivity. Qed.

(** *** The session loop *)

(** Two traces are equal when they flatten to the same list. *)
Ltac trace_eq :=
  match goal with
  | |- ?l = ?r =>
      let l' := flat l (@nil event) in
      let r' := flat r (@nil event) in
      replace l with l' by flat_eq;
      replace r with r' by flat_eq;
      reflexivity
  end.

Section Loop.
Context {P : Platform}.

(** One turn of the loop: the fetch fails, or the download fails, and the
    turn backs off and continues without a prompt; or both succeed, the
    user is asked, and the answer decides. *)
Lemma iteration_run dir s c t s' :
  iteration dir s = (c, t, s') ->
  exists src ferr tf sf,
    fetchRandomWallpaperURL s = ((src, ferr), tf, sf) /\
    match ferr with
    | Some e =>
        c = Continue /\
        exists tfl,
          t = tf ++ EvPrint ("Error fetching random wallpaper URL: "
                               +:+ e +:+ nl)
                 :: EvLog ("Error fetching random wallpaper URL: "
                             +:+ e +:+ nl)
                 :: tfl ++ [EvSleep two_seconds] /\
          forallb log_ev tfl = true
    | None =>
        exists sd derr td sd',
          downloadWallpaper src dir sd = (derr, td, sd') /\
          match derr with
          | Some e =>
              c = Continue /\
              exists tfl,
                t = tf ++ EvPrint (src +:+ nl) :: EvLog (src +:+ nl)
                       :: td
                       ++ EvPrint ("Error downloading wallpaper: "
                                     +:+ e +:+ nl)
                       :: EvLog ("Error downloading wallpaper: "
                                   +:+ e +:+ nl)
                       :: tfl ++ [EvSleep two_seconds] /\
                forallb log_ev tfl = true
          | None =>
              exists line tfl,
                t = tf ++ EvPrint (src +:+ nl) :: EvLog (src +:+ nl)
                       :: td
                       ++ EvPrint "Do you like this wallpaper? (y/n): "
                       :: EvScan line
                       :: (if keeps line
                           then [EvPrint ("Keeping this wallpaper. Exiting."
                                            +:+ nl);
                                 EvLog ("User chose to keep wallpaper. Exiting."
                                          +:+ nl)]
                           else [EvPrint ("Fetching next wallpaper..." +:+ nl);
                                 EvLog ("User chose next wallpaper." +:+ nl)])
                       ++ tfl /\
                forallb log_ev tfl = true /\
                c = if keeps line then Break else Continue
          end
    end.
Proof.
  intros H. unfold iteration in H. run_inv.
  all: repeat match goal with
       | H : flushLog _ = _ |- _ => apply flushLog_events in H
       end.
  all: match goal with
       | H : fetchRandomWallpaperURL _ = _ |- _ =>
           do 4 eexists; split; [exact H|]; cbv beta iota
       end.
  - split; [reflexivity|]. eexists. split; [trace_eq | assumption].
  - match goal with
    | H : downloadWallpaper _ _ _ = _ |- _ =>
        do 4 eexists; split; [exact H|]; cbv beta iota
    end.
    split; [reflexivity|]. eexists. split; [trace_eq | assumption].
  - match goal with
    | H : downloadWallpaper _ _ _ = _ |- _ =>
        do 4 eexists; split; [exact H|]; cbv beta iota
    end.
    do 2 eexists. unfold keeps.
    match goal with H : String.eqb _ "y" = _ |- _ => rewrite H end.
    split; [trace_eq|]. split; [assumption | reflexivity].
  - match goal with
    | H : downloadWallpaper _ _ _ = _ |- _ =>
        do 4 eexists; split; [exact H|]; cbv beta iota
    end.
    do 2 eexists. unfold keeps.
    match goal with H : String.eqb _ "y" = _ |- _ => rewrite H end.
    split; [trace_eq|]. split; [assumption | reflexivity].
Qed.

(** The loop runs one turn and goes on exactly when the turn continues. *)
Lemma loop_step n dir s c t s' :
  iteration dir s = (c, t, s') ->
  loop (S n) dir s
  = match c with
    | Break => (true, t, s')
    | Continue => let '(b, t2, s2) := loop n dir s' in (b, t ++ t2, s2)
    end.
Proof.
  intros H. cbn [loop]. unfold bind at 1. rewrite H.
  destruct c.
  - destruct (loop n dir s') as [[b t2] s2]. reflexivity.
  - unfold ret. now rewrite app_nil_r.
Qed.

End Loop.

Section MainFacts.
Context {P : Platform}.







End MainFacts.


Section MainFacts2.
Context {P : Platform}.




End MainFacts2.

Section MainSplit.
Context {P : Platform}.


End MainSplit.

(** *** The claims on the session loop *)

Section Session.
Context {P : Platform}.


(** C9: when the tool has set the wallpaper, [setWallpaper] returns the
    result of [writeLog], an error whenever the log file cannot be opened
    or written; [downloadWallpaper] returns the same, and a turn of the
    loop in which it is an error continues, without a prompt and after
    the pause, to the next turn and a new wallpaper. *)
Theorem setWallpaper_returns_log_flush :
  (forall name dir s r t s' tool args out,
     setWallpaper name dir s = (r, t, s') ->
     In (EvRun tool args (out, "", None)) t ->
     exists pre sw tw sw' fs tc,
       writeLog sw = (r, tw, sw') /\ close_all fs sw' = (tt, tc, s') /\
       t = pre ++ EvLog ("Wallpaper Set" +:+ nl)
                 :: EvPrint ("Wallpaper Set" +:+ nl) :: tw ++ tc /\
       (forall path flag perm e,
          In (EvOpenFile path flag perm (Error e)) tw ->
          r = Some ("failed to open log file: " +:+ e)) /\
       (forall f buf n e,
          In (EvWriteString f buf (n, Some e)) tw ->
          r = Some ("failed to write to log file: " +:+ e))) /\
  (forall n dir s c t s' tool args out,
     iteration dir s = (c, t, s') ->
     In (EvRun tool args (out, "", None)) t ->
     exists name sx r ts sy pre post,
       setWallpaper name dir sx = (r, ts, sy) /\
       t = pre ++ ts ++ post /\
       (r <> None ->
        c = Continue /\
        (forall line, ~ In (EvScan line) t) /\
        (exists t0, t = t0 ++ [EvSleep two_seconds]) /\
        loop (S n) dir s
        = let '(b, t2, s2) := loop n dir s' in (b, t ++ t2, s2))).
Proof.
  split.
  - intros name dir s r t s' tool args out H Hin.
    destruct (setWallpaper_success_tail _ _ _ _ _ _ _ _ _ H Hin)
      as (pre & sw & tw & sw' & fs & tc & Hw & Hc & Ht).
    exists pre, sw, tw, sw', fs, tc. repeat split; try assumption.
    + intros path flag perm e Hin'. apply writeLog_run in Hw.
      destruct Hw as (now & o & q & -> & Hw). destruct o as [f|e'].
      * destruct Hw as (w & c & -> & _). in_cases Hin'.
      * destruct Hw as (-> & -> & _). in_cases Hin'. congruence.
    + intros f buf n e Hin'. apply writeLog_run in Hw.
      destruct Hw as (now & o & q & -> & Hw). destruct o as [f'|e'].
      * destruct Hw as (w & c & -> & Hw). in_cases Hin'.
        injection Hin' as ? ? ?; subst. apply Hw.
      * destruct Hw as (-> & _). in_cases Hin'.
  - intros n dir s c t s' tool args out H Hin.
    pose proof (loop_step n _ _ _ _ _ H) as Hloop.
    apply iteration_run in H.
    destruct H as (src & ferr & tf & sf & Hf & H).
    pose proof (proj1 (fetchRandomWallpaperURL_facts _ _ _ _ Hf)) as Ff.
    destruct ferr as [e|].
    + destruct H as (-> & tfl & -> & Fl). in_cases Hin.
    + destruct H as (sd & derr & td & sd' & Hd & H).
      destruct (downloadWallpaper_facts _ _ _ _ _ _ Hd)
        as (Fd & _ & _ & _ & _ & Hrun).
      destruct derr as [e|].
      * destruct H as (-> & tfl & -> & Fl).
        match goal with
        | |- context [loop (S n) dir s = _] =>
            match type of Hin with
            | In _ ?tr =>
                assert (Hscan : forall line, ~ In (EvScan line) tr)
                  by (intros line Hin'; in_cases Hin')
            end
        end.
        in_cases Hin.
        destruct (Hrun _ _ _ Hin)
          as (name & sx & ts & sy & pre & post & Hs & -> & _).
        do 7 eexists. split; [exact Hs|]. split; [peel|].
        intros _. split; [reflexivity|]. split; [exact Hscan|]. split.
        -- eexists. peel.
        -- exact Hloop.
      * destruct H as (line & tfl & -> & Fl & ->). in_cases Hin.
        -- destruct (Hrun _ _ _ Hin)
             as (name & sx & ts & sy & pre & post & Hs & -> & _).
           do 7 eexists. split; [exact Hs|]. split; [peel|].
           intros Hne. congruence.
        -- destruct (keeps line); in_cases Hin.
Qed.


End Session.


Lemma setWallpaper_returns_log_flush_witness :
  In (EvRun "feh"
        ["--bg-scale"; "/home/user/Pictures/1793351100000-ab12cd.png"]
        ("", "", None))
     (snd (fst locked_log_turn)) /\
  exists name sx r ts sy pre post,
    @setWallpaper simulated name "Pictures" sx = (r, ts, sy) /\
    snd (fst locked_log_turn) = pre ++ ts ++ post /\
    (r <> None ->
     fst (fst locked_log_turn) = Continue /\
     (forall line, ~ In (EvScan line) (snd (fst locked_log_turn))) /\
     (exists t0, snd (fst locked_log_turn) = t0 ++ [EvSleep two_seconds]) /\
     @loop simulated 1 "Pictures" (start locked_log_world)
     = let '(b, t2, s2) := @loop simulated 0 "Pictures" (snd locked_log_turn) in
       (b, snd (fst locked_log_turn) ++ t2, s2)).
Proof.
  assert (Hin : In (EvRun "feh"
                      ["--bg-scale";
                       "/home/user/Pictures/1793351100000-ab12cd.png"]
                      ("", "", None))
                   (snd (fst locked_log_turn))) by find_in.
  split; [exact Hin|].
  exact (proj2 (@setWallpaper_returns_log_flush simulated) 0%nat "Pictures"
           (start locked_log_world) _ _ _ _ _ _ (run_eta _) Hin).
Defined.

(** The turn of the witness does continue: the wallpaper was set, the log
    could not be opened, and the loop goes on. *)
Example locked_log_turn_continues :
  fst (fst locked_log_turn) = Continue /\
  In (EvLogPrintf "Failed to write log: failed to open log file: permission denied")
     (snd (fst locked_log_turn)).
Proof. split; [vm_compute; reflexivity | find_in]. Qed.



(** ** Further properties of the code *)

(** *** Files and response bodies are released, last opened first *)

Lemma resource_eqb_refl x : resource_eqb x x = true.
Proof. destruct x; simpl; apply Nat.eqb_refl. Qed.

Lemma held_app a : forall st b,
  held st (a ++ b)
  = match held st a with Some st' => held st' b | None => None end.
Proof.
  induction a as [|e a IH]; intros st b; [reflexivity|].
  cbn [app held]. destruct (acquires e); [apply IH|].
  destruct (releases e); [|apply IH].
  destruct st as [|y st]; [reflexivity|].
  destruct (resource_eqb r y); [apply IH | reflexivity].
Qed.

Lemma held_dump_events sel : forall i st,
  held st (dump_events i sel) = Some st.
Proof. induction sel as [|n r IH]; intros i st; simpl; auto. Qed.

(** Compute what a trace holds, part by part. *)
Ltac held_goal :=
  repeat first
    [ rewrite held_app
    | progress cbn [held acquires releases app map]
    | rewrite resource_eqb_refl
    | rewrite held_dump_events
    | match goal with
      | H : forall st, held (@?a st) ?t = @?r st |- context [held _ ?t] =>
          rewrite H
      end ];
  try reflexivity.

Section Held.
Context {P : Platform}.

Lemma writeLog_held s r t s' :
  writeLog s = (r, t, s') -> forall st, held st t = Some st.
Proof.
  intros H st. apply writeLog_run in H.
  destruct H as (now & o & q & -> & H). destruct o as [f|e].
  - destruct H as (w & c & -> & _). held_goal.
  - destruct H as (-> & _). held_goal.
Qed.

Lemma flushLog_held s u t s' :
  flushLog s = (u, t, s') -> forall st, held st t = Some st.
Proof.
  intros H st. apply flushLog_run in H.
  destruct H as (r & tw & sw & q & Hw & -> & _ & Hq).
  pose proof (writeLog_held _ _ _ _ Hw) as Hh.
  destruct r; subst q; held_goal.
Qed.

Lemma detectWindowManager_held s wm t s' :
  detectWindowManager s = (wm, t, s') -> forall st, held st t = Some st.
Proof.
  unfold detectWindowManager. intros H st. run_inv; reflexivity.
Qed.

Lemma persist_i3_held absPath s fs t s' :
  persist_i3 absPath s = (fs, t, s') ->
  forall st, held st t = Some (map file_of fs ++ st).
Proof.
  unfold persist_i3. intros H st. run_inv; reflexivity.
Qed.

Lemma close_all_held fs : forall s u t s',
  close_all fs s = (u, t, s') ->
  forall st, held (map file_of fs ++ st) t = Some st.
Proof.
  induction fs as [|f r IH]; intros s u t s' H st; cbn [close_all] in H.
  - run_inv. reflexivity.
  - run_inv. cbn [map app held acquires releases].
    rewrite resource_eqb_refl. eapply IH. eassumption.
Qed.

End Held.

(** The runs of the helper functions as facts on what their traces hold. *)
Tactic Notation "held_fact" hyp(H) uconstr(lem) :=
  let X := fresh "Hh" in
  pose proof (lem H) as X; clear H; cbn [map app] in X.

Ltac held_facts :=
  repeat match goal with
  | H : writeLog _ = _ |- _ => held_fact H (writeLog_held _ _ _ _)
  | H : flushLog _ = _ |- _ => held_fact H (flushLog_held _ _ _ _)
  | H : detectWindowManager _ = _ |- _ =>
      held_fact H (detectWindowManager_held _ _ _ _)
  | H : persist_i3 _ _ = _ |- _ => held_fact H (persist_i3_held _ _ _ _ _)
  | H : close_all _ _ = _ |- _ => held_fact H (close_all_held _ _ _ _ _)
  | H : Each _ _ _ = _ |- _ =>
      apply Each_from_dump in H; destruct H as [_ ->]
  end.

Section Held2.
Context {P : Platform}.

Lemma setWallpaper_held name dir s r t s' :
  setWallpaper name dir s = (r, t, s') -> forall st, held st t = Some st.
Proof.
  intros H st. unfold setWallpaper, setWallpaper_gnome, setWallpaper_feh in H.
  run_inv; simplify_eq; held_facts; held_goal.
Qed.

Lemma downloadWallpaper_held url dir s r t s' :
  downloadWallpaper url dir s = (r, t, s') -> forall st, held st t = Some st.
Proof.
  intros H st. unfold downloadWallpaper in H.
  run_inv; held_facts;
    repeat match goal with
    | H : setWallpaper _ _ _ = _ |- _ =>
        held_fact H (setWallpaper_held _ _ _ _ _ _)
    end; held_goal.
Qed.

Lemma fetchRandomWallpaperURL_held s r t s' :
  fetchRandomWallpaperURL s = (r, t, s') -> forall st, held st t = Some st.
Proof.
  intros H st. unfold fetchRandomWallpaperURL in H. run_inv; held_goal.
Qed.

Lemma iteration_held dir s c t s' :
  iteration dir s = (c, t, s') -> forall st, held st t = Some st.
Proof.
  intros H st. unfold iteration in H.
  run_inv; held_facts;
    repeat match goal with
    | H : fetchRandomWallpaperURL _ = _ |- _ =>
        held_fact H (fetchRandomWallpaperURL_held _ _ _ _)
    | H : downloadWallpaper _ _ _ = _ |- _ =>
        held_fact H (downloadWallpaper_held _ _ _ _ _ _)
    end; held_goal.
Qed.

Lemma loop_held fuel : forall dir s b t s',
  loop fuel dir s = (b, t, s') -> forall st, held st t = Some st.
Proof.
  induction fuel as [|n IH]; intros dir s b t s' H st.
  - cbn [loop] in H. run_inv. reflexivity.
  - destruct (iteration dir s) as [[c t0] s0] eqn:Hi.
    rewrite (loop_step n _ _ _ _ _ Hi) in H.
    pose proof (iteration_held _ _ _ _ _ Hi) as Hh.
    destruct c.
    + destruct (loop n dir s0) as [[b2 t2] s2] eqn:Hl.
      injection H as <- <- <-. rewrite held_app, Hh. eapply IH. eassumption.
    + injection H as <- <- <-. apply Hh.
Qed.

Lemma main_held fuel s e t s' :
  main fuel s = (e, t, s') -> held [] t = Some [].
Proof.
  intros H. unfold main in H.
  run_inv;
    repeat match goal with
    | H : loop _ _ _ = _ |- _ => held_fact H (loop_held _ _ _ _ _ _)
    end; held_goal.
Qed.

End Held2.

(** X1: every file the program opens or creates and every response body it
    obtains is closed again, in the reverse order of opening, by the time
    the function that obtained it returns: the trace of [setWallpaper], of
    [downloadWallpaper] and of [fetchRandomWallpaperURL] leaves what was
    held as it was, and a run of [main] ends holding nothing, whichever
    path is taken. *)
Theorem handles_released_last_first {P : Platform} :
  (forall name dir s r t s' st,
     setWallpaper name dir s = (r, t, s') -> held st t = Some st) /\
  (forall url dir s r t s' st,
     downloadWallpaper url dir s = (r, t, s') -> held st t = Some st) /\
  (forall s r t s' st,
     fetchRandomWallpaperURL s = (r, t, s') -> held st t = Some st) /\
  (forall fuel s e t s',
     main fuel s = (e, t, s') -> held [] t = Some []).
Proof.
  repeat split; intros.
  - eapply setWallpaper_held; eassumption.
  - eapply downloadWallpaper_held; eassumption.
  - eapply fetchRandomWallpaperURL_held; eassumption.
  - eapply main_held; eassumption.
Qed.

Lemma handles_released_last_first_witness :
  held [] (snd (fst (@main simulated 2 (start stepped_back_world)))) = Some [].
Proof.
  exact (proj2 (proj2 (proj2 (@handles_released_last_first simulated)))
           2%nat (start stepped_back_world) _ _ _ (run_eta _)).
Defined.

(** *** The log file *)

Section LogFile.
Context {P : Platform}.

(** X2: a flush that fails loses nothing.  When [writeLog] returns an
    error the text of [logBuffer] is kept, with the header of the failed
    flush after it; and when a later [writeLog] succeeds, its single write
    to the log file holds that text, whatever was logged in between, and
    its own header, and [logBuffer] is empty afterwards. *)
Theorem writeLog_failed_flush_keeps_text s1 r1 t1 s2 more s3 r2 t2 s4 :
  writeLog s1 = (r1, t1, s2) ->
  r1 <> None ->
  logBuffer s3 = logBuffer s2 +:+ more ->
  writeLog s3 = (r2, t2, s4) ->
  r2 = None ->
  exists now1 now2 f n c,
    In (EvNow now1) t1 /\
    logBuffer s2 = logBuffer s1 +:+ log_header now1 /\
    t2 = [EvNow now2; EvLog (log_header now2);
          EvOpenFile (logPath_of now2) log_flags perm_0644 (Ok f);
          EvWriteString f
            (logBuffer s1 +:+ log_header now1 +:+ more +:+ log_header now2)
            (n, None);
          EvClose f c] /\
    logBuffer s4 = "".
Proof.
  intros H1 Hr1 Hb H2 ->.
  apply writeLog_run in H1. destruct H1 as (now1 & o1 & q1 & -> & H1).
  apply writeLog_run in H2. destruct H2 as (now2 & o2 & q2 & -> & H2).
  assert (Hkept : logBuffer s2 = logBuffer s1 +:+ log_header now1).
  { destruct o1 as [f1|e1].
    - destruct H1 as (w1 & c1 & _ & H1). destruct (snd w1); [apply H1|].
      destruct H1 as [-> _]. congruence.
    - apply H1. }
  destruct o2 as [f|e2]; [|destruct H2 as (_ & H2 & _); discriminate].
  destruct H2 as (w & c & -> & H2). destruct w as [n [e|]]; simpl in H2;
    [destruct H2; discriminate|].
  exists now1, now2, f, n, c. split; [now left|]. split; [exact Hkept|].
  split; [|apply H2].
  rewrite Hb, Hkept, !append_assoc. reflexivity.
Qed.

End LogFile.

Lemma writeLog_failed_flush_keeps_text_witness :
  exists f n c,
    snd (fst second_flush)
    = [EvNow (mkTime 31 10 2026 0 0 1793404800000);
       EvLog (log_header (mkTime 31 10 2026 0 0 1793404800000));
       EvOpenFile "logs/31-10-2026.log" log_flags perm_0644 (Ok f);
       EvWriteString f
         ("first" +:+ nl
            +:+ log_header (mkTime 30 10 2026 23 59 1793404799000)
            +:+ ("second" +:+ nl)
            +:+ log_header (mkTime 31 10 2026 0 0 1793404800000))
         (n, None);
       EvClose f c].
Proof.
  destruct (@writeLog_failed_flush_keeps_text simulated
              (@mkSt simulated ("first" +:+ nl) midnight_world)
              _ _ _ ("second" +:+ nl) after_first_flush _ _ _
              (run_eta first_flush)
              ltac:(vm_compute; discriminate)
              eq_refl
              (run_eta second_flush)
              ltac:(vm_compute; reflexivity))
    as (now1 & now2 & f & n & c & Hin & _ & Ht & _).
  exists f, n, c.
  assert (E1 : now1 = mkTime 30 10 2026 23 59 1793404799000).
  { vm_compute in Hin. destruct Hin as [Hin|[Hin|[Hin|[]]]];
      [now injection Hin | discriminate Hin | discriminate Hin]. }
  assert (E2 : now2 = mkTime 31 10 2026 0 0 1793404800000).
  { apply (f_equal (fun l => nth 0 l (EvLog ""))) in Ht.
    vm_compute in Ht. now injection Ht. }
  rewrite Ht, E1, E2. reflexivity.
Defined.

(** X3: the log file of the day is named by the date alone.  Two readings
    of the clock give the same file name exactly when they agree on day,
    month and year, whatever the time of day; and the path [writeLog]
    opens is that name inside [logs]. *)
Theorem logFileName_by_date :
  (forall now1 now2,
     logFileName now1 = logFileName now2 <->
     Day now1 = Day now2 /\ Month now1 = Month now2 /\ Year now1 = Year now2) /\
  (forall (P : Platform) now,
     logPath_of now = filepath_Join [logsDir; logFileName now]).
Proof.
  split; [|reflexivity].
  intros now1 now2. split.
  - unfold logFileName. intros H.
    change (fmt_d (Day now1)
              +:+ String "-" (fmt_d (Month now1)
                                +:+ String "-" (fmt_d (Year now1) +:+ ".log"))
            = fmt_d (Day now2)
              +:+ String "-" (fmt_d (Month now2)
                                +:+ String "-" (fmt_d (Year now2) +:+ ".log")))
      in H.
    apply fmt_d_dash_inj in H. destruct H as [Hd H].
    apply fmt_d_dash_inj in H. destruct H as [Hm H].
    apply append_inv_tail in H. unfold fmt_d in H.
    apply (inj pretty) in H. auto.
  - intros (Hd & Hm & Hy). unfold logFileName. now rewrite Hd, Hm, Hy.
Qed.

Lemma logFileName_by_date_witness :
  logFileName (mkTime 30 10 2026 9 5 1793351100000)
  = logFileName (mkTime 30 10 2026 23 59 1793404799000).
Proof.
  apply (proj1 logFileName_by_date). simpl. auto.
Defined.

(** X4: the header that closes a block of the log shows the hour and the
    minute with exactly two digits each, padded with a zero: for every
    reading with both below 100 it is the line
    [----------------- HH:MM -----------------]. *)
Theorem log_header_two_digits now :
  0 <= Hour now < 100 -> 0 <= Minute now < 100 ->
  log_header now
  = "----------------- "
      +:+ String (digit (Hour now / 10)) (String (digit (Hour now mod 10)) "")
      +:+ ":"
      +:+ String (digit (Minute now / 10))
            (String (digit (Minute now mod 10)) "")
      +:+ " -----------------" +:+ nl.
Proof.
  assert (H02 : forall k : nat, (k < 100)%nat ->
            fmt_02d (Z.of_nat k)
            = String (digit (Z.of_nat k / 10))
                (String (digit (Z.of_nat k mod 10)) "")).
  { intros k Hk.
    do 100 (destruct k as [|k]; [vm_compute; reflexivity|]). lia. }
  assert (H02z : forall n, 0 <= n < 100 ->
            fmt_02d n = String (digit (n / 10)) (String (digit (n mod 10)) "")).
  { intros n Hn. rewrite <- (Z2Nat.id n) by lia. apply H02. lia. }
  intros Hh Hm. unfold log_header. now rewrite (H02z _ Hh), (H02z _ Hm).
Qed.

Lemma log_header_two_digits_witness :
  log_header (mkTime 30 10 2026 9 5 1793351100000)
  = "----------------- 09:05 -----------------" +:+ nl.
Proof.
  rewrite log_header_two_digits by (simpl; lia). reflexivity.
Defined.

(** *** The environment detector *)

Section Detector.
Context {P : Platform}.

Lemma detectWindowManager_detect_ev s wm t s' :
  detectWindowManager s = (wm, t, s') -> forallb detect_ev t = true.
Proof. unfold detectWindowManager. intros H. run_inv; reflexivity. Qed.

(** X5: [detectWindowManager] never fails and only looks: its answer is
    one of gnome, i3, dwm and unknown; it reads the two environment
    variables and asks [pgrep] at most twice, and makes no other call; it
    leaves [logBuffer] as it was. *)
Theorem detectWindowManager_only_looks s wm t s' :
  detectWindowManager s = (wm, t, s') ->
  (wm = "gnome" \/ wm = "i3" \/ wm = "dwm" \/ wm = "unknown") /\
  forallb detect_ev t = true /\
  (2 <= length t <= 4)%nat /\
  logBuffer s' = logBuffer s.
Proof.
  intros H.
  split; [|split; [exact (detectWindowManager_detect_ev _ _ _ _ H)|]].
  - unfold detectWindowManager in H. run_inv; auto.
  - unfold detectWindowManager in H.
    run_inv; (split; [simpl; lia | congruence]).
Qed.

End Detector.

Lemma detectWindowManager_only_looks_witness :
  (fst (fst (@detectWindowManager simulated (start bare_world))) = "gnome" \/
   fst (fst (@detectWindowManager simulated (start bare_world))) = "i3" \/
   fst (fst (@detectWindowManager simulated (start bare_world))) = "dwm" \/
   fst (fst (@detectWindowManager simulated (start bare_world))) = "unknown") /\
  forallb detect_ev
    (snd (fst (@detectWindowManager simulated (start bare_world)))) = true /\
  (2 <= length (snd (fst (@detectWindowManager simulated (start bare_world))))
   <= 4)%nat /\
  @logBuffer simulated (snd (@detectWindowManager simulated (start bare_world)))
  = @logBuffer simulated (start bare_world).
Proof.
  exact (@detectWindowManager_only_looks simulated (start bare_world)
           _ _ _ (run_eta _)).
Defined.

Lemma persist_i3_persist_ev {P : Platform} absPath s fs t s' :
  persist_i3 absPath s = (fs, t, s') -> forallb persist_ev t = true.
Proof. unfold persist_i3. intros H. run_inv; reflexivity. Qed.

(** *** Projections of a trace *)

Lemma project_none {A} (f : event -> list A) (p : event -> bool) t :
  forallb p t = true -> (forall e, p e = true -> f e = []) ->
  flat_map f t = [].
Proof.
  intros Hp Hf. induction t as [|e t IH]; [reflexivity|].
  cbn [forallb] in Hp. apply andb_prop in Hp. destruct Hp as [He Ht].
  cbn [flat_map]. now rewrite (Hf e He), IH.
Qed.

(** Compute a projection of a trace, part by part; the parts that are runs
    of helper functions are known by the kinds of their events. *)
Ltac proj_goal :=
  repeat first
    [ rewrite flat_map_app
    | progress cbn [flat_map app]
    | match goal with
      | Hf : forallb ?p ?t = true |- context [flat_map ?f ?t] =>
          rewrite (project_none f p t Hf)
            by (let e := fresh "e" in let He := fresh "He" in
                intros e He; destruct e; simpl in *;
                first [reflexivity | discriminate He])
      end ].

(** The runs of [writeLog] and [flushLog] with their traces written out. *)
Ltac expose_flush :=
  repeat match goal with
  | H : flushLog _ = _ |- _ =>
      apply flushLog_run in H;
      let r := fresh "r" in let tw := fresh "tw" in
      let sw := fresh "sw" in let q := fresh "q" in
      let Hq := fresh "Hq" in
      destruct H as (r & tw & sw & q & H & -> & _ & Hq);
      destruct r; subst q
  | H : writeLog _ = _ |- _ =>
      apply writeLog_run in H;
      let now := fresh "now" in let o := fresh "o" in
      let q := fresh "q" in let w := fresh "w" in let c := fresh "c" in
      destruct H as (now & o & q & -> & H);
      destruct o; [destruct H as (w & c & -> & H) | destruct H as (-> & H)]
  end.

(** The runs of the detector, of the persistence step and of the deferred
    closes as facts on the kinds of their events. *)
Ltac helper_kinds :=
  repeat match goal with
  | H : detectWindowManager _ = _ |- _ =>
      apply detectWindowManager_detect_ev in H
  | H : persist_i3 _ _ = _ |- _ =>
      apply persist_i3_persist_ev in H
  | H : close_all _ _ = _ |- _ =>
      apply close_all_run, proj1 in H
  end.

Section SetWallpaperMore.
Context {P : Platform}.

(** X6: every path through [setWallpaper], whether it succeeds or fails,
    flushes the log exactly once before it returns: the clock is read
    once, for the header and the name of the log file of the day, and
    that file is opened (or the opening is attempted). *)
Theorem setWallpaper_flushes_once name dir s r t s' :
  setWallpaper name dir s = (r, t, s') ->
  exists now o,
    nows t = [now] /\
    In (EvLog (log_header now)) t /\
    In (EvOpenFile (logPath_of now) log_flags perm_0644 o) t.
Proof.
  intros H. unfold setWallpaper, setWallpaper_gnome, setWallpaper_feh in H.
  run_inv; simplify_eq; expose_flush; helper_kinds.
  all: do 2 eexists; split; [unfold nows; proj_goal; reflexivity|].
  all: split; in_search.
Qed.

(** X7: [setWallpaper] chooses the tool by the answer of the detector.
    With the path resolved to [abs] and the detector answering [wm]: on
    gnome it runs gsettings with the address [file://abs] and does not
    look for feh; on dwm and i3 it first looks for feh, returns an error
    without running anything when feh is missing, and otherwise runs
    [feh --bg-scale abs]; on any other answer it returns the error
    "unknown window manager" and neither looks for nor runs a tool. *)
Theorem setWallpaper_tool_by_window_manager
    name dir s r t s' a ta sa wm td sd :
  setWallpaper name dir s = (r, t, s') ->
  sys (filepath_Abs (filepath_Join [dir; name])) s = (a, ta, sa) ->
  snd a = None ->
  detectWindowManager sa = (wm, td, sd) ->
  exists rest,
    t = ta ++ td
          ++ EvLog ("Detected window manager: " +:+ wm +:+ nl) :: rest /\
    (wm = "gnome" ->
     runs rest = [("gsettings",
                   ["set"; "org.gnome.desktop.background"; "picture-uri";
                    "file://" +:+ fst a])] /\
     forall f e, ~ In (EvLookPath f e) rest) /\
    (wm = "dwm" \/ wm = "i3" ->
     exists lp q,
       rest = EvLookPath "feh" lp :: q /\
       match lp with
       | Some e => r = Some ("feh not found: " +:+ e) /\ runs q = []
       | None => runs q = [("feh", ["--bg-scale"; fst a])]
       end) /\
    (wm <> "gnome" -> wm <> "dwm" -> wm <> "i3" ->
     r = Some ("unknown window manager: " +:+ wm) /\ runs rest = [] /\
     forall f e, ~ In (EvLookPath f e) rest).
Proof.
  intros H Ha Hnil Hd. unfold setWallpaper in H.
  apply bind_inv in H. destruct H as (a' & t1 & s1 & t2 & Ha' & H & ->).
  rewrite Ha in Ha'. injection Ha' as <- <- <-. clear Ha.
  destruct a as [abs aerr]. cbn [fst snd] in *. subst aerr.
  apply bind_inv in H. destruct H as (wm' & t3 & s3 & t4 & Hd' & H & ->).
  rewrite Hd in Hd'. injection Hd' as <- <- <-. clear Hd.
  apply bind_inv in H. destruct H as (u & t5 & s5 & t6 & Hl & H & ->).
  apply log_inv in Hl. destruct Hl as (-> & _ & _).
  unfold setWallpaper_gnome, setWallpaper_feh in H.
  run_inv; simplify_eq; expose_flush; helper_kinds.
  all: eexists; (split; [cbn [app]; reflexivity|]).
  all: repeat match goal with
       | H : (_ =? _)%string = true |- _ => apply String.eqb_eq in H; subst
       | H : (_ =? _)%string = false |- _ => apply String.eqb_neq in H
       | H : (_ || _)%bool = true |- _ => apply orb_prop in H; destruct H
       | H : (_ || _)%bool = false |- _ =>
           apply orb_false_elim in H; destruct H
       end.
  all: split; [|split].
  all: try solve [intros ->; congruence].
  all: try solve [intros [->| ->]; first [congruence | discriminate]].
  all: try solve [intros; congruence].
  all: try solve [intros [E|E]; congruence].
  all: try solve [intros _; split;
                  [unfold runs; proj_goal; reflexivity
                  |intros ? ? Hin; in_cases Hin]].
  all: try solve [intros _; do 2 eexists; (split; [reflexivity|]);
                  cbv beta iota;
                  repeat split; unfold runs; proj_goal; reflexivity].
  all: try solve [intros _ _ _; split; [reflexivity|]; split;
                  [unfold runs; proj_goal; reflexivity
                  |intros ? ? Hin; in_cases Hin]].
Qed.

(** X8: when the path of the wallpaper cannot be made absolute,
    [setWallpaper] logs the error, flushes the log and returns; it does
    not ask for the window manager and runs no tool. *)
Theorem setWallpaper_unresolved_path name dir s r t s' p a e :
  setWallpaper name dir s = (r, t, s') ->
  In (EvAbs p (a, Some e)) t ->
  r = Some ("failed to get absolute path: " +:+ e) /\
  exists tf,
    t = EvAbs (filepath_Join [dir; name]) (a, Some e)
          :: EvLog ("Error getting absolute path: " +:+ e +:+ nl) :: tf /\
    forallb log_ev tf = true.
Proof.
  intros H Hin. unfold setWallpaper, setWallpaper_gnome, setWallpaper_feh in H.
  run_inv; simplify_eq; footprints; in_cases Hin; simplify_eq.
  split; [reflexivity|].
  match goal with
  | H : flushLog _ = _ |- _ => apply flushLog_events in H
  end.
  eexists. split; [cbn [app]; reflexivity|].
  rewrite app_nil_r. assumption.
Qed.

(** X9: when the tool exits with an error, [setWallpaper] puts the error
    into the log and returns it, naming the tool; it does not announce
    that the wallpaper was set, and on i3 the configuration file is not
    looked at. *)
Theorem setWallpaper_tool_failure name dir s r t s' tool args out errout e :
  setWallpaper name dir s = (r, t, s') ->
  In (EvRun tool args (out, errout, Some e)) t ->
  ((tool = "gsettings" /\ r = Some ("failed to set wallpaper: " +:+ e)) \/
   (tool = "feh" /\ r = Some ("failed to set wallpaper with feh: " +:+ e))) /\
  In (EvLog ("Error: " +:+ e +:+ nl)) t /\
  (forall path st, ~ In (EvStat path st) t) /\
  (forall f st, ~ In (EvLookPath f (Some st)) t).
Proof.
  intros H Hin. unfold setWallpaper, setWallpaper_gnome, setWallpaper_feh in H.
  run_inv; simplify_eq; expose_flush; helper_kinds; in_cases Hin; simplify_eq.
  all: split; [first [left; split; reflexivity | right; split; reflexivity]|].
  all: split; [in_search|].
  all: split; [intros ? ? Hin'; in_cases Hin'
              |intros ? ? Hin'; in_cases Hin'].
Qed.

(** X10: the i3 configuration file is looked for only on i3 and only after
    feh has run without error and without output on stderr; its path is
    [.config/i3/config] under the value of [HOME]. *)
Theorem setWallpaper_config_only_on_i3 name dir s r t s' path st :
  setWallpaper name dir s = (r, t, s') ->
  In (EvStat path st) t ->
  exists pre post abs out home,
    t = pre ++ EvLog ("Detected window manager: " +:+ "i3" +:+ nl)
          :: EvLookPath "feh" None :: post /\
    In (EvRun "feh" ["--bg-scale"; abs] (out, "", None)) post /\
    In (EvGetenv "HOME" home) post /\
    path = filepath_Join [home; ".config"; "i3"; "config"].
Proof.
  intros H Hin.
  unfold setWallpaper, setWallpaper_gnome, setWallpaper_feh, persist_i3 in H.
  run_inv; simplify_eq; expose_flush; helper_kinds; in_cases Hin; simplify_eq.
  all: repeat match goal with
       | H : (_ =? _)%string = true |- _ => apply String.eqb_eq in H; subst
       | H : negb (_ =? "")%string = false |- _ =>
           apply negb_false_iff, String.eqb_eq in H; subst
       end.
  all: do 5 eexists; split; [peel|]; split; [in_search|]; split;
    [in_search | reflexivity].
Qed.

Lemma fehLine_recognised absPath pre post :
  strings_Contains
    (pre +:+ (nl +:+ "exec --no-startup-id feh --bg-scale " +:+ absPath +:+ nl)
         +:+ post)
    ("feh --bg-scale " +:+ absPath) = true.
Proof.
  apply Contains_iff.
  exists (pre +:+ nl +:+ "exec --no-startup-id "), (nl +:+ post).
  rewrite !append_assoc. reflexivity.
Qed.

(** X11: the persistence step recognises its own line.  When the i3
    configuration that [persist_i3] reads already holds the line it would
    write for this path, it does not open the file and writes nothing,
    neither to the file nor to the log: setting the same wallpaper again
    does not add the line a second time. *)
Theorem persist_i3_recognises_its_line absPath s fs t s' p content pre post :
  persist_i3 absPath s = (fs, t, s') ->
  In (EvReadFile p (content, None)) t ->
  content
  = pre +:+ (nl +:+ "exec --no-startup-id feh --bg-scale " +:+ absPath +:+ nl)
        +:+ post ->
  fs = [] /\ logBuffer s' = logBuffer s /\
  (forall p' flag perm o, ~ In (EvOpenFile p' flag perm o) t) /\
  (forall f x w, ~ In (EvWriteString f x w) t).
Proof.
  intros H Hin ->. unfold persist_i3 in H.
  run_inv; in_cases Hin; simplify_eq.
  all: try match goal with
       | H : negb (strings_Contains _ _) = true |- _ =>
           rewrite fehLine_recognised in H; discriminate H
       end.
  split; [reflexivity|]. split; [congruence|].
  split; intros; intros Hin'; in_cases Hin'.
Qed.

End SetWallpaperMore.

Lemma setWallpaper_flushes_once_witness :
  exists now o,
    nows (snd (fst (@setWallpaper simulated "w.png" "Pictures"
                      (start chatty_dwm_world)))) = [now] /\
    In (EvLog (log_header now))
       (snd (fst (@setWallpaper simulated "w.png" "Pictures"
                    (start chatty_dwm_world)))) /\
    In (EvOpenFile (@logPath_of simulated now) log_flags perm_0644 o)
       (snd (fst (@setWallpaper simulated "w.png" "Pictures"
                    (start chatty_dwm_world)))).
Proof.
  exact (@setWallpaper_flushes_once simulated "w.png" "Pictures"
           (start chatty_dwm_world) _ _ _ (run_eta _)).
Defined.

Lemma setWallpaper_tool_by_window_manager_witness :
  exists rest,
    snd (fst (@setWallpaper simulated "w.png" "Pictures" (start world0)))
    = [EvAbs "Pictures/w.png" ("/home/user/Pictures/w.png", None)]
        ++ snd (fst (@detectWindowManager simulated (start world0)))
        ++ EvLog ("Detected window manager: " +:+ "i3" +:+ nl) :: rest /\
    exists lp q,
      rest = EvLookPath "feh" lp :: q /\
      match lp with
      | Some e =>
          fst (fst (@setWallpaper simulated "w.png" "Pictures" (start world0)))
          = Some ("feh not found: " +:+ e) /\ runs q = []
      | None => runs q = [("feh", ["--bg-scale"; "/home/user/Pictures/w.png"])]
      end.
Proof.
  destruct (@setWallpaper_tool_by_window_manager simulated "w.png" "Pictures"
              (start world0) _ _ _
              ("/home/user/Pictures/w.png", None)
              [EvAbs "Pictures/w.png" ("/home/user/Pictures/w.png", None)]
              (start world0) "i3" _ _
              (run_eta _) eq_refl eq_refl (run_eta _))
    as (rest & Ht & _ & Hfeh & _).
  exists rest. split; [exact Ht|]. apply Hfeh. now right.
Defined.

Lemma setWallpaper_unresolved_path_witness :
  fst (fst (@setWallpaper (faulty no_cwd) "w.png" "Pictures"
              (@mkSt (faulty no_cwd) "" world0)))
  = Some ("failed to get absolute path: "
            +:+ "getwd: no such file or directory").
Proof.
  refine (proj1 (@setWallpaper_unresolved_path (faulty no_cwd) "w.png"
                   "Pictures" (@mkSt (faulty no_cwd) "" world0) _ _ _
                   "Pictures/w.png" "" "getwd: no such file or directory"
                   (run_eta _) _)).
  find_in.
Defined.

Lemma setWallpaper_tool_failure_witness :
  fst (fst (@setWallpaper simulated "w.png" "Pictures"
              (start failing_feh_world)))
  = Some ("failed to set wallpaper with feh: " +:+ "exit status 1").
Proof.
  destruct (@setWallpaper_tool_failure simulated "w.png" "Pictures"
              (start failing_feh_world) _ _ _
              "feh" ["--bg-scale"; "/home/user/Pictures/w.png"]
              "" "" "exit status 1" (run_eta _) ltac:(find_in))
    as ([[E _]|[_ Hr]] & _).
  - discriminate E.
  - exact Hr.
Defined.

Lemma setWallpaper_config_only_on_i3_witness :
  exists pre post abs out home,
    snd (fst (@setWallpaper simulated "w.png" "Pictures" (start world0)))
    = pre ++ EvLog ("Detected window manager: " +:+ "i3" +:+ nl)
          :: EvLookPath "feh" None :: post /\
    In (EvRun "feh" ["--bg-scale"; abs] (out, "", None)) post /\
    In (EvGetenv "HOME" home) post /\
    "/home/user/.config/i3/config"
    = @filepath_Join simulated [home; ".config"; "i3"; "config"].
Proof.
  refine (@setWallpaper_config_only_on_i3 simulated "w.png" "Pictures"
            (start world0) _ _ _ "/home/user/.config/i3/config" None
            (run_eta _) _).
  find_in.
Defined.

Lemma persist_i3_recognises_its_line_witness :
  In (EvWriteString (mkFile 0)
        (nl +:+ "exec --no-startup-id feh --bg-scale "
            +:+ "/home/user/Pictures/w.png" +:+ nl)
        (63, None))
     (snd (fst persist_first)) /\
  fst (fst persist_again) = [] /\
  @logBuffer simulated (snd persist_again)
  = @logBuffer simulated (snd persist_first) /\
  (forall p' flag perm o,
     ~ In (EvOpenFile p' flag perm o) (snd (fst persist_again))) /\
  (forall f x w, ~ In (EvWriteString f x w) (snd (fst persist_again))).
Proof.
  split; [solve [find_in]|].
  refine (@persist_i3_recognises_its_line simulated
            "/home/user/Pictures/w.png" (snd persist_first) _ _ _
            "/home/user/.config/i3/config"
            ("font pango:monospace 8"
               +:+ (nl +:+ "exec --no-startup-id feh --bg-scale "
                       +:+ "/home/user/Pictures/w.png" +:+ nl))
            "font pango:monospace 8" ""
            (run_eta _) _ _).
  - find_in.
  - vm_compute. reflexivity.
Defined.

(** *** The download *)

Section DownloadMore.
Context {P : Platform}.

(** [setWallpaper] begins by asking for the absolute path of the file, and
    asks once. *)
Lemma setWallpaper_asks_path_first name dir s r t s' :
  setWallpaper name dir s = (r, t, s') ->
  exists a rest,
    t = EvAbs (filepath_Join [dir; name]) a :: rest /\
    forall p a', ~ In (EvAbs p a') rest.
Proof.
  intros H. unfold setWallpaper, setWallpaper_gnome, setWallpaper_feh in H.
  run_inv; simplify_eq; footprints.
  all: do 2 eexists; (split; [cbn [app]; reflexivity|]).
  all: intros p a' Hin; in_cases Hin.
Qed.

(** X12: [downloadWallpaper] sets as wallpaper the file it has just
    saved, and only a file that was saved completely.  Whenever the
    absolute path of a file is asked for, which is the first step of
    [setWallpaper], that file was created by this download and the copy
    of the image body into it ended without error. *)
Theorem downloadWallpaper_sets_what_it_saved url dir s r t s' p a :
  downloadWallpaper url dir s = (r, t, s') ->
  In (EvAbs p a) t ->
  exists pre f b n post,
    t = pre ++ EvCreate p (Ok f) :: EvCopy f b (n, None)
          :: EvPrint ("Download done" +:+ nl)
          :: EvLog ("Download done" +:+ nl)
          :: EvAbs p a :: post /\
    (forall p' a', ~ In (EvAbs p' a') pre).
Proof.
  intros H Hin. unfold downloadWallpaper in H.
  run_inv; footprints_sw; in_cases Hin; simplify_eq.
  all: try solve [exfalso; eapply not_in_footprint; [apply dump_events_dump_ev| |eassumption]; reflexivity].
  match goal with
  | R : setWallpaper _ _ _ = _ |- _ =>
      apply setWallpaper_asks_path_first in R;
      destruct R as (a0 & rest & -> & Hrest)
  end.
  destruct Hin as [Hin|Hin]; [|exfalso; exact (Hrest _ _ Hin)].
  injection Hin as <- <-.
  match goal with
  | H : snd ?w = None |- _ => destruct w as [n werr]; cbn [snd] in H; subst werr
  end.
  do 5 eexists. split; [peel|].
  intros p' a' Hin'. in_cases Hin'.
Qed.

(** X13: what [downloadWallpaper] does after the detail page is parsed is
    read off the page.  The only request it sends afterwards is a GET for
    the address the selector chain found, carrying the User-Agent header
    and no other; and the file it creates is named by a clock reading and
    the identifier of the page: the data-wallpaper-id attribute of the
    first image in the scroll container, or "unknown" when that attribute
    is missing. *)
Theorem downloadWallpaper_follows_page url dir s r t s' b doc :
  downloadWallpaper url dir s = (r, t, s') ->
  In (EvParse b (Ok doc)) t ->
  (exists e0 req0 resp0 post,
     t = e0 :: EvDo req0 resp0 :: EvParse b (Ok doc) :: post /\
     (forall req resp, In (EvDo req resp) post ->
        snd (extractImageSource doc) = true /\
        req = Header_Set (mkRequest "GET" (fst (extractImageSource doc)) ∅)
                "User-Agent" userAgent) /\
     (forall path res, In (EvCreate path res) post ->
        exists now,
          In (EvNow now) post /\
          path = filepath_Join
                   [dir; wallpaperFileName_of now (wallpaperID_of doc)])) /\
  (forall v,
     Sel_Attr (Find sel_scrollbox_img doc) "data-wallpaper-id" = (v, false) ->
     wallpaperID_of doc = "unknown").
Proof.
  intros H Hin.
  split; [|unfold wallpaperID_of; intros v ->; reflexivity].
  unfold downloadWallpaper in H.
  run_inv; footprints_sw; in_cases Hin; simplify_eq.
  all: try solve [exfalso; eapply not_in_footprint;
                  [apply dump_events_dump_ev| |eassumption]; reflexivity].
  all: do 4 eexists; (split; [cbn [app]; reflexivity|]).
  all: unfold wallpaperID_of;
    repeat match goal with
    | H : extractImageSource _ = _ |- _ => rewrite H
    | H : Sel_Attr _ "data-wallpaper-id" = _ |- _ => rewrite H
    | H : negb _ = false |- _ => apply negb_false_iff in H; subst
    | H : negb _ = true |- _ => apply negb_true_iff in H; subst
    end; cbn [fst snd negb].
  all: split; [intros req resp Hin'; in_cases Hin'; simplify_eq;
               try (split; reflexivity)|].
  all: try solve [exfalso; eapply not_in_footprint;
                  [apply dump_events_dump_ev| |eassumption]; reflexivity].
  all: intros path res Hin'; in_cases Hin'; simplify_eq;
    try (eexists; split; [in_search | reflexivity]).
  all: try solve [exfalso; eapply not_in_footprint;
                  [apply dump_events_dump_ev| |eassumption]; reflexivity].
Qed.

(** X14: a response whose status is not 200 ends the download.  For the
    detail page, [downloadWallpaper] returns "unexpected status code" with
    the status, having done nothing but close the body; for the image it
    returns "unexpected image download status code".  In both cases no
    file is created and no tool is run. *)
Theorem downloadWallpaper_needs_status_200 url dir s r t s' req resp :
  downloadWallpaper url dir s = (r, t, s') ->
  In (EvDo req (Ok resp)) t ->
  StatusCode resp <> 200 ->
  ((exists e0 c,
      t = [e0; EvDo req (Ok resp); EvBodyClose (RespBody resp) c] /\
      r = Some ("unexpected status code: " +:+ fmt_d (StatusCode resp))) \/
   (exists pre c1 b0 c0,
      t = pre ++ [EvDo req (Ok resp); EvBodyClose (RespBody resp) c1;
                  EvBodyClose b0 c0] /\
      r = Some ("unexpected image download status code: "
                  +:+ fmt_d (StatusCode resp)))) /\
  (forall path res, ~ In (EvCreate path res) t) /\
  runs t = [].
Proof.
  intros H Hin Hne. unfold downloadWallpaper in H.
  run_inv; footprints_sw; in_cases Hin; simplify_eq.
  all: try solve [exfalso; eapply not_in_footprint;
                  [apply dump_events_dump_ev| |eassumption]; reflexivity].
  all: repeat match goal with
       | H : negb (_ =? _) = false |- _ =>
           apply negb_false_iff, Z.eqb_eq in H
       end; unfold http_StatusOK in *; try congruence.
  all: split;
    [first [left; do 2 eexists; split; [reflexivity | reflexivity]
           |right; do 4 eexists; split; [peel | reflexivity]]|].
  all: split; [intros path res Hin'; in_cases Hin'
              |unfold runs; proj_goal; reflexivity].
Qed.

(** [Selection.First] before [Attr] changes nothing. *)
Lemma Sel_Attr_First sel name : Sel_Attr (First sel) name = Sel_Attr sel name.
Proof. destruct sel as [|[tag attrs ch|d] rest]; reflexivity. Qed.

(** X15: [fetchRandomWallpaperURL] sends one request and returns the href
    of the first thumbnail link of the page it gets: the attribute of the
    first element matching [.thumb a] when it has one, the error
    "wallpaper random URL not found" when it has none or nothing matches.
    Whenever it returns an error the address it returns is empty. *)
Theorem fetchRandomWallpaperURL_first_thumb s src err t s' :
  fetchRandomWallpaperURL s = ((src, err), t, s') ->
  (err <> None -> src = "") /\
  (length (requests t) <= 1)%nat /\
  (err = None -> exists b doc, In (EvParse b (Ok doc)) t) /\
  (forall b doc, In (EvParse b (Ok doc)) t ->
     (src, err)
     = match Sel_Attr (Find sel_thumb_a doc) "href" with
       | (href, true) => (href, None)
       | (_, false) => ("", Some "wallpaper random URL not found")
       end).
Proof.
  intros H. unfold fetchRandomWallpaperURL in H.
  run_inv; simplify_eq.
  all: split; [intros Hn; first [reflexivity | now destruct Hn]|].
  all: split; [simpl; lia|].
  all: split; [first [discriminate | intros _; do 2 eexists; in_search]|].
  all: intros b' doc' Hin; in_cases Hin; simplify_eq.
  all: match goal with
       | H : Sel_Attr (First _) _ = _ |- _ =>
           rewrite Sel_Attr_First in H; rewrite H
       end.
  all: match goal with
       | |- context [if ?b then _ else _] =>
           destruct b; simpl in *; first [discriminate | reflexivity]
       end.
Qed.

(** When [setWallpaper] returns no error a tool has run, without error and
    without output on its stderr. *)
Lemma setWallpaper_success name dir s t s' :
  setWallpaper name dir s = (None, t, s') ->
  exists tool args out, In (EvRun tool args (out, "", None)) t.
Proof.
  intros H. unfold setWallpaper, setWallpaper_gnome, setWallpaper_feh in H.
  run_inv; simplify_eq.
  all: repeat match goal with
       | H : negb (_ =? "")%string = false |- _ =>
           apply negb_false_iff, String.eqb_eq in H; subst
       end.
  all: do 3 eexists; in_search.
Qed.

Lemma downloadWallpaper_success url dir s t s' :
  downloadWallpaper url dir s = (None, t, s') ->
  exists tool args out, In (EvRun tool args (out, "", None)) t.
Proof.
  intros H. unfold downloadWallpaper in H.
  run_inv; simplify_eq.
  match goal with
  | R : setWallpaper _ _ _ = _ |- _ =>
      apply setWallpaper_success in R; destruct R as (tool & args & out & Hin)
  end.
  exists tool, args, out. in_search.
Qed.

Lemma setWallpaper_success_flushed name dir s t s' :
  setWallpaper name dir s = (None, t, s') -> logBuffer s' = "".
Proof.
  intros H. unfold setWallpaper, setWallpaper_gnome, setWallpaper_feh in H.
  run_inv; simplify_eq.
  all: match goal with
       | Hw : writeLog _ = (None, _, ?sw), Hc : close_all _ ?sw = _ |- _ =>
           apply close_all_run, proj2 in Hc; rewrite Hc;
           apply writeLog_run in Hw;
           destruct Hw as (now & o & q & _ & Hw); destruct o as [f|e];
           [destruct Hw as (w & c & _ & Hw); destruct (snd w);
            [destruct Hw as [Hw _]; discriminate Hw | apply Hw]
           |destruct Hw as (_ & Hw & _); discriminate Hw]
       end.
Qed.

(** X23: when [downloadWallpaper] returns no error, all of it has
    happened: the file was created and the image body copied into it
    without error, after that a tool has run without error and without
    output on stderr, and the log was written out, leaving [logBuffer]
    empty. *)
Theorem downloadWallpaper_success_is_complete url dir s r t s' :
  downloadWallpaper url dir s = (r, t, s') ->
  r = None ->
  exists pre path f b n post tool args out,
    t = pre ++ EvCreate path (Ok f) :: EvCopy f b (n, None) :: post /\
    In (EvRun tool args (out, "", None)) post /\
    logBuffer s' = "".
Proof.
  intros H ->. unfold downloadWallpaper in H.
  run_inv; simplify_eq.
  match goal with
  | R : setWallpaper _ _ _ = _ |- _ =>
      pose proof (setWallpaper_success_flushed _ _ _ _ _ R) as Hb;
      apply setWallpaper_success in R; destruct R as (tool & args & out & Hin)
  end.
  match goal with
  | H : snd ?w = None |- _ => destruct w as [n werr]; cbn [snd] in H; subst werr
  end.
  do 6 eexists. exists tool, args, out.
  split; [peel|]. split; [in_search | congruence].
Qed.

End DownloadMore.

Lemma downloadWallpaper_success_is_complete_witness :
  exists pre path f b n post tool args out,
    snd (fst (@downloadWallpaper simulated "https://wallhaven.cc/w/ab12cd"
                "Pictures" (start world0)))
    = pre ++ EvCreate path (Ok f) :: EvCopy f b (n, None) :: post /\
    In (EvRun tool args (out, "", None)) post /\
    @logBuffer simulated
      (snd (@downloadWallpaper simulated "https://wallhaven.cc/w/ab12cd"
              "Pictures" (start world0))) = "".
Proof.
  refine (@downloadWallpaper_success_is_complete simulated
            "https://wallhaven.cc/w/ab12cd" "Pictures" (start world0)
            _ _ _ (run_eta _) _).
  vm_compute. reflexivity.
Defined.

Lemma downloadWallpaper_sets_what_it_saved_witness :
  exists pre f b n post,
    snd (fst (@downloadWallpaper simulated "https://wallhaven.cc/w/ab12cd"
                "Pictures" (start world0)))
    = pre ++ EvCreate "Pictures/1793351100000-ab12cd.png" (Ok f)
          :: EvCopy f b (n, None)
          :: EvPrint ("Download done" +:+ nl)
          :: EvLog ("Download done" +:+ nl)
          :: EvAbs "Pictures/1793351100000-ab12cd.png"
               ("/home/user/Pictures/1793351100000-ab12cd.png", None)
          :: post /\
    (forall p' a', ~ In (EvAbs p' a') pre).
Proof.
  refine (@downloadWallpaper_sets_what_it_saved simulated
            "https://wallhaven.cc/w/ab12cd" "Pictures" (start world0) _ _ _
            "Pictures/1793351100000-ab12cd.png"
            ("/home/user/Pictures/1793351100000-ab12cd.png", None)
            (run_eta _) _).
  find_in.
Defined.

Lemma downloadWallpaper_follows_page_witness :
  exists e0 req0 resp0 post,
    snd (fst (@downloadWallpaper simulated "https://wallhaven.cc/w/ab12cd"
                "Pictures" (start world0)))
    = e0 :: EvDo req0 resp0 :: EvParse (mkBody 2) (Ok detail_page) :: post /\
    (forall req resp, In (EvDo req resp) post ->
       snd (extractImageSource detail_page) = true /\
       req = Header_Set
               (mkRequest "GET" (fst (extractImageSource detail_page)) ∅)
               "User-Agent" userAgent) /\
    (forall path res, In (EvCreate path res) post ->
       exists now,
         In (EvNow now) post /\
         path = @filepath_Join simulated
                  ["Pictures";
                   wallpaperFileName_of now (wallpaperID_of detail_page)]).
Proof.
  refine (proj1 (@downloadWallpaper_follows_page simulated
                   "https://wallhaven.cc/w/ab12cd" "Pictures" (start world0)
                   _ _ _ (mkBody 2) detail_page (run_eta _) _)).
  find_in.
Defined.

Lemma downloadWallpaper_needs_status_200_witness :
  (exists e0 c,
     snd (fst (@downloadWallpaper simulated "https://wallhaven.cc/w/gone"
                 "Pictures" (start gone_world)))
     = [e0;
        EvDo (Header_Set
                (Header_Set (mkRequest "GET" "https://wallhaven.cc/w/gone" ∅)
                   "User-Agent" userAgent)
                "Accept" acceptHeader)
          (Ok (mkResponse 404 (mkBody 2)));
        EvBodyClose (mkBody 2) c] /\
     fst (fst (@downloadWallpaper simulated "https://wallhaven.cc/w/gone"
                 "Pictures" (start gone_world)))
     = Some ("unexpected status code: " +:+ fmt_d 404)) \/
  (exists pre c1 b0 c0,
     snd (fst (@downloadWallpaper simulated "https://wallhaven.cc/w/gone"
                 "Pictures" (start gone_world)))
     = pre ++ [EvDo (Header_Set
                       (Header_Set
                          (mkRequest "GET" "https://wallhaven.cc/w/gone" ∅)
                          "User-Agent" userAgent)
                       "Accept" acceptHeader)
                 (Ok (mkResponse 404 (mkBody 2)));
               EvBodyClose (mkBody 2) c1; EvBodyClose b0 c0] /\
     fst (fst (@downloadWallpaper simulated "https://wallhaven.cc/w/gone"
                 "Pictures" (start gone_world)))
     = Some ("unexpected image download status code: " +:+ fmt_d 404)).
Proof.
  refine (proj1 (@downloadWallpaper_needs_status_200 simulated
                   "https://wallhaven.cc/w/gone" "Pictures" (start gone_world)
                   _ _ _
                   (Header_Set
                      (Header_Set
                         (mkRequest "GET" "https://wallhaven.cc/w/gone" ∅)
                         "User-Agent" userAgent)
                      "Accept" acceptHeader)
                   (mkResponse 404 (mkBody 2))
                   (run_eta _) _ _)).
  - find_in.
  - simpl. lia.
Defined.

(** A run that returns a pair. *)
Lemma run_eta2 {A B C D} (x : A * B * C * D) :
  x = (fst (fst (fst x)), snd (fst (fst x)), snd (fst x), snd x).
Proof. destruct x as [[[a b] c] d]. reflexivity. Qed.

Lemma fetchRandomWallpaperURL_first_thumb_witness :
  (fst (fst (fst (@fetchRandomWallpaperURL simulated (start world0)))),
   snd (fst (fst (@fetchRandomWallpaperURL simulated (start world0)))))
  = match Sel_Attr (Find sel_thumb_a random_page) "href" with
    | (href, true) => (href, None)
    | (_, false) => ("", Some "wallpaper random URL not found")
    end.
Proof.
  refine (proj2 (proj2 (proj2
            (@fetchRandomWallpaperURL_first_thumb simulated (start world0)
               _ _ _ _ (run_eta2 _)))) (mkBody 1) random_page _).
  find_in.
Defined.

(** *** The session *)

Section KnownFiles.
Context {P : Platform}.








End KnownFiles.



Section KnownFiles2.
Context {P : Platform}.





End KnownFiles2.

Section SessionMore.
Context {P : Platform}.

Lemma fetch_turn e : fetch_ev e = true -> turn_ev e = true.
Proof. destruct e; simpl; try discriminate; auto. Qed.

Lemma download_turn e : download_ev e = true -> turn_ev e = true.
Proof. destruct e; simpl; try discriminate; auto. Qed.

Lemma log_turn e : log_ev e = true -> turn_ev e = true.
Proof. destruct e; simpl; try discriminate; auto. Qed.

Lemma iteration_turn_ev dir s c t s' :
  iteration dir s = (c, t, s') -> forallb turn_ev t = true.
Proof.
  intros H. apply iteration_run in H.
  destruct H as (src & ferr & tf & sf & Hf & H).
  apply fetchRandomWallpaperURL_facts in Hf. destruct Hf as [Hf _].
  apply (forallb_weaken _ _ _ fetch_turn) in Hf.
  destruct ferr as [e|].
  - destruct H as (_ & tfl & -> & Hl).
    apply (forallb_weaken _ _ _ log_turn) in Hl.
    rewrite ?forallb_app. cbn [forallb]. rewrite ?forallb_app, Hf, Hl.
    reflexivity.
  - destruct H as (sd & derr & td & sd' & Hd & H).
    apply downloadWallpaper_facts in Hd. destruct Hd as (Hd & _).
    apply (forallb_weaken _ _ _ download_turn) in Hd.
    destruct derr as [e|].
    + destruct H as (_ & tfl & -> & Hl).
      apply (forallb_weaken _ _ _ log_turn) in Hl.
      rewrite ?forallb_app. cbn [forallb].
      rewrite ?forallb_app, Hf, Hd. cbn [forallb].
      rewrite ?forallb_app, Hl. reflexivity.
    + destruct H as (line & tfl & -> & Hl & _).
      apply (forallb_weaken _ _ _ log_turn) in Hl.
      rewrite ?forallb_app. cbn [forallb].
      rewrite ?forallb_app, Hf, Hd. cbn [forallb].
      rewrite ?forallb_app, Hl. destruct (keeps line); reflexivity.
Qed.

Lemma loop_turn_ev fuel : forall dir s b t s',
  loop fuel dir s = (b, t, s') -> forallb turn_ev t = true.
Proof.
  induction fuel as [|n IH]; intros dir s b t s' H.
  - cbn [loop] in H. run_inv. reflexivity.
  - destruct (iteration dir s) as [[c t0] s0] eqn:Hi.
    rewrite (loop_step n _ _ _ _ _ Hi) in H.
    apply iteration_turn_ev in Hi.
    destruct c.
    + destruct (loop n dir s0) as [[b2 t2] s2] eqn:Hl.
      injection H as <- <- <-. apply IH in Hl.
      now rewrite forallb_app, Hi, Hl.
    + injection H as <- <- <-. exact Hi.
Qed.

(** A run of [main], step by step. *)
Lemma main_run fuel s e t s' :
  main fuel s = (e, t, s') ->
  exists line m1 q,
    t = EvPrint ("Wallhaven Download Started" +:+ nl)
        :: EvPrint
             "Enter the directory path to store wallpapers (e.g., /home/user/Pictures): "
        :: EvScan line
        :: (if String.eqb (strings_TrimSpace line) ""
            then [EvPrint ("No directory provided, using default: ./Pictures"
                             +:+ nl);
                  EvLog ("No directory provided, using default: ./Pictures"
                           +:+ nl)]
            else [])
        ++ EvMkdirAll logsDir perm_0755 m1 :: q /\
    match m1 with
    | Some err =>
        q = [EvFatalf ("Failed to create logs directory: " +:+ err)] /\
        e = Exit 1
    | None =>
        exists m2 q2,
          q = EvMkdirAll (picturesDir_of line) perm_0755 m2 :: q2 /\
          match m2 with
          | Some err =>
              q2 = [EvFatalf ("Failed to create pictures directory: "
                                +:+ err)] /\
              e = Exit 1
          | None =>
              exists sl left_ tl sl' q3,
                loop fuel (picturesDir_of line) sl = (left_, tl, sl') /\
                q2 = EvPrint ("Using pictures directory: "
                                +:+ picturesDir_of line +:+ nl)
                     :: EvLog ("Using pictures directory: "
                                 +:+ picturesDir_of line +:+ nl)
                     :: tl ++ q3 /\
                if left_ then
                  exists wd,
                    q3 = EvGetwd wd
                         :: match snd wd with
                            | Some err =>
                                [EvLogPrintf
                                   ("Failed to get working directory: "
                                      +:+ err)]
                            | None => []
                            end
                         ++ [EvPrint (fst wd +:+ nl)] /\
                    e = Exit 0
                else q3 = [] /\ e = Looping
          end
    end.
Proof.
  intros H. unfold main in H. run_inv.
  all: do 3 eexists.
  all: match goal with
       | H : (strings_TrimSpace _ =? "")%string = _ |- _ =>
           unfold picturesDir_of; rewrite H
       end.
  all: (split; [cbn [app]; reflexivity|]); cbv beta iota.
  all: try (split; reflexivity).
  all: do 2 eexists; (split; [reflexivity|]); cbv beta iota.
  all: try (split; reflexivity).
  all: match goal with
       | H : loop _ _ _ = _ |- _ =>
           do 5 eexists; split; [exact H|]
       end.
  all: (split;
         [first [cbn [app]; reflexivity
                |match goal with
                 | |- ?l = _ =>
                     let l' := flat l (@nil event) in
                     replace l with l' by flat_eq
                 end; reflexivity]|]); cbv beta iota.
  all: try (split; reflexivity).
  all: eexists; (split; [|reflexivity]).
  all: match goal with H : snd _ = _ |- _ => rewrite H end.
  all: trace_eq.
Qed.

(** A turn of the loop either fails, asks nothing and pauses once, or asks
    once, after a tool has set the wallpaper, and does not pause. *)
Lemma iteration_turn dir s c t s' :
  iteration dir s = (c, t, s') ->
  (c = Continue /\ scans t = [] /\ sleeps t = [two_seconds] /\
   exists t0, t = t0 ++ [EvSleep two_seconds]) \/
  (exists line tool args out,
     scans t = [line] /\ sleeps t = [] /\
     c = (if keeps line then Break else Continue) /\
     In (EvRun tool args (out, "", None)) t).
Proof.
  intros H. apply iteration_run in H.
  destruct H as (src & ferr & tf & sf & Hf & H).
  apply fetchRandomWallpaperURL_facts in Hf. destruct Hf as [Ff _].
  destruct ferr as [e|].
  - left. destruct H as (-> & tfl & -> & Fl).
    split; [reflexivity|].
    split; [unfold scans; proj_goal; reflexivity|].
    split; [unfold sleeps; proj_goal; reflexivity|].
    eexists. peel.
  - destruct H as (sd & derr & td & sd' & Hd & H).
    pose proof (proj1 (downloadWallpaper_facts _ _ _ _ _ _ Hd)) as Fd.
    destruct derr as [e|].
    + left. destruct H as (-> & tfl & -> & Fl).
      split; [reflexivity|].
      split; [unfold scans; proj_goal; reflexivity|].
      split; [unfold sleeps; proj_goal; reflexivity|].
      eexists. peel.
    + right. destruct H as (line & tfl & -> & Fl & ->).
      apply downloadWallpaper_success in Hd.
      destruct Hd as (tool & args & out & Hin).
      exists line, tool, args, out.
      split; [unfold scans; destruct (keeps line); proj_goal; reflexivity|].
      split; [unfold sleeps; destruct (keeps line); proj_goal; reflexivity|].
      split; [reflexivity|].
      in_search.
Qed.

(** The answers a run of the loop reads: every answer but the last one
    rejects, and the loop is left exactly when the last one keeps. *)
Lemma loop_answers fuel : forall dir s b t s',
  loop fuel dir s = (b, t, s') ->
  Forall (fun d => d = two_seconds) (sleeps t) /\
  if b then
    exists answers y tool args out,
      scans t = answers ++ [y] /\ keeps y = true /\
      Forall (fun l => keeps l = false) answers /\
      In (EvRun tool args (out, "", None)) t
  else Forall (fun l => keeps l = false) (scans t).
Proof.
  induction fuel as [|n IH]; intros dir s b t s' H.
  - cbn [loop] in H. run_inv. split; constructor.
  - destruct (iteration dir s) as [[c t0] s0] eqn:Hi.
    rewrite (loop_step n _ _ _ _ _ Hi) in H.
    apply iteration_turn in Hi.
    destruct Hi as [(-> & Hs & Hz & _)|(line & tool & args & out & Hs & Hz & -> & Hin)].
    + destruct (loop n dir s0) as [[b2 t2] s2] eqn:Hl.
      injection H as <- <- <-. apply IH in Hl. destruct Hl as [Hz2 Hl].
      unfold sleeps, scans in *. rewrite !flat_map_app, Hs, Hz. cbn [app].
      split; [constructor; [reflexivity | exact Hz2]|].
      destruct b2; [|exact Hl].
      destruct Hl as (answers & y & tool & args & out & ? & ? & ? & ?).
      exists answers, y, tool, args, out. repeat split; auto. in_search.
    + destruct (keeps line) eqn:Hk.
      * injection H as <- <- <-. unfold sleeps, scans in *. rewrite Hs, Hz.
        split; [constructor|].
        exists [], line, tool, args, out. repeat split; auto.
      * destruct (loop n dir s0) as [[b2 t2] s2] eqn:Hl.
        injection H as <- <- <-. apply IH in Hl. destruct Hl as [Hz2 Hl].
        unfold sleeps, scans in *. rewrite !flat_map_app, Hs, Hz. cbn [app].
        split; [exact Hz2|].
        destruct b2.
        -- destruct Hl as (answers & y & tool' & args' & out' & -> & ? & ? & ?).
           exists (line :: answers), y, tool', args', out'.
           repeat split; auto. in_search.
        -- constructor; assumption.
Qed.


(** X17: the program ends with status 1 exactly when one of the two
    directories cannot be created.  It then reports which one with
    [log.Fatalf] and stops at once: it sends no request, creates no file,
    and does not flush the log. *)
Theorem main_dies_without_directories fuel s e t s' :
  main fuel s = (e, t, s') ->
  (e = Exit 1 <->
   exists path perm err, In (EvMkdirAll path perm (Some err)) t) /\
  (e = Exit 1 ->
   exists pre path err,
     (t = pre ++ [EvMkdirAll path perm_0755 (Some err);
                  EvFatalf ("Failed to create logs directory: " +:+ err)] \/
      t = pre ++ [EvMkdirAll path perm_0755 (Some err);
                  EvFatalf ("Failed to create pictures directory: "
                              +:+ err)]) /\
     requests t = [] /\ created t = [] /\ nows t = []).
Proof.
  intros H. apply main_run in H. destruct H as (line & m1 & q & -> & H).
  destruct m1 as [err|].
  - destruct H as [-> ->]. split.
    + split; [intros _; do 3 eexists; in_search | reflexivity].
    + intros _. exists
        (EvPrint ("Wallhaven Download Started" +:+ nl)
         :: EvPrint
              "Enter the directory path to store wallpapers (e.g., /home/user/Pictures): "
         :: EvScan line
         :: (if String.eqb (strings_TrimSpace line) ""
             then [EvPrint ("No directory provided, using default: ./Pictures"
                              +:+ nl);
                   EvLog ("No directory provided, using default: ./Pictures"
                            +:+ nl)]
             else [])), logsDir, err.
      split; [left; cbn [app];
              first [reflexivity | rewrite <- app_assoc; reflexivity]|].
      unfold requests, created, nows.
      destruct (strings_TrimSpace line =? "")%string; repeat split.
  - destruct H as (m2 & q2 & -> & H). destruct m2 as [err|].
    + destruct H as [-> ->]. split.
      * split; [intros _; do 3 eexists; in_search | reflexivity].
      * intros _. exists
          (EvPrint ("Wallhaven Download Started" +:+ nl)
           :: EvPrint
                "Enter the directory path to store wallpapers (e.g., /home/user/Pictures): "
           :: EvScan line
           :: (if String.eqb (strings_TrimSpace line) ""
               then [EvPrint ("No directory provided, using default: ./Pictures"
                                +:+ nl);
                     EvLog ("No directory provided, using default: ./Pictures"
                              +:+ nl)]
               else [])
           ++ [EvMkdirAll logsDir perm_0755 None]), (picturesDir_of line), err.
        split; [right; cbn [app];
                first [reflexivity | rewrite <- app_assoc; reflexivity]|].
        unfold requests, created, nows.
        destruct (strings_TrimSpace line =? "")%string; repeat split.
    + destruct H as (sl & left_ & tl & sl' & q3 & Hl & -> & H).
      pose proof (loop_turn_ev _ _ _ _ _ _ Hl) as Ft.
      assert (He : e <> Exit 1).
      { destruct left_; [destruct H as (wd & _ & ->) | destruct H as [_ ->]];
          discriminate. }
      split; [|intros E; contradiction].
      split; [intros E; contradiction|].
      intros (path & perm & err & Hin). exfalso.
      destruct left_; [destruct H as (wd & -> & _) | destruct H as [-> _]].
      * destruct (strings_TrimSpace line =? "")%string, (snd wd);
          in_cases Hin.
      * destruct (strings_TrimSpace line =? "")%string; in_cases Hin.
Qed.

(** X18: the program ends with status 0 only after a wallpaper was set
    and kept.  In a run that ends so and in which every line read is made
    of ASCII bytes, a tool has run without error and without output on
    stderr, the last line read is an answer that keeps (it trims and
    lower-cases to y), every answer before it rejected, and the working
    directory is the last thing printed.  Every pause in the run lasted
    two seconds. *)
Theorem main_exits_after_yes fuel s e t s' :
  main fuel s = (e, t, s') ->
  Forall (fun l => is_ascii l = true) (scans t) ->
  Forall (fun d => d = two_seconds) (sleeps t) /\
  (e = Exit 0 ->
   exists dirline answers y tool args out wd pre,
     scans t = dirline :: answers ++ [y] /\
     keeps y = true /\
     Forall (fun l => keeps l = false) answers /\
     In (EvRun tool args (out, "", None)) t /\
     t = pre ++ [EvPrint (fst wd +:+ nl)] /\ In (EvGetwd wd) pre).
Proof.
  intros H _. apply main_run in H. destruct H as (line & m1 & q & -> & H).
  destruct m1 as [err|].
  { destruct H as [-> ->]. split; [|discriminate].
    unfold sleeps. destruct (strings_TrimSpace line =? "")%string; constructor. }
  destruct H as (m2 & q2 & -> & H). destruct m2 as [err|].
  { destruct H as [-> ->]. split; [|discriminate].
    unfold sleeps. destruct (strings_TrimSpace line =? "")%string; constructor. }
  destruct H as (sl & left_ & tl & sl' & q3 & Hl & -> & H).
  apply loop_answers in Hl. destruct Hl as [Hz Hl].
  destruct left_.
  - destruct H as (wd & -> & ->).
    destruct Hl as (answers & y & tool & args & out & Hs & Hk & Hrej & Hin).
    split.
    + unfold sleeps in *.
      destruct (strings_TrimSpace line =? "")%string, (snd wd);
        cbn [flat_map app]; rewrite ?flat_map_app; cbn [flat_map app];
        rewrite ?app_nil_r; exact Hz.
    + intros _.
      match goal with
      | |- exists _ _ _ _ _ _ _ _, scans ?tr = _ /\ _ =>
          assert (Hend : exists pre,
                    tr = pre ++ [EvPrint (fst wd +:+ nl)] /\
                    In (EvGetwd wd) pre)
      end.
      { destruct (strings_TrimSpace line =? "")%string, (snd wd);
          eexists; (split; [peel | in_search]). }
      destruct Hend as (pre & Ht & Hg).
      exists line, answers, y, tool, args, out, wd, pre.
      split; [|split; [exact Hk|split; [exact Hrej|split; [|split]]]].
      * unfold scans in *.
        destruct (strings_TrimSpace line =? "")%string, (snd wd);
          cbn [flat_map app]; rewrite ?flat_map_app; cbn [flat_map app];
          rewrite ?app_nil_r, Hs; reflexivity.
      * destruct (strings_TrimSpace line =? "")%string; in_search.
      * exact Ht.
      * exact Hg.
  - destruct H as [-> ->]. split; [|discriminate].
    unfold sleeps in *.
    destruct (strings_TrimSpace line =? "")%string;
      cbn [flat_map app]; rewrite ?flat_map_app; cbn [flat_map app];
      rewrite ?app_nil_r; exact Hz.
Qed.

(** X19: a turn of the loop pauses exactly when it failed.  Either the
    fetch or the download returned an error [e]: the turn prints and logs
    "Error fetching random wallpaper URL: e" or "Error downloading
    wallpaper: e", asks nothing, pauses once, for two seconds, as its last
    step, and continues.  Or the wallpaper was set: the user is asked
    once, and the turn ends without a pause, so that a rejected wallpaper
    is followed by the next fetch at once; for an answer of ASCII bytes
    the turn leaves the loop exactly when the answer keeps. *)
Theorem iteration_pauses_after_failure_only dir s c t s' :
  iteration dir s = (c, t, s') ->
  (c = Continue /\ scans t = [] /\ sleeps t = [two_seconds] /\
   exists t0 e,
     t = t0 ++ [EvSleep two_seconds] /\
     ((In (EvPrint ("Error fetching random wallpaper URL: " +:+ e +:+ nl)) t0 /\
       In (EvLog ("Error fetching random wallpaper URL: " +:+ e +:+ nl)) t0) \/
      (In (EvPrint ("Error downloading wallpaper: " +:+ e +:+ nl)) t0 /\
       In (EvLog ("Error downloading wallpaper: " +:+ e +:+ nl)) t0))) \/
  (exists line tool args out,
     scans t = [line] /\ sleeps t = [] /\
     (is_ascii line = true ->
      c = (if keeps line then Break else Continue)) /\
     In (EvRun tool args (out, "", None)) t).
Proof.
  intros H. apply iteration_run in H.
  destruct H as (src & ferr & tf & sf & Hf & H).
  apply fetchRandomWallpaperURL_facts in Hf. destruct Hf as [Ff _].
  destruct ferr as [e|].
  - left. destruct H as (-> & tfl & -> & Fl).
    split; [reflexivity|].
    split; [unfold scans; proj_goal; reflexivity|].
    split; [unfold sleeps; proj_goal; reflexivity|].
    exists (tf ++ EvPrint ("Error fetching random wallpaper URL: "
                             +:+ e +:+ nl)
               :: EvLog ("Error fetching random wallpaper URL: "
                           +:+ e +:+ nl) :: tfl), e.
    split; [now rewrite <- app_assoc|]. left. split; in_search.
  - destruct H as (sd & derr & td & sd' & Hd & H).
    pose proof (proj1 (downloadWallpaper_facts _ _ _ _ _ _ Hd)) as Fd.
    destruct derr as [e|].
    + left. destruct H as (-> & tfl & -> & Fl).
      split; [reflexivity|].
      split; [unfold scans; proj_goal; reflexivity|].
      split; [unfold sleeps; proj_goal; reflexivity|].
      exists (tf ++ EvPrint (src +:+ nl) :: EvLog (src +:+ nl)
                 :: td
                 ++ EvPrint ("Error downloading wallpaper: " +:+ e +:+ nl)
                 :: EvLog ("Error downloading wallpaper: " +:+ e +:+ nl)
                 :: tfl), e.
      split; [trace_eq|]. right. split; in_search.
    + right. destruct H as (line & tfl & -> & Fl & ->).
      apply downloadWallpaper_success in Hd.
      destruct Hd as (tool & args & out & Hin).
      exists line, tool, args, out.
      split; [unfold scans; destruct (keeps line); proj_goal; reflexivity|].
      split; [unfold sleeps; destruct (keeps line); proj_goal; reflexivity|].
      split; [reflexivity|].
      in_search.
Qed.

(** After [flushLog] the buffer is empty, or the failure was reported. *)
Lemma flushLog_buffer s u t s' :
  flushLog s = (u, t, s') ->
  logBuffer s' = "" \/
  exists e, In (EvLogPrintf ("Failed to write log: " +:+ e)) t.
Proof.
  intros H. apply flushLog_run in H.
  destruct H as (r & tw & sw & q & Hw & -> & Hb & Hq).
  apply writeLog_run in Hw. destruct Hw as (now & o & q0 & -> & Hw).
  destruct r as [e|].
  - right. subst q. exists e. in_search.
  - left. rewrite Hb. destruct o as [f|e].
    + destruct Hw as (w & c & _ & Hw). destruct (snd w); [|apply Hw].
      destruct Hw as [Hw _]. discriminate Hw.
    + destruct Hw as (_ & Hw & _). discriminate Hw.
Qed.

(** X20: every turn of the loop ends with the log written out.  When a
    turn is over, [logBuffer] is empty, unless the flush failed, and then
    the failure was reported with [log.Printf] and the text stays in the
    buffer for the next flush. *)
Theorem iteration_ends_flushed dir s c t s' :
  iteration dir s = (c, t, s') ->
  logBuffer s' = "" \/
  exists e, In (EvLogPrintf ("Failed to write log: " +:+ e)) t.
Proof.
  intros H. unfold iteration in H. run_inv.
  all: match goal with
       | R : flushLog _ = (_, _, ?sf) |- _ =>
           apply flushLog_buffer in R; destruct R as [Hb|(e & Hin)];
           [left; congruence | right; exists e; in_search]
       end.
Qed.

Lemma loop_requests fuel : forall dir s b t s' req resp,
  loop fuel dir s = (b, t, s') ->
  In (EvDo req resp) t ->
  Method req = "GET" /\ Header req !! "User-Agent" = Some userAgent.
Proof.
  induction fuel as [|n IH]; intros dir s b t s' req resp H Hin.
  - cbn [loop] in H. run_inv. destruct Hin.
  - destruct (iteration dir s) as [[c t0] s0] eqn:Hi.
    rewrite (loop_step n _ _ _ _ _ Hi) in H.
    assert (Ht0 : In (EvDo req resp) t0 ->
                  Method req = "GET" /\
                  Header req !! "User-Agent" = Some userAgent).
    { clear H Hin. intros Hin. apply iteration_run in Hi.
      destruct Hi as (src & ferr & tf & sf & Hf & Hi).
      apply fetchRandomWallpaperURL_facts in Hf. destruct Hf as [_ Hf].
      destruct ferr as [e|].
      - destruct Hi as (_ & tfl & -> & Fl). in_cases Hin.
        destruct (Hf _ _ Hin) as (? & _ & ?). auto.
      - destruct Hi as (sd & derr & td & sd' & Hd & Hi).
        apply downloadWallpaper_facts in Hd.
        destruct Hd as (_ & _ & Hd & _).
        destruct derr as [e|].
        + destruct Hi as (_ & tfl & -> & Fl). in_cases Hin.
          * destruct (Hf _ _ Hin) as (? & _ & ?). auto.
          * exact (Hd _ _ Hin).
        + destruct Hi as (line & tfl & -> & Fl & _). in_cases Hin.
          * destruct (Hf _ _ Hin) as (? & _ & ?). auto.
          * exact (Hd _ _ Hin).
          * destruct (keeps line); in_cases Hin. }
    destruct c.
    + destruct (loop n dir s0) as [[b2 t2] s2] eqn:Hl.
      injection H as <- <- <-. apply in_app_or in Hin.
      destruct Hin as [Hin|Hin]; [auto | eapply IH; eassumption].
    + injection H as <- <- <-. auto.
Qed.

(** X21: every request the program sends, for the random page, for a
    detail page or for an image, in any turn of the loop, is a GET that
    carries the fixed User-Agent header. *)
Theorem every_request_is_a_get_with_user_agent fuel s e t s' req resp :
  main fuel s = (e, t, s') ->
  In (EvDo req resp) t ->
  Method req = "GET" /\ Header req !! "User-Agent" = Some userAgent.
Proof.
  intros H Hin. apply main_run in H. destruct H as (line & m1 & q & -> & H).
  destruct m1 as [err|].
  { destruct H as [-> _].
    destruct (strings_TrimSpace line =? "")%string; in_cases Hin. }
  destruct H as (m2 & q2 & -> & H). destruct m2 as [err|].
  { destruct H as [-> _].
    destruct (strings_TrimSpace line =? "")%string; in_cases Hin. }
  destruct H as (sl & left_ & tl & sl' & q3 & Hl & -> & H).
  assert (Hq3 : ~ In (EvDo req resp) q3).
  { destruct left_; [destruct H as (wd & -> & _) | destruct H as [-> _]];
      intros Hin'; [destruct (snd wd)|]; in_cases Hin'. }
  assert (Htl : In (EvDo req resp) tl).
  { destruct (strings_TrimSpace line =? "")%string; in_cases Hin;
      first [assumption | contradiction]. }
  eapply loop_requests; eassumption.
Qed.

End SessionMore.

(** *** The answer that keeps a wallpaper *)

Lemma trim_left_spec s :
  exists l, all_space l = true /\ s = l +:+ trim_left s.
Proof.
  induction s as [|c s IH]; [exists ""; auto|].
  cbn [trim_left]. destruct (is_space c) eqn:E.
  - destruct IH as (l & Hl & Hs). exists (String c l). split.
    + cbn [all_space]. now rewrite E, Hl.
    + change (String c s = String c (l +:+ trim_left s)). now rewrite <- Hs.
  - exists "". auto.
Qed.

Lemma trim_right_spec s :
  exists r, all_space r = true /\ s = trim_right s +:+ r.
Proof.
  induction s as [|c s IH]; [exists ""; auto|].
  destruct IH as (r & Hr & Hs). cbn [trim_right].
  destruct (trim_right s) as [|d s'] eqn:E.
  - change ("" +:+ r) with r in Hs. subst s.
    destruct (is_space c) eqn:Ec.
    + exists (String c r). split; [cbn [all_space]; now rewrite Ec, Hr | reflexivity].
    + exists r. split; [exact Hr | reflexivity].
  - exists r. split; [exact Hr|].
    change (String c s = String c (String d s' +:+ r)). now rewrite <- Hs.
Qed.

Lemma trim_left_spaces l s :
  all_space l = true -> trim_left (l +:+ s) = trim_left s.
Proof.
  induction l as [|c l IH]; intros H; [reflexivity|].
  cbn [all_space] in H. apply andb_prop in H. destruct H as [Hc Hl].
  change (trim_left (String c (l +:+ s)) = trim_left s).
  cbn [trim_left]. rewrite Hc. auto.
Qed.

Lemma trim_right_spaces r : all_space r = true -> trim_right r = "".
Proof.
  induction r as [|c r IH]; intros H; [reflexivity|].
  cbn [all_space] in H. apply andb_prop in H. destruct H as [Hc Hr].
  cbn [trim_right]. now rewrite (IH Hr), Hc.
Qed.

Lemma lower_byte_y c : lower_byte c = "y"%char -> c = "y"%char \/ c = "Y"%char.
Proof.
  destruct c as [[] [] [] [] [] [] [] []]; vm_compute; intros H;
    first [discriminate H | now left | now right].
Qed.

(** X22: the answers that keep a wallpaper.  A line of ASCII bytes keeps
    exactly when it is the letter y, in lower or upper case, with nothing
    but white space (space, tab, line feed, vertical tab, form feed,
    carriage return) before and after it; "yes" does not keep. *)
Theorem keeps_exactly_y line :
  is_ascii line = true ->
  (keeps line = true <->
   exists l r,
     all_space l = true /\ all_space r = true /\
     (line = l +:+ "y" +:+ r \/ line = l +:+ "Y" +:+ r)).
Proof.
  intros _. unfold keeps, strings_TrimSpace. split.
  - intros H. apply String.eqb_eq in H.
    destruct (trim_left_spec line) as (l & Hl & Hline).
    destruct (trim_right_spec (trim_left line)) as (r & Hr & Htl).
    destruct (trim_right (trim_left line)) as [|c [|d rest]];
      cbn [strings_ToLower] in H; try discriminate H.
    injection H as H. apply lower_byte_y in H.
    exists l, r. split; [exact Hl|]. split; [exact Hr|].
    destruct H as [-> | ->]; [left | right];
      (etransitivity; [exact Hline|]); rewrite Htl; reflexivity.
  - assert (Hc : forall c l r,
              all_space l = true -> all_space r = true ->
              is_space c = false ->
              trim_right (trim_left (l +:+ String c "" +:+ r))
              = String c "").
    { intros c l r Hl Hr Hc. rewrite (trim_left_spaces _ _ Hl).
      change (String c "" +:+ r) with (String c r).
      cbn [trim_left trim_right]. rewrite Hc.
      cbn [trim_right]. now rewrite (trim_right_spaces _ Hr), Hc. }
    intros (l & r & Hl & Hr & [-> | ->]).
    + rewrite (Hc "y"%char _ _ Hl Hr eq_refl). reflexivity.
    + rewrite (Hc "Y"%char _ _ Hl Hr eq_refl). reflexivity.
Qed.

Lemma keeps_exactly_y_witness :
  keeps " Y " = true /\ keeps "yes" = false.
Proof.
  split.
  - apply (proj2 (keeps_exactly_y " Y " eq_refl)).
    exists " ", " ". repeat split. now right.
  - destruct (keeps "yes") eqn:E; [|reflexivity]. exfalso.
    apply (proj1 (keeps_exactly_y "yes" eq_refl)) in E.
    destruct E as (l & r & Hl & Hr & [E|E]).
    + destruct l as [|c l].
      * change ("yes" = String "y" r) in E. injection E as <-.
        discriminate Hr.
      * change ("yes" = String c (l +:+ "y" +:+ r)) in E. injection E as <- E.
        discriminate Hl.
    + destruct l as [|c l].
      * change ("yes" = String "Y" r) in E. discriminate E.
      * change ("yes" = String c (l +:+ "Y" +:+ r)) in E. injection E as <- E.
        discriminate Hl.
Defined.

(** *** The session on the simulated platform *)


Lemma main_dies_without_directories_witness :
  fst (fst (@main (faulty readonly_fs) 1 (@mkSt (faulty readonly_fs) "" world0)))
  = Exit 1.
Proof.
  apply (proj1 (@main_dies_without_directories (faulty readonly_fs) 1
                  (@mkSt (faulty readonly_fs) "" world0) _ _ _ (run_eta _))).
  exists "logs", perm_0755, "read-only file system". find_in.
Defined.

Lemma main_exits_after_yes_witness :
  scans (snd (fst (@main simulated 2 (start picky_world)))) = [""; "no"; "Y"] /\
  exists dirline answers y tool args out wd pre,
    scans (snd (fst (@main simulated 2 (start picky_world))))
    = dirline :: answers ++ [y] /\
    keeps y = true /\
    Forall (fun l => keeps l = false) answers /\
    In (EvRun tool args (out, "", None))
       (snd (fst (@main simulated 2 (start picky_world)))) /\
    snd (fst (@main simulated 2 (start picky_world)))
    = pre ++ [EvPrint (fst wd +:+ nl)] /\
    In (EvGetwd wd) pre.
Proof.
  assert (Hs : scans (snd (fst (@main simulated 2 (start picky_world))))
               = [""; "no"; "Y"]) by (vm_compute; reflexivity).
  split; [exact Hs|].
  apply (proj2 (@main_exits_after_yes simulated 2 (start picky_world) _ _ _
                  (run_eta _)
                  ltac:(rewrite Hs; repeat constructor))).
  vm_compute. reflexivity.
Defined.

Lemma iteration_pauses_after_failure_only_witness :
  (fst (fst locked_log_turn) = Continue /\
   scans (snd (fst locked_log_turn)) = [] /\
   sleeps (snd (fst locked_log_turn)) = [two_seconds] /\
   exists t0 e,
     snd (fst locked_log_turn) = t0 ++ [EvSleep two_seconds] /\
     ((In (EvPrint ("Error fetching random wallpaper URL: " +:+ e +:+ nl)) t0 /\
       In (EvLog ("Error fetching random wallpaper URL: " +:+ e +:+ nl)) t0) \/
      (In (EvPrint ("Error downloading wallpaper: " +:+ e +:+ nl)) t0 /\
       In (EvLog ("Error downloading wallpaper: " +:+ e +:+ nl)) t0))) \/
  (exists line tool args out,
     scans (snd (fst locked_log_turn)) = [line] /\
     sleeps (snd (fst locked_log_turn)) = [] /\
     (is_ascii line = true ->
      fst (fst locked_log_turn) = (if keeps line then Break else Continue)) /\
     In (EvRun tool args (out, "", None)) (snd (fst locked_log_turn))).
Proof.
  exact (@iteration_pauses_after_failure_only simulated "Pictures"
           (start locked_log_world) _ _ _ (run_eta _)).
Defined.

Lemma iteration_ends_flushed_witness :
  @logBuffer simulated
    (snd (@iteration simulated "Pictures" (start keep_world))) = "" \/
  exists e,
    In (EvLogPrintf ("Failed to write log: " +:+ e))
       (snd (fst (@iteration simulated "Pictures" (start keep_world)))).
Proof.
  exact (@iteration_ends_flushed simulated "Pictures" (start keep_world)
           _ _ _ (run_eta _)).
Defined.

Lemma every_request_is_a_get_with_user_agent_witness :
  Method (Header_Set (mkRequest "GET" "https://wallhaven.cc/random" ∅)
            "User-Agent" userAgent) = "GET" /\
  Header (Header_Set (mkRequest "GET" "https://wallhaven.cc/random" ∅)
            "User-Agent" userAgent) !! "User-Agent" = Some userAgent.
Proof.
  refine (@every_request_is_a_get_with_user_agent simulated 1
            (start world0) _ _ _ _ (Ok (mkResponse 200 (mkBody 1)))
            (run_eta _) _).
  find_in.
Defined.
